(** * detectron2/export/caffe2_inference.py

    A shallow embedding of the two adapters of
    [detectron2/export/caffe2_inference.py]: [ProtobufModel], which drives a
    caffe2 net inside a named workspace, and [ProtobufDetectionModel], which
    wraps it with the input and output conversions of a detection model.

    The caffe2 engine is an external collaborator.  Its workspace API is
    modelled as operations on an explicit process state (named workspaces of
    blobs, registered nets, a trace of the calls made); what the engine
    computes when it runs a net is left abstract in the class [Engine]. *)

From Stdlib Require Import ZArith Lia.
From stdpp Require Import gmap strings list fin_maps.

Local Open Scope Z_scope.
Local Open Scope string_scope.
Local Open Scope list_scope.

(** ** Python values and exceptions *)

(** The exceptions the modelled code can raise or let through.  [KeyError] is
    Python's subclass of [LookupError]; [UnicodeDecodeError] is a subclass of
    [ValueError]. *)
Inductive exn :=
| AssertionError
| TypeError (msg : string)
| AttributeError (msg : string)
| RuntimeError (msg : string)
| KeyError (key : string)
| UnicodeDecodeError
| OtherError (msg : string).

Definition is_LookupError (e : exn) : bool :=
  match e with KeyError _ => true | _ => false end.

Definition is_RuntimeError (e : exn) : bool :=
  match e with RuntimeError _ => true | _ => false end.

Inductive result (A : Type) :=
| Return (a : A)
| Raise (e : exn).
Arguments Return {A} a.
Arguments Raise {A} e.

Definition returns {A} (r : result A) : bool :=
  match r with Return _ => true | Raise _ => false end.

(** A numpy array: nested lists of elements. *)
#[local] Set Warnings "-register-all".
Inductive ndarray (Elem : Type) :=
| Item (e : Elem)
| Nest (l : list (ndarray Elem)).
Arguments Item {Elem} e.
Arguments Nest {Elem} l.

(** [a.shape].  An array has a shape when its nesting is regular: a scalar
    has the empty shape, and a nest has one when all its members have the
    same shape, which its own length is put in front of; an empty nest has
    the shape [(0,)].  A ragged nest has none. *)
Definition shape_of_members (shapes : list (option (list nat)))
    : option (list nat) :=
  match shapes with
  | [] => Some [0%nat]
  | None :: _ => None
  | Some s :: rest =>
      if forallb (fun r => bool_decide (r = Some s)) rest
      then Some (length shapes :: s)
      else None
  end.

Fixpoint shape {Elem} (a : ndarray Elem) : option (list nat) :=
  match a with
  | Item _ => Some []
  | Nest l => shape_of_members (List.map shape l)
  end.

(** What is fed to and fetched from a blob: an array or a string. *)
Inductive pyval (Elem : Type) :=
| Array (a : ndarray Elem)
| Str (s : string).
Arguments Array {Elem} a.
Arguments Str {Elem} s.

(** The shape of the array under a key of a dictionary, when there is one. *)
Definition shape_of {Elem} (v : option (pyval Elem)) : option (list nat) :=
  match v with
  | Some (Array a) => shape a
  | _ => None
  end.

(** ** Ordered dictionaries ([dict], [collections.OrderedDict])

    An association list in insertion order.  Setting a key that is present
    replaces its value in place, setting a new key appends it. *)
Module odict.

Definition t (V : Type) := list (string * V).

Definition keys {V} (d : t V) : list string := d.*1.

Fixpoint get {V} (k : string) (d : t V) : option V :=
  match d with
  | [] => None
  | (k', v) :: d' => if decide (k = k') then Some v else get k d'
  end.

Fixpoint set {V} (k : string) (v : V) (d : t V) : t V :=
  match d with
  | [] => [(k, v)]
  | (k', v') :: d' =>
      if decide (k = k') then (k', v) :: d' else (k', v') :: set k v d'
  end.

(** [OrderedDict(pairs)] and [dict(pairs)]. *)
Definition of_pairs {V} (pairs : list (string * V)) : t V :=
  foldl (fun d kv => set kv.1 kv.2 d) [] pairs.

(** The keys of a dictionary built from pairs: each key once, at the
    place of its first occurrence. *)
Definition add_key (ks : list string) (k : string) : list string :=
  if decide (k ∈ ks) then ks else ks ++ [k].

Definition first_occurrences (ks : list string) : list string :=
  foldl add_key [] ks.

End odict.

(** ** State and exception monad

    A computation takes a state and gives a result or an exception, and the
    state it leaves behind: what was changed before an exception stays
    changed. *)
Definition M (S A : Type) : Type := S -> result A * S.

Definition ret {S A} (a : A) : M S A := fun s => (Return a, s).

Definition raise {S A} (e : exn) : M S A := fun s => (Raise e, s).

Definition bind {S A B} (c : M S A) (k : A -> M S B) : M S B :=
  fun s =>
    match c s with
    | (Return a, s') => k a s'
    | (Raise e, s') => (Raise e, s')
    end.

Notation "x <- c ;; k" := (bind c (fun x => k))
  (at level 100, c at next level, right associativity).
Notation "c ;;; k" := (bind c (fun _ => k))
  (at level 100, right associativity).

Definition gets {S A} (f : S -> A) : M S A := fun s => (Return (f s), s).

Definition modify {S} (f : S -> S) : M S unit := fun s => (Return tt, f s).

(** [assert cond] *)
Definition assert {S} (cond : bool) : M S unit :=
  if cond then ret tt else raise AssertionError.

(** [for x in xs: body(x)] *)
Fixpoint for_each {S A} (xs : list A) (body : A -> M S unit) : M S unit :=
  match xs with
  | [] => ret tt
  | x :: xs' => body x ;;; for_each xs' body
  end.

(** [[f(x) for x in xs]] *)
Fixpoint list_comp {S A B} (xs : list A) (f : A -> M S B) : M S (list B) :=
  match xs with
  | [] => ret []
  | x :: xs' => y <- f x ;; ys <- list_comp xs' f ;; ret (y :: ys)
  end.

(** [try: body  except RuntimeError as e: handler(str(e))] *)
Definition try_except_RuntimeError {S A}
    (body : M S A) (handler : string -> M S A) : M S A :=
  fun s =>
    match body s with
    | (Raise (RuntimeError msg), s') => handler msg s'
    | other => other
    end.

(** [try: body  finally: cleanup] *)
Definition try_finally {S A} (body : M S A) (cleanup : M S unit) : M S A :=
  fun s =>
    match body s with
    | (r, s') =>
        match cleanup s' with
        | (Return _, s'') => (r, s'')
        | (Raise e, s'') => (Raise e, s'')
        end
    end.

(** ** Graph definitions ([caffe2_pb2])

    An immutable definition of a computation graph: a name, an ordered list
    of operators, the declared external inputs and outputs, and side-channel
    arguments keyed by name. *)
Module caffe2_pb2.

Record OperatorDef := {
  type : string;
  input : list string;
  output : list string
}.

(** An argument carries an integer field [i] and a bytes field [s]. *)
Record Argument := {
  arg_name : string;
  i : Z;
  s : string
}.

Record NetDef := {
  name : string;
  op : list OperatorDef;
  external_input : list string;
  external_output : list string;
  arg : list Argument
}.

End caffe2_pb2.

Abbreviation NetDef := caffe2_pb2.NetDef.

(** An argument given where the code expects a graph definition: a [NetDef]
    or any other object. *)
Inductive pyobj :=
| ObjNetDef (n : NetDef)
| ObjOther.

(** ** Workspaces *)

(** A blob is created uninitialized and holds a value once it has been fed or
    written by an operator. *)
Inductive blob (Elem : Type) :=
| Uninitialized
| Holds (v : pyval Elem).
Arguments Uninitialized {Elem}.
Arguments Holds {Elem} v.

Record Workspace (Elem : Type) := {
  blobs : gmap string (blob Elem);
  nets : gmap string NetDef
}.
Arguments blobs {Elem} w.
Arguments nets {Elem} w.

Definition empty_workspace {Elem} : Workspace Elem :=
  {| blobs := ∅; nets := ∅ |}.

(** The types an engine works with: the elements of its tensors and the
    state it keeps of its own. *)
Class Types := {
  Elem : Type;
  EngineState : Type
}.

(** What the engine computes is not part of this code.  An engine has a state
    of its own (so that two runs on equal blobs need not agree) and, for each
    entry point that executes or compiles a graph, a function giving the
    blobs and the engine state it leaves and the exception it raises, if any.
    [core_Net] is what [core.Net(proto).Proto()] gives back (the engine's
    Python layer copies the definition and may rename it). *)
Class Engine `{Types} := {
  core_Net : NetDef -> EngineState -> NetDef * EngineState;
  run_net_once_sem :
    NetDef -> EngineState -> gmap string (blob Elem) ->
    option exn * gmap string (blob Elem) * EngineState;
  create_net_sem :
    NetDef -> EngineState -> gmap string (blob Elem) ->
    option exn * gmap string (blob Elem) * EngineState;
  run_net_sem :
    string -> gmap string NetDef -> EngineState -> gmap string (blob Elem) ->
    option exn * gmap string (blob Elem) * EngineState
}.

(** An ordered mapping from blob names to values. *)
Abbreviation TensorDict := (odict.t (pyval Elem)).

Inductive log_level := INFO | WARNING.

(** The calls made on the engine's workspace API and on the logger, in the
    order they are made. *)
Inductive event `{Types} :=
| EvSwitchWorkspace (ws_name : string)
| EvResetWorkspace
| EvRunNetOnce (n : NetDef)
| EvCreateBlob (b : string)
| EvCreateNet (n : NetDef)
| EvFeedBlob (b : string) (v : pyval Elem)
| EvRunNet (net_name : string)
| EvFetchBlob (b : string)
| EvLog (level : log_level) (msg : string).

(** The process: its named workspaces, the name of the current one, the
    engine's own state and the trace of calls so far. *)
Record Process `{Types} := {
  workspaces : gmap string (Workspace Elem);
  current : string;
  engine : EngineState;
  trace : list event
}.

(** A state that contains the process: the process itself, or the process
    together with the object a method runs on. *)
Class HasProcess `{Types} (S : Type) := {
  proc : S -> Process;
  with_proc : Process -> S -> S;
  proc_with_proc : forall P s, proc (with_proc P s) = P;
  with_proc_with_proc : forall P P' s,
    with_proc P (with_proc P' s) = with_proc P s;
  with_proc_proc : forall s, with_proc (proc s) s = s
}.

#[export] Instance Process_HasProcess `{Types} : HasProcess Process.
Proof. by refine {| proc := fun P => P; with_proc := fun P _ => P |}. Defined.

#[export] Instance self_HasProcess `{Types} (Self : Type)
    : HasProcess (Self * Process).
Proof.
  refine {| proc := snd; with_proc := fun P s => (s.1, P) |}; try done.
  by intros [??].
Defined.

(** Runs a computation on a part of the state. *)
Definition zoom {S1 S2 A} (get : S2 -> S1) (put : S1 -> S2 -> S2)
    (c : M S1 A) : M S2 A :=
  fun s => match c (get s) with (r, s1) => (r, put s1 s) end.

Section workspace.
Context `{Tys : Types} `{Eng : !Engine} {S : Type} `{!HasProcess S}.

Definition current_workspace (P : Process) : Workspace Elem :=
  default empty_workspace (workspaces P !! current P).

Definition set_current_workspace (w : Workspace Elem) (P : Process)
    : Process :=
  {| workspaces := <[current P := w]> (workspaces P);
     current := current P; engine := engine P; trace := trace P |}.

Definition set_blobs (bs : gmap string (blob Elem)) (P : Process)
    : Process :=
  set_current_workspace
    {| blobs := bs; nets := nets (current_workspace P) |} P.

Definition set_engine (e : EngineState) (P : Process) : Process :=
  {| workspaces := workspaces P; current := current P;
     engine := e; trace := trace P |}.

Definition record (e : event) (P : Process) : Process :=
  {| workspaces := workspaces P; current := current P;
     engine := engine P; trace := trace P ++ [e] |}.

Definition update (f : Process -> Process) : M S unit :=
  modify (fun s => with_proc (f (proc s)) s).

Definition emit (e : event) : M S unit := update (record e).

(** The outcome of an engine entry point: its blobs and state are kept,
    its exception is raised. *)
Definition engine_call
    (f : EngineState -> gmap string (blob Elem) ->
         option exn * gmap string (blob Elem) * EngineState) : M S unit :=
  fun s =>
    let P := proc s in
    match f (engine P) (blobs (current_workspace P)) with
    | (err, bs, e) =>
        let s' := with_proc (set_engine e (set_blobs bs P)) s in
        match err with
        | None => (Return tt, s')
        | Some x => (Raise x, s')
        end
    end.

Definition CurrentWorkspace : M S string :=
  gets (fun s => current (proc s)).

(** [workspace.SwitchWorkspace(name, create_if_missing)] *)
Definition SwitchWorkspace (ws_name : string) (create_if_missing : bool)
    : M S unit :=
  emit (EvSwitchWorkspace ws_name) ;;;
  known <- gets (fun s =>
             bool_decide (is_Some (workspaces (proc s) !! ws_name))) ;;
  if known || create_if_missing then
    update (fun P =>
      {| workspaces :=
           if known then workspaces P
           else <[ws_name := empty_workspace]> (workspaces P);
         current := ws_name; engine := engine P; trace := trace P |})
  else raise (RuntimeError ("Workspace " +:+ ws_name +:+ " does not exist.")).

(** [workspace.ResetWorkspace()]: the current workspace loses its blobs
    and its nets. *)
Definition ResetWorkspace : M S unit :=
  emit EvResetWorkspace ;;;
  update (set_current_workspace empty_workspace).

Definition RunNetOnce (n : NetDef) : M S unit :=
  emit (EvRunNetOnce n) ;;;
  engine_call (run_net_once_sem n).

Definition Blobs : M S (list string) :=
  gets (fun s => elements (dom (blobs (current_workspace (proc s))))).

(** [workspace.CreateBlob(b)]: an uninitialized blob, unless the blob is
    there already. *)
Definition CreateBlob (b : string) : M S unit :=
  emit (EvCreateBlob b) ;;;
  update (fun P =>
    let bs := blobs (current_workspace P) in
    match bs !! b with
    | Some _ => P
    | None => set_blobs (<[b := Uninitialized]> bs) P
    end).

(** [workspace.CreateNet(net)]: the engine compiles the net, and on
    success the net is registered in the workspace under its name. *)
Definition CreateNet (n : NetDef) : M S unit :=
  emit (EvCreateNet n) ;;;
  engine_call (create_net_sem n) ;;;
  update (fun P =>
    let w := current_workspace P in
    set_current_workspace
      {| blobs := blobs w; nets := <[caffe2_pb2.name n := n]> (nets w) |} P).

Definition FeedBlob (b : string) (v : pyval Elem) : M S unit :=
  emit (EvFeedBlob b v) ;;;
  update (fun P =>
    set_blobs (<[b := Holds v]> (blobs (current_workspace P))) P).

(** [workspace.RunNet(name)]: the engine runs the net registered under
    that name. *)
Definition RunNet (net_name : string) : M S unit :=
  emit (EvRunNet net_name) ;;;
  nets_now <- gets (fun s => nets (current_workspace (proc s))) ;;
  engine_call (run_net_sem net_name nets_now).

(** What fetching an uninitialized blob gives: the engine's description of
    an empty blob. *)
Definition uninitialized_repr (b : string) : string :=
  b +:+ ", a C++ native class of type nullptr (uninitialized).".

(** [workspace.FetchBlob(b)]: fails when there is no such blob. *)
Definition FetchBlob (b : string) : M S (pyval Elem) :=
  emit (EvFetchBlob b) ;;;
  found <- gets (fun s => blobs (current_workspace (proc s)) !! b) ;;
  match found with
  | None => raise (RuntimeError ("Can't find blob: " +:+ b))
  | Some Uninitialized => ret (Str (uninitialized_repr b))
  | Some (Holds v) => ret v
  end.

(** Modelled from the spec: [ScopedWS] of [export/shared.py], which is not
    among the sources.  The spec speaks of a named workspace that the
    runner creates and reuses across calls; the arguments are the name and
    the flags [is_reset] and [is_cleanup].  The context manager enters the
    workspace of that name, creating it when it is missing, empties it when
    [is_reset] is set, runs the body there, and on the way out (also when
    the body raises) empties it when [is_cleanup] is set and goes back to
    the workspace that was current before.  That workspace exists in the
    engine, so going back to it does not fail. *)
Definition ScopedWS {A} (ws_name : string) (is_reset is_cleanup : bool)
    (body : M S A) : M S A :=
  org_ws <- CurrentWorkspace ;;
  SwitchWorkspace ws_name true ;;;
  (if is_reset then ResetWorkspace else ret tt) ;;;
  try_finally body
    ((if is_cleanup then ResetWorkspace else ret tt) ;;;
     (if bool_decide (ws_name = org_ws) then ret tt
      else SwitchWorkspace org_ws true)).

End workspace.

(** ** The workspace operations as functions on the process

    What each operation of the workspace API does to the process, written as
    a plain function, so that the adapters can be traced call by call. *)
Section transformers.
Context `{Tys : Types} `{Eng : !Engine}.

(** The workspace registered under a name (empty when there is none). *)
Definition workspace_of (ws_name : string) (P : Process) : Workspace Elem :=
  default empty_workspace (workspaces P !! ws_name).

Definition feed (b : string) (v : pyval Elem) (P : Process) : Process :=
  set_blobs (<[b := Holds v]> (blobs (current_workspace P)))
    (record (EvFeedBlob b v) P).

Definition feed_all (items : list (string * pyval Elem)) (P : Process)
    : Process :=
  foldl (fun P bt => feed bt.1 bt.2 P) P items.

Definition switch (ws_name : string) (P : Process) : Process :=
  {| workspaces :=
       match workspaces P !! ws_name with
       | Some _ => workspaces P
       | None => <[ws_name := empty_workspace]> (workspaces P)
       end;
     current := ws_name; engine := engine P;
     trace := trace P ++ [EvSwitchWorkspace ws_name] |}.

Definition reset (P : Process) : Process :=
  set_current_workspace empty_workspace (record EvResetWorkspace P).

Definition create_blob (b : string) (P : Process) : Process :=
  let P' := record (EvCreateBlob b) P in
  match blobs (current_workspace P') !! b with
  | Some _ => P'
  | None => set_blobs (<[b := Uninitialized]> (blobs (current_workspace P'))) P'
  end.

(** What [FetchBlob] gives for a blob that is there. *)
Definition fetch_value (b : string) (P : Process) : pyval Elem :=
  match blobs (current_workspace P) !! b with
  | Some (Holds v) => v
  | _ => Str (uninitialized_repr b)
  end.

Definition record_all (evs : list event) (P : Process) : Process :=
  {| workspaces := workspaces P; current := current P;
     engine := engine P; trace := trace P ++ evs |}.

(** What the engine answers when the net of that name is run in the current
    workspace: the exception, the blobs and the engine state. *)
Definition run_outcome (net_name : string) (P : Process)
    : option exn * gmap string (blob Elem) * EngineState :=
  run_net_sem net_name (nets (current_workspace P)) (engine P)
    (blobs (current_workspace P)).

(** The process after [RunNet], whether it raised or not. *)
Definition ran (net_name : string) (P : Process) : Process :=
  let P' := record (EvRunNet net_name) P in
  set_engine (run_outcome net_name P).2
    (set_blobs (run_outcome net_name P).1.2 P').

(** What the engine answers when a net is run once, and the process after
    [RunNetOnce], whether it raised or not. *)
Definition once_outcome (n : NetDef) (P : Process)
    : option exn * gmap string (blob Elem) * EngineState :=
  run_net_once_sem n (engine P) (blobs (current_workspace P)).

Definition ran_once (n : NetDef) (P : Process) : Process :=
  set_engine (once_outcome n P).2
    (set_blobs (once_outcome n P).1.2 (record (EvRunNetOnce n) P)).

(** One round of the loop over the external inputs: a placeholder for a
    blob that is not there. *)
Definition place (b : string) (P : Process) : Process :=
  match blobs (current_workspace P) !! b with
  | Some _ => P
  | None => create_blob b P
  end.

Definition place_all (bs : list string) (P : Process) : Process :=
  foldl (fun P b => place b P) P bs.

(** The blobs the loop creates, in the order it creates them. *)
Fixpoint created (bs : list string) (present : gmap string (blob Elem))
    : list string :=
  match bs with
  | [] => []
  | b :: bs' =>
      match present !! b with
      | Some _ => created bs' present
      | None => b :: created bs' (<[b := Uninitialized]> present)
      end
  end.

(** What the engine answers when a net is compiled, and the process after
    [CreateNet] when it raised nothing. *)
Definition create_outcome (n : NetDef) (P : Process)
    : option exn * gmap string (blob Elem) * EngineState :=
  create_net_sem n (engine P) (blobs (current_workspace P)).

Definition compiled (n : NetDef) (P : Process) : Process :=
  let P' := set_engine (create_outcome n P).2
              (set_blobs (create_outcome n P).1.2 (record (EvCreateNet n) P)) in
  set_current_workspace
    {| blobs := blobs (current_workspace P');
       nets := <[caffe2_pb2.name n := n]> (nets (current_workspace P')) |} P'.

(** The process after a [CreateNet] that raised: the net is not
    registered. *)
Definition not_compiled (n : NetDef) (P : Process) : Process :=
  set_engine (create_outcome n P).2
    (set_blobs (create_outcome n P).1.2 (record (EvCreateNet n) P)).

(** Leaving [ScopedWS]: back to the workspace that was current. *)
Definition leave (org_ws ws_name : string) (P : Process) : Process :=
  if bool_decide (ws_name = org_ws) then P else switch org_ws P.

End transformers.

(** ** [ProtobufModel]: the graph runner *)
Module ProtobufModel.
Section ProtobufModel.
Context `{Tys : Types} `{Eng : !Engine}.

Record t := {
  ws_name : string;
  net : NetDef;
  _error_msgs : gset string
}.

Definition add_error_msg (msg : string) (self : t) : t :=
  {| ws_name := ws_name self; net := net self;
     _error_msgs := {[msg]} ∪ _error_msgs self |}.

(** [assert isinstance(x, caffe2_pb2.NetDef)] *)
Definition assert_NetDef {S} (x : pyobj) : M S NetDef :=
  match x with
  | ObjNetDef n => ret n
  | ObjOther => raise AssertionError
  end.

(** [core.Net(predict_net)]: the engine's Python layer hands back its copy
    of the definition. *)
Definition new_Net {S} `{!HasProcess S} (predict_def : NetDef) : M S NetDef :=
  fun s =>
    (Return (core_Net predict_def (engine (proc s))).1,
     with_proc (set_engine (core_Net predict_def (engine (proc s))).2
                  (proc s)) s).

(** The body of the [with] block of [__init__]. *)
Definition init_body {S} `{!HasProcess S} (self_net init_def : NetDef)
    : M S unit :=
  RunNetOnce init_def ;;;
  for_each (caffe2_pb2.external_input self_net) (fun blob =>
    present <- Blobs ;;
    if bool_decide (blob ∈ present) then ret tt else CreateBlob blob) ;;;
  CreateNet self_net.

Definition __init__ {S} `{!HasProcess S} (predict_net init_net : pyobj)
    : M S t :=
  emit (EvLog INFO "Initializing ProtobufModel ...") ;;;
  predict_def <- assert_NetDef predict_net ;;
  init_def <- assert_NetDef init_net ;;
  let self_ws_name := "__ws_tmp__" in
  self_net <- new_Net predict_def ;;
  ScopedWS self_ws_name true false (init_body self_net init_def) ;;;
  ret {| ws_name := self_ws_name; net := self_net; _error_msgs := ∅ |}.

(** The four statements inside [forward]'s [with] block. *)

Definition feed_inputs (items : TensorDict) : M (t * Process) unit :=
  for_each items (fun bt => FeedBlob bt.1 bt.2).

Definition newline : string := String (Ascii.ascii_of_nat 10) EmptyString.

(** [Encountered new RuntimeError: \n{}] filled in with [str(e)]. *)
Definition new_error_message (msg : string) : string :=
  "Encountered new RuntimeError: " +:+ newline +:+ msg.

Definition run_graph : M (t * Process) unit :=
  self <- gets fst ;;
  try_except_RuntimeError
    (RunNet (caffe2_pb2.name (net self)))
    (fun msg =>
       known <- gets (fun s => bool_decide (msg ∈ _error_msgs s.1)) ;;
       (if negb known then
          modify (fun s => (add_error_msg msg s.1, s.2)) ;;;
          emit (EvLog WARNING (new_error_message msg))
        else ret tt) ;;;
       emit (EvLog WARNING "Catch the error and use partial results.")).

Definition fetch_outputs : M (t * Process) TensorDict :=
  self <- gets fst ;;
  pairs <- list_comp (caffe2_pb2.external_output (net self))
             (fun b => v <- FetchBlob b ;; ret (b, v)) ;;
  ret (odict.of_pairs pairs).

Definition sentinel (b : string) : pyval Elem :=
  Str (b +:+ ", a C++ native class of type nullptr (uninitialized).").

Definition reset_outputs : M (t * Process) unit :=
  self <- gets fst ;;
  for_each (caffe2_pb2.external_output (net self))
    (fun b => FeedBlob b (sentinel b)).

(** The body of the [with] block. *)
Definition forward_body (items : TensorDict) : M (t * Process) TensorDict :=
  feed_inputs items ;;;
  run_graph ;;;
  outputs_dict <- fetch_outputs ;;
  reset_outputs ;;;
  ret outputs_dict.

(** [forward(inputs_dict)]; the argument is a dictionary or [None]. *)
Definition forward (inputs_dict : option TensorDict)
    : M (t * Process) TensorDict :=
  self <- gets fst ;;
  items <- match inputs_dict with
           | Some d => ret d
           | None => raise (TypeError "'NoneType' object is not iterable")
           end ;;
  assert (forallb
            (fun inp => bool_decide
                          (inp ∈ caffe2_pb2.external_input (net self)))
            (odict.keys items)) ;;;
  ScopedWS (ws_name self) false false (forward_body items).

(** *** [__init__], phase by phase

    The graph the runner keeps, and the process when the init graph is about
    to run: the workspace has been entered and emptied. *)
Definition kept_net (predict_def : NetDef) (P : Process) : NetDef :=
  (core_Net predict_def (engine P)).1.

Definition prepared (predict_def : NetDef) (P : Process) : Process :=
  reset
    (switch "__ws_tmp__"
       (set_engine (core_Net predict_def (engine P)).2
          (record (EvLog INFO "Initializing ProtobufModel ...") P))).

(** The exception of the engine when it runs the init graph, and the blobs
    the init graph leaves. *)
Definition init_fault (predict_def init_def : NetDef) (P : Process)
    : option exn :=
  (once_outcome init_def (prepared predict_def P)).1.1.

Definition init_blobs (predict_def init_def : NetDef) (P : Process)
    : gmap string (blob Elem) :=
  (once_outcome init_def (prepared predict_def P)).1.2.

(** The process when the graph is about to be compiled: the init graph has
    run and the placeholders are there. *)
Definition placed (predict_def init_def : NetDef) (P : Process) : Process :=
  place_all (caffe2_pb2.external_input (kept_net predict_def P))
    (ran_once init_def (prepared predict_def P)).

Definition compile_fault (predict_def init_def : NetDef) (P : Process)
    : option exn :=
  (create_outcome (kept_net predict_def P) (placed predict_def init_def P)).1.1.

(** The runner [__init__] returns. *)
Definition fresh_runner (predict_def : NetDef) (P : Process) : t :=
  {| ws_name := "__ws_tmp__"; net := kept_net predict_def P;
     _error_msgs := ∅ |}.

(** The process when [__init__] returns. *)
Definition constructed (predict_def init_def : NetDef) (P : Process)
    : Process :=
  leave (current P) "__ws_tmp__"
    (compiled (kept_net predict_def P) (placed predict_def init_def P)).

Definition is_RunNetOnce (ev : event) : bool :=
  match ev with EvRunNetOnce _ => true | _ => false end.

Definition is_RunNet (ev : event) : bool :=
  match ev with EvRunNet _ => true | _ => false end.

(** What a computation adds to the trace. *)
Definition added (before after : Process) : list event :=
  drop (length (trace before)) (trace after).

(** The process without the workspace of that name. *)
Definition forget (ws_name : string) (P : Process) : Process :=
  {| workspaces := delete ws_name (workspaces P); current := current P;
     engine := engine P; trace := trace P |}.

(** *** [forward], phase by phase

    The process when the graph is about to run: the runner's workspace has
    been entered and the inputs have been fed. *)
Definition fed (self : t) (items : TensorDict) (P : Process) : Process :=
  feed_all items (switch (ws_name self) P).

(** What escapes the [try] block: every exception but a [RuntimeError]. *)
Definition propagated (err : option exn) : option exn :=
  match err with
  | Some (RuntimeError _) => None
  | other => other
  end.

(** What the [except] branch writes to the log. *)
Definition logged (self : t) (err : option exn) : list event :=
  match err with
  | Some (RuntimeError msg) =>
      (if bool_decide (msg ∈ _error_msgs self) then []
       else [EvLog WARNING (new_error_message msg)])
      ++ [EvLog WARNING "Catch the error and use partial results."]
  | _ => []
  end.

(** The runner after the [except] branch. *)
Definition noted (self : t) (err : option exn) : t :=
  match err with
  | Some (RuntimeError msg) =>
      if bool_decide (msg ∈ _error_msgs self) then self
      else add_error_msg msg self
  | _ => self
  end.

(** The exception of the engine when the graph is run on these inputs, and
    the process once the [try] statement is over. *)
Definition fault (self : t) (items : TensorDict) (P : Process) : option exn :=
  (run_outcome (caffe2_pb2.name (net self)) (fed self items P)).1.1.

Definition tried (self : t) (items : TensorDict) (P : Process) : Process :=
  record_all (logged self (fault self items P))
    (ran (caffe2_pb2.name (net self)) (fed self items P)).

(** The process when [forward] returns. *)
Definition finished (self : t) (items : TensorDict) (P : Process) : Process :=
  let outs := caffe2_pb2.external_output (net self) in
  leave (current P) (ws_name self)
    (feed_all ((fun b => (b, sentinel b)) <$> outs)
       (record_all (EvFetchBlob <$> outs) (tried self items P))).

(** The dictionary [forward] returns. *)
Definition fetched_outputs (self : t) (items : TensorDict) (P : Process)
    : TensorDict :=
  odict.of_pairs
    ((fun b => (b, fetch_value b (tried self items P)))
       <$> caffe2_pb2.external_output (net self)).

(** Two ways to know that the engine leaves the outputs: the engine does not
    remove blobs when it runs a net, and the declared outputs have a blob in
    the runner's workspace when the call starts (as they have once the graph
    has been compiled, and after every call that returned). *)
Definition keeps_blobs : Prop :=
  forall net_name ns e (bs : gmap string (blob Elem)) b,
    is_Some (bs !! b) -> is_Some ((run_net_sem net_name ns e bs).1.2 !! b).

Definition outputs_present (self : t) (P : Process) : Prop :=
  Forall (fun b => is_Some (blobs (workspace_of (ws_name self) P) !! b))
    (caffe2_pb2.external_output (net self)).

(** How often the trace logs a message as a new error, and whether the
    runner has recorded it. *)
Definition is_new_error_log (msg : string) (ev : event) : bool :=
  match ev with
  | EvLog WARNING m => bool_decide (m = new_error_message msg)
  | _ => false
  end.

Definition new_error_logs (msg : string) (tr : list event) : nat :=
  length (List.filter (is_new_error_log msg) tr).

Definition known (msg : string) (self : t) : nat :=
  if bool_decide (msg ∈ _error_msgs self) then 1%nat else 0%nat.

(** A series of calls on the same runner, whatever each of them returns or
    raises. *)
Definition calls (inputs : list (option TensorDict)) (s : t * Process)
    : t * Process :=
  foldl (fun s inputs_dict => (forward inputs_dict s).2) s inputs.

(** Every key of the dictionary is a declared external input. *)
Definition valid_inputs (self : t) (items : TensorDict) : Prop :=
  Forall (fun k => k ∈ caffe2_pb2.external_input (net self))
    (odict.keys items).

(** The engine's run on these inputs raises nothing, or a [RuntimeError]:
    no exception escapes the [try] block. *)
Definition recoverable (self : t) (items : TensorDict) (P : Process) : Prop :=
  propagated (fault self items P) = None.

(** The blobs the engine's run leaves in the workspace. *)
Definition blobs_left (self : t) (items : TensorDict) (P : Process)
    : gmap string (blob Elem) :=
  (run_outcome (caffe2_pb2.name (net self)) (fed self items P)).1.2.

(** The engine's run on these inputs leaves a blob, initialized or not, for
    every declared external output. *)
Definition outputs_left (self : t) (items : TensorDict) (P : Process)
    : Prop :=
  Forall (fun b => is_Some (blobs_left self items P !! b))
    (caffe2_pb2.external_output (net self)).

End ProtobufModel.
End ProtobufModel.


(** ** The host model's side

    A per-image input record of the host model: the image tensor, as
    channels of rows of elements, and the size the results are wanted at,
    when given. *)
Record BatchedInput `{Types} := {
  image : list (list (list Elem));
  height : option nat;
  width : option nat
}.

(** What the host model and the export code outside this file provide: the
    type of the structured per-image results, the element that pads an image,
    the embedding of sizes into tensor elements and the scale put in the
    metadata of an image, and [META_ARCH_CAFFE2_EXPORT_TYPE_MAP], the registry
    of architectures of [caffe2_modeling.py], which gives for a name the
    [get_outputs_converter] of the architecture registered under it.  A
    converter takes the batched inputs, the graph inputs as [forward] passes
    them (a dictionary or [None]) and the graph outputs. *)
Class Host `{Types} := {
  Detections : Type;
  pad_value : Elem;
  number : nat -> Elem;
  scale : BatchedInput -> Elem;
  META_ARCH_CAFFE2_EXPORT_TYPE_MAP :
    gmap string
      (NetDef -> NetDef ->
       list BatchedInput -> option TensorDict -> TensorDict ->
       list Detections)
}.

Abbreviation converter :=
  (list BatchedInput -> option TensorDict -> TensorDict -> list Detections).

(** ** Helpers of [export/shared.py] and [export/caffe2_modeling.py] *)
Section helpers.
Context `{Tys : Types} `{Hst : !Host}.

(** Modelled from the spec: the accessors [get_pb_arg_vali] and
    [get_pb_arg_vals] of [export/shared.py], which is not among the sources.
    The graph definition carries string and integer arguments keyed by name,
    and an accessor returns the value of the argument of that name, or the
    default it is given when there is none. *)
Definition get_pb_arg (pb : NetDef) (arg_name : string)
    : option caffe2_pb2.Argument :=
  List.find (fun x => String.eqb (caffe2_pb2.arg_name x) arg_name)
    (caffe2_pb2.arg pb).

Definition get_pb_arg_vali (pb : NetDef) (arg_name : string) (default_val : Z)
    : Z :=
  match get_pb_arg pb arg_name with
  | Some x => caffe2_pb2.i x
  | None => default_val
  end.

Definition get_pb_arg_vals (pb : NetDef) (arg_name : string)
    (default_val : string) : string :=
  match get_pb_arg pb arg_name with
  | Some x => caffe2_pb2.s x
  | None => default_val
  end.

(** [bytes.decode("ascii")]: the same characters, when every byte is below
    128. *)
Definition is_ascii (bytes : string) : bool :=
  forallb (fun c => Nat.ltb (Ascii.nat_of_ascii c) 128)
    (String.list_ascii_of_string bytes).

Definition decode_ascii {S} (bytes : string) : M S string :=
  if is_ascii bytes then ret bytes else raise UnicodeDecodeError.

(** Modelled from the spec: [convert_batched_inputs_to_c2_format] of
    [export/caffe2_modeling.py], which is not among the sources.  It batches
    the per-image inputs into a single padded tensor whose spatial dimensions
    are rounded up to the nearest multiple of the size divisibility (0 = no
    padding), and gives with it a metadata tensor with a row per image: its
    height, its width and a scale. *)
Definition round_up (d : nat) (size_divisibility : Z) : nat :=
  if (size_divisibility =? 0)%Z then d
  else
    let stride := Z.abs size_divisibility in
    Z.to_nat ((Z.of_nat d + stride - 1) / stride * stride).

Definition image_height (img : list (list (list Elem))) : nat :=
  match img with
  | plane :: _ => length plane
  | [] => 0
  end.

Definition image_width (img : list (list (list Elem))) : nat :=
  match img with
  | (row :: _) :: _ => length row
  | _ => 0
  end.

Definition max_of (sizes : list nat) : nat := foldr Nat.max 0%nat sizes.

(** Every channel of the image has the image's height and every row its
    width. *)
Definition rectangular (img : list (list (list Elem))) : Prop :=
  Forall (fun plane =>
            length plane = image_height img
            /\ Forall (fun row => length row = image_width img) plane)
    img.

Definition pad_row (w : nat) (row : list Elem) : list Elem :=
  row ++ replicate (w - length row) pad_value.

Definition pad_plane (h w : nat) (plane : list (list Elem))
    : list (list Elem) :=
  (pad_row w <$> plane) ++ replicate (h - length plane) (replicate w pad_value).

Definition pad_image (h w : nat) (img : list (list (list Elem)))
    : list (list (list Elem)) :=
  pad_plane h w <$> img.

(** A tensor of three dimensions as an array. *)
Definition tensor3 (img : list (list (list Elem))) : ndarray Elem :=
  Nest ((fun plane => Nest ((fun row => Nest (Item <$> row)) <$> plane))
          <$> img).

Definition batch_height (batched_inputs : list BatchedInput)
    (size_divisibility : Z) : nat :=
  round_up (max_of (image_height ∘ image <$> batched_inputs))
    size_divisibility.

Definition batch_width (batched_inputs : list BatchedInput)
    (size_divisibility : Z) : nat :=
  round_up (max_of (image_width ∘ image <$> batched_inputs))
    size_divisibility.

Definition convert_batched_inputs_to_c2_format
    (batched_inputs : list BatchedInput) (size_divisibility : Z)
    : ndarray Elem * ndarray Elem :=
  let h := batch_height batched_inputs size_divisibility in
  let w := batch_width batched_inputs size_divisibility in
  let data :=
    Nest ((fun x => tensor3 (pad_image h w (image x))) <$> batched_inputs) in
  let im_info :=
    Nest ((fun x =>
             Nest [Item (number (image_height (image x)));
                   Item (number (image_width (image x)));
                   Item (scale x)])
            <$> batched_inputs) in
  (data, im_info).

End helpers.

(** ** [ProtobufDetectionModel]: the detection adapter *)
Module ProtobufDetectionModel.
Section ProtobufDetectionModel.
Context `{Tys : Types} `{Eng : !Engine} `{Hst : !Host}.

Record t := {
  protobuf_model : ProtobufModel.t;
  size_divisibility : Z;
  _convert_outputs : converter
}.

(** [self.protobuf_model(inputs)]: the runner's [forward], which may change
    the runner. *)
Definition call_protobuf_model (inputs_dict : option TensorDict)
    : M (t * Process) TensorDict :=
  zoom (fun s => (protobuf_model s.1, s.2))
       (fun s' s =>
          ({| protobuf_model := s'.1;
              size_divisibility := size_divisibility s.1;
              _convert_outputs := _convert_outputs s.1 |}, s'.2))
       (ProtobufModel.forward inputs_dict).

(** An attribute read on an argument that has been asserted to be a graph
    definition. *)
Definition as_NetDef {S} (x : pyobj) : M S NetDef :=
  match x with
  | ObjNetDef n => ret n
  | ObjOther => raise (AttributeError "arg")
  end.

(** [__init__(predict_net, init_net, *, convert_outputs=None)] *)
Definition __init__ (predict_net init_net : pyobj)
    (convert_outputs : option converter) : M Process t :=
  self_protobuf_model <- ProtobufModel.__init__ predict_net init_net ;;
  predict_def <- as_NetDef predict_net ;;
  init_def <- as_NetDef init_net ;;
  let self_size_divisibility :=
    get_pb_arg_vali predict_def "size_divisibility" 0 in
  self_convert_outputs <-
    match convert_outputs with
    | None =>
        let meta_arch :=
          get_pb_arg_vals predict_def "meta_architecture" "GeneralizedRCNN" in
        key <- decode_ascii meta_arch ;;
        match META_ARCH_CAFFE2_EXPORT_TYPE_MAP !! key with
        | Some get_outputs_converter =>
            ret (get_outputs_converter predict_def init_def)
        | None => raise (KeyError key)
        end
    | Some convert_outputs => ret convert_outputs
    end ;;
  ret {| protobuf_model := self_protobuf_model;
         size_divisibility := self_size_divisibility;
         _convert_outputs := self_convert_outputs |}.

(** The architecture tag of a graph, and the exception that looking up a tag
    without a handler ends in. *)
Definition meta_architecture (predict_def : NetDef) : string :=
  get_pb_arg_vals predict_def "meta_architecture" "GeneralizedRCNN".

Definition unresolved (tag : string) : exn :=
  if is_ascii tag then KeyError tag else UnicodeDecodeError.

(** The dictionary [_convert_inputs] builds. *)
Definition c2_inputs_of (self : t) (batched_inputs : list BatchedInput)
    : TensorDict :=
  let '(data, im_info) :=
    convert_batched_inputs_to_c2_format batched_inputs
      (size_divisibility self) in
  odict.of_pairs [("data", Array data); ("im_info", Array im_info)].

(** [_convert_inputs(batched_inputs)].  The last statement of the method
    calls the runner on the dictionary; there is no [return], so the method
    gives [None]. *)
Definition _convert_inputs (batched_inputs : list BatchedInput)
    : M (t * Process) (option TensorDict) :=
  self <- gets fst ;;
  let c2_inputs := c2_inputs_of self batched_inputs in
  c2_results <- call_protobuf_model (Some c2_inputs) ;;
  ret None.

(** [forward(batched_inputs)] *)
Definition forward (batched_inputs : list BatchedInput)
    : M (t * Process) (list Detections) :=
  c2_inputs <- _convert_inputs batched_inputs ;;
  c2_results <- call_protobuf_model c2_inputs ;;
  self <- gets fst ;;
  ret (_convert_outputs self batched_inputs c2_inputs c2_results).

End ProtobufDetectionModel.
End ProtobufDetectionModel.

(** ** A small engine

    An engine with three operators, to run the adapters on: [Const] writes a
    tensor to its output, [Copy] copies its input to its output, whatever it
    holds, and [Cast] does so for a tensor only; an operator fails when its
    input holds nothing or, for [Cast], holds a string, and any other
    operator fails.  Compiling a net creates the blobs its operators
    write. *)
Module Sample.

Definition exec_op (o : caffe2_pb2.OperatorDef)
    (bs : gmap string (blob Z)) : option exn * gmap string (blob Z) :=
  let out := default "" (head (caffe2_pb2.output o)) in
  let held := head (caffe2_pb2.input o) ≫= (bs !!.) in
  if String.eqb (caffe2_pb2.type o) "Const" then
    (None, <[out := Holds (Array (Item 7))]> bs)
  else if String.eqb (caffe2_pb2.type o) "Copy" then
    match held with
    | Some (Holds v) => (None, <[out := Holds v]> bs)
    | _ => (Some (RuntimeError "Copy: the input holds nothing"), bs)
    end
  else if String.eqb (caffe2_pb2.type o) "Cast" then
    match held with
    | Some (Holds (Array a)) => (None, <[out := Holds (Array a)]> bs)
    | _ => (Some (RuntimeError "Cast: the input is not a tensor"), bs)
    end
  else (Some (RuntimeError ("No operator " +:+ caffe2_pb2.type o)), bs).

Fixpoint exec_ops (ops : list caffe2_pb2.OperatorDef)
    (bs : gmap string (blob Z)) : option exn * gmap string (blob Z) :=
  match ops with
  | [] => (None, bs)
  | o :: ops' =>
      match exec_op o bs with
      | (None, bs') => exec_ops ops' bs'
      | failed => failed
      end
  end.

Definition create_outputs (n : NetDef) (bs : gmap string (blob Z))
    : gmap string (blob Z) :=
  foldl (fun bs b =>
           match bs !! b with
           | Some _ => bs
           | None => <[b := Uninitialized]> bs
           end)
    bs (concat (caffe2_pb2.output <$> caffe2_pb2.op n)).

#[global] Instance sample_types : Types :=
  {| Elem := Z; EngineState := nat |}.

#[global] Instance sample : Engine := {|
  core_Net := fun n e => (n, e);
  run_net_once_sem := fun n e bs =>
    let '(err, bs') := exec_ops (caffe2_pb2.op n) (create_outputs n bs) in
    (err, bs', Datatypes.S e);
  create_net_sem := fun n e bs => (None, create_outputs n bs, e);
  run_net_sem := fun net_name ns e bs =>
    match ns !! net_name with
    | None => (Some (RuntimeError ("No net " +:+ net_name)), bs, e)
    | Some n =>
        let '(err, bs') := exec_ops (caffe2_pb2.op n) bs in
        (err, bs', Datatypes.S e)
    end
|}.

(** A process that has just started: one empty workspace. *)
Definition started : Process :=
  {| workspaces := {[ "default" := empty_workspace ]};
     current := "default"; engine := 0%nat; trace := [] |}.

Definition operator (type : string) (input output : list string)
    : caffe2_pb2.OperatorDef :=
  {| caffe2_pb2.type := type; caffe2_pb2.input := input;
     caffe2_pb2.output := output |}.

(** A graph that copies one input to an output and casts another. *)
Definition predict_net : NetDef :=
  {| caffe2_pb2.name := "detector";
     caffe2_pb2.op := [operator "Copy" ["data"] ["boxes"];
                       operator "Cast" ["im_info"] ["scores"]];
     caffe2_pb2.external_input := ["data"; "im_info"; "anchors"];
     caffe2_pb2.external_output := ["boxes"; "scores"];
     caffe2_pb2.arg := [] |}.

(** An init graph that writes one parameter blob. *)
Definition init_net : NetDef :=
  {| caffe2_pb2.name := "detector_init";
     caffe2_pb2.op := [operator "Const" [] ["anchors"]];
     caffe2_pb2.external_input := [];
     caffe2_pb2.external_output := ["anchors"];
     caffe2_pb2.arg := [] |}.

Definition runner : ProtobufModel.t :=
  {| ProtobufModel.ws_name := "__ws_tmp__";
     ProtobufModel.net := predict_net;
     ProtobufModel._error_msgs := ∅ |}.

(** The process once [runner] has been constructed. *)
Definition constructed : Process :=
  (ProtobufModel.__init__ (ObjNetDef predict_net) (ObjNetDef init_net)
     started).2.

Definition tensor (z : Z) : pyval Z := Array (Item z).

(** Another graph, for a second runner in the same process. *)
Definition other_net : NetDef :=
  {| caffe2_pb2.name := "classifier";
     caffe2_pb2.op := [operator "Copy" ["data"] ["labels"]];
     caffe2_pb2.external_input := ["data"];
     caffe2_pb2.external_output := ["labels"];
     caffe2_pb2.arg := [] |}.

Definition other_init : NetDef :=
  {| caffe2_pb2.name := "classifier_init"; caffe2_pb2.op := [];
     caffe2_pb2.external_input := []; caffe2_pb2.external_output := [];
     caffe2_pb2.arg := [] |}.

Definition other_runner : ProtobufModel.t :=
  {| ProtobufModel.ws_name := "__ws_tmp__";
     ProtobufModel.net := other_net;
     ProtobufModel._error_msgs := ∅ |}.

(** The process once a second runner has been constructed after [runner]. *)
Definition constructed_twice : Process :=
  (ProtobufModel.__init__ (ObjNetDef other_net) (ObjNetDef other_init)
     constructed).2.

(** Two calls one after the other: on the first the graph runs to its end,
    on the second its last operator fails. *)
Definition first_inputs : TensorDict :=
  [("data", tensor 3); ("im_info", tensor 5)].

Definition second_inputs : TensorDict :=
  [("data", tensor 4); ("im_info", Str "not a tensor")].

Definition first_call : result TensorDict * (ProtobufModel.t * Process) :=
  ProtobufModel.forward (Some first_inputs) (runner, constructed).

Definition second_call : result TensorDict * (ProtobufModel.t * Process) :=
  ProtobufModel.forward (Some second_inputs)
    (first_call.2.1, first_call.2.2).

Definition outputs_of (r : result TensorDict) : TensorDict :=
  match r with Return d => d | Raise _ => [] end.

(** A host whose results are, for each image, the raw outputs of the
    graph, and a registry with one architecture. *)
Definition raw_outputs (batched_inputs : list BatchedInput)
    (c2_inputs : option (odict.t (pyval Z))) (c2_results : odict.t (pyval Z))
    : list (odict.t (pyval Z)) :=
  (fun _ => c2_results) <$> batched_inputs.

#[global] Instance sample_host : Host := {|
  Detections := odict.t (pyval Z);
  pad_value := 0%Z;
  number := Z.of_nat;
  scale := fun _ => 1%Z;
  META_ARCH_CAFFE2_EXPORT_TYPE_MAP :=
    {[ "GeneralizedRCNN" := fun _ _ => raw_outputs ]}
|}.

(** The graph of [predict_net] with a size divisibility and an architecture
    tag as arguments. *)
Definition tagged_net (size_divisibility : Z) (tag : string) : NetDef :=
  {| caffe2_pb2.name := caffe2_pb2.name predict_net;
     caffe2_pb2.op := caffe2_pb2.op predict_net;
     caffe2_pb2.external_input := caffe2_pb2.external_input predict_net;
     caffe2_pb2.external_output := caffe2_pb2.external_output predict_net;
     caffe2_pb2.arg :=
       [{| caffe2_pb2.arg_name := "size_divisibility";
           caffe2_pb2.i := size_divisibility; caffe2_pb2.s := "" |};
        {| caffe2_pb2.arg_name := "meta_architecture";
           caffe2_pb2.i := 0; caffe2_pb2.s := tag |}] |}.

Definition adapter : ProtobufDetectionModel.t :=
  {| ProtobufDetectionModel.protobuf_model := runner;
     ProtobufDetectionModel.size_divisibility := 32;
     ProtobufDetectionModel._convert_outputs := raw_outputs |}.

(** A tag that is not ASCII text: the single byte 200. *)
Definition odd_tag : string := String (Ascii.ascii_of_nat 200) EmptyString.

(** The adapter that [__init__] gives for the graph with size divisibility
    32, when it gives one. *)
Definition built : result ProtobufDetectionModel.t :=
  (ProtobufDetectionModel.__init__
     (ObjNetDef (tagged_net 32 "GeneralizedRCNN")) (ObjNetDef init_net)
     None started).1.

(** An image of three channels, 70 rows and 100 columns. *)
Definition picture : BatchedInput :=
  {| image := replicate 3 (replicate 70 (replicate 100 5%Z));
     height := None; width := None |}.

(** A smaller and wider image: three channels, 40 rows and 120 columns. *)
Definition thumbnail : BatchedInput :=
  {| image := replicate 3 (replicate 40 (replicate 120 9%Z));
     height := None; width := None |}.

End Sample.

(** ** Kinds of calls in a trace *)
Section event_kinds.
Context `{Tys : Types}.

(** A blob is fed or fetched. *)
Definition is_blob_access (ev : event) : bool :=
  match ev with
  | EvFeedBlob _ _ | EvFetchBlob _ => true
  | _ => false
  end.

(** A call that only inference makes: a blob is fed or fetched, or the
    graph is run. *)
Definition is_inference_call (ev : event) : bool :=
  match ev with
  | EvFeedBlob _ _ | EvFetchBlob _ | EvRunNet _ => true
  | _ => false
  end.

Definition is_sentinel_feed (ev : event) : bool :=
  match ev with
  | EvFeedBlob _ (Str _) => true
  | _ => false
  end.

End event_kinds.

(** ** A stricter engine

    An engine that works as the small one, but refuses to compile a graph
    with a declared output that is neither a declared input nor written by an
    operator, and that raises an exception that is no [RuntimeError] when a
    graph with an operator [Abort] is run. *)
Module Cases.

Definition produced (n : NetDef) (b : string) : bool :=
  bool_decide
    (b ∈ caffe2_pb2.external_input n
           ++ concat (caffe2_pb2.output <$> caffe2_pb2.op n)).

Definition aborts (n : NetDef) : bool :=
  existsb (fun o => String.eqb (caffe2_pb2.type o) "Abort") (caffe2_pb2.op n).

Definition strict : @Engine Sample.sample_types := {|
  core_Net := fun n e => (n, e);
  run_net_once_sem := @run_net_once_sem _ Sample.sample;
  create_net_sem := fun n e bs =>
    if forallb (produced n) (caffe2_pb2.external_output n)
    then (None, Sample.create_outputs n bs, e)
    else (Some (RuntimeError "External output not provided"), bs, e);
  run_net_sem := fun net_name ns e bs =>
    match ns !! net_name with
    | None => (Some (RuntimeError ("No net " +:+ net_name)), bs, e)
    | Some n =>
        if aborts n then (Some (OtherError "MemoryError"), bs, Datatypes.S e)
        else
          let '(err, bs') := Sample.exec_ops (caffe2_pb2.op n) bs in
          (err, bs', Datatypes.S e)
    end
|}.

Definition net_of (name : string) (ops : list caffe2_pb2.OperatorDef)
    (inputs outputs : list string) : NetDef :=
  {| caffe2_pb2.name := name; caffe2_pb2.op := ops;
     caffe2_pb2.external_input := inputs;
     caffe2_pb2.external_output := outputs; caffe2_pb2.arg := [] |}.

(** A graph whose only operator aborts, and the process once a runner for
    it has been constructed. *)
Definition aborting_net : NetDef :=
  net_of "aborting" [Sample.operator "Abort" ["data"] ["boxes"]]
    ["data"] ["boxes"].

Definition aborting_runner : ProtobufModel.t :=
  {| ProtobufModel.ws_name := "__ws_tmp__";
     ProtobufModel.net := aborting_net;
     ProtobufModel._error_msgs := ∅ |}.

Definition aborting_constructed : Process :=
  (@ProtobufModel.__init__ _ strict _ _ (ObjNetDef aborting_net)
     (ObjNetDef Sample.other_init) Sample.started).2.

(** An init graph whose operator fails: it copies a blob that is not
    there. *)
Definition failing_init : NetDef :=
  net_of "failing_init" [Sample.operator "Copy" ["nowhere"] ["anchors"]]
    [] ["anchors"].

(** A graph that declares an output nothing writes. *)
Definition dangling_net : NetDef :=
  net_of "dangling" [Sample.operator "Copy" ["data"] ["boxes"]]
    ["data"] ["boxes"; "masks"].

(** An adapter for [Sample.other_net], a graph that declares [data] but not
    [im_info]. *)
Definition other_adapter : ProtobufDetectionModel.t :=
  {| ProtobufDetectionModel.protobuf_model := Sample.other_runner;
     ProtobufDetectionModel.size_divisibility := 0;
     ProtobufDetectionModel._convert_outputs := Sample.raw_outputs |}.

End Cases.

(** * Properties *)

(** ** Ordered dictionaries *)
Section odict_facts.

Lemma keys_set {V} k (v : V) d :
  odict.keys (odict.set k v d) = odict.add_key (odict.keys d) k.
Proof.
  unfold odict.add_key, odict.keys. induction d as [|[k' v'] d IH]; csimpl.
  - done.
  - destruct (decide (k = k')) as [->|Hne]; csimpl.
    + rewrite decide_True; [done|]. apply elem_of_cons; auto.
    + rewrite IH. destruct (decide (k ∈ d.*1)) as [Hin|Hnin].
      * rewrite decide_True; [done|]. apply elem_of_cons; auto.
      * rewrite decide_False; [done|].
        intros [?|?]%elem_of_cons; done.
Qed.

Lemma keys_foldl_set {V} (pairs : list (string * V)) d :
  odict.keys (foldl (fun d kv => odict.set kv.1 kv.2 d) d pairs)
  = foldl odict.add_key (odict.keys d) pairs.*1.
Proof.
  revert d; induction pairs as [|[k v] pairs IH]; intros d; [done|].
  csimpl. by rewrite IH, keys_set.
Qed.

Lemma keys_of_pairs {V} (pairs : list (string * V)) :
  odict.keys (odict.of_pairs pairs) = odict.first_occurrences pairs.*1.
Proof. apply keys_foldl_set. Qed.

Lemma elem_of_foldl_add_key ks0 ks x :
  x ∈ foldl odict.add_key ks0 ks <-> x ∈ ks0 \/ x ∈ ks.
Proof.
  revert ks0; induction ks as [|k ks IH]; intros ks0; csimpl.
  - rewrite elem_of_nil. tauto.
  - rewrite IH, elem_of_cons. unfold odict.add_key.
    destruct (decide (k ∈ ks0)) as [Hin|Hnin].
    + split; [tauto|]. intros [?|[->|?]]; auto.
    + rewrite elem_of_app, list_elem_of_singleton. tauto.
Qed.

Lemma NoDup_foldl_add_key ks0 ks :
  NoDup ks0 -> NoDup (foldl odict.add_key ks0 ks).
Proof.
  revert ks0; induction ks as [|k ks IH]; intros ks0 Hnd; [done|].
  csimpl. apply IH. unfold odict.add_key.
  destruct (decide (k ∈ ks0)) as [Hin|Hnin]; [done|].
  apply NoDup_app. split_and!; [done| |apply NoDup_singleton].
  intros x Hx ->%list_elem_of_singleton. done.
Qed.

Lemma foldl_add_key_NoDup ks0 ks :
  NoDup (ks0 ++ ks) -> foldl odict.add_key ks0 ks = ks0 ++ ks.
Proof.
  revert ks0; induction ks as [|k ks IH]; intros ks0 Hnd; csimpl.
  - by rewrite app_nil_r.
  - unfold odict.add_key. rewrite decide_False.
    + rewrite IH; rewrite <- app_assoc; done.
    + apply NoDup_app in Hnd as (_ & Hdisj & _).
      intros Hin. apply (Hdisj k Hin). apply elem_of_cons; auto.
Qed.

Lemma foldl_add_key_sublist ks0 ks :
  sublist (foldl odict.add_key ks0 ks) (ks0 ++ ks).
Proof.
  revert ks0; induction ks as [|k ks IH]; intros ks0; csimpl.
  - by rewrite app_nil_r.
  - unfold odict.add_key. destruct (decide (k ∈ ks0)) as [Hin|Hnin].
    + etrans; [apply IH|]. apply sublist_app; [done|].
      by apply sublist_cons.
    + etrans; [apply IH|]. by rewrite <- app_assoc.
Qed.

Lemma get_set_eq {V} k (v : V) d : odict.get k (odict.set k v d) = Some v.
Proof.
  induction d as [|[k' v'] d IH]; csimpl.
  - by rewrite decide_True.
  - destruct (decide (k = k')) as [->|Hne]; csimpl.
    + by rewrite decide_True.
    + by rewrite decide_False.
Qed.

Lemma get_set_ne {V} k k' (v : V) d :
  k <> k' -> odict.get k (odict.set k' v d) = odict.get k d.
Proof.
  intros Hne. induction d as [|[k'' v''] d IH]; csimpl.
  - by rewrite decide_False.
  - destruct (decide (k' = k'')) as [->|Hne']; csimpl.
    + by rewrite !decide_False.
    + destruct (decide (k = k'')); done.
Qed.

Lemma get_foldl_set {V} (f : string -> V) ks d k :
  odict.get k (foldl (fun d kv => odict.set kv.1 kv.2 d) d
                 ((fun b => (b, f b)) <$> ks))
  = if decide (k ∈ ks) then Some (f k) else odict.get k d.
Proof.
  revert d; induction ks as [|k' ks IH]; intros d; csimpl.
  - done.
  - rewrite IH. destruct (decide (k ∈ ks)) as [Hin|Hnin].
    + rewrite decide_True; [done|]. apply elem_of_cons; auto.
    + destruct (decide (k = k')) as [->|Hne].
      * rewrite decide_True by (apply elem_of_cons; auto).
        apply get_set_eq.
      * rewrite decide_False by (intros [?|?]%elem_of_cons; done).
        by apply get_set_ne.
Qed.

End odict_facts.

(** ** Workspace operations *)
Section workspace_facts.
Context `{Tys : Types} `{Eng : !Engine}.

Lemma current_set_blobs bs P : current (set_blobs bs P) = current P.
Proof. reflexivity. Qed.

Lemma current_workspace_set w P :
  current_workspace (set_current_workspace w P) = w.
Proof.
  unfold current_workspace, set_current_workspace; simpl.
  by rewrite lookup_insert_eq.
Qed.

Lemma blobs_set_blobs bs P : blobs (current_workspace (set_blobs bs P)) = bs.
Proof. unfold set_blobs. by rewrite current_workspace_set. Qed.

Lemma nets_set_blobs bs P :
  nets (current_workspace (set_blobs bs P)) = nets (current_workspace P).
Proof. unfold set_blobs. by rewrite current_workspace_set. Qed.

Lemma workspace_of_current P :
  workspace_of (current P) P = current_workspace P.
Proof. reflexivity. Qed.

Lemma current_feed b v P : current (feed b v P) = current P.
Proof. reflexivity. Qed.

Lemma trace_feed b v P : trace (feed b v P) = trace P ++ [EvFeedBlob b v].
Proof. reflexivity. Qed.

Lemma engine_feed b v P : engine (feed b v P) = engine P.
Proof. reflexivity. Qed.

Lemma blobs_feed b v P :
  blobs (current_workspace (feed b v P))
  = <[b := Holds v]> (blobs (current_workspace P)).
Proof. unfold feed. by rewrite blobs_set_blobs. Qed.

Lemma nets_feed b v P :
  nets (current_workspace (feed b v P)) = nets (current_workspace P).
Proof. unfold feed. by rewrite nets_set_blobs. Qed.

Lemma current_feed_all items P : current (feed_all items P) = current P.
Proof.
  revert P; induction items as [|[b v] items IH]; intros P; [done|].
  simpl. by rewrite IH.
Qed.

Lemma engine_feed_all items P : engine (feed_all items P) = engine P.
Proof.
  revert P; induction items as [|[b v] items IH]; intros P; [done|].
  simpl. by rewrite IH.
Qed.

Lemma nets_feed_all items P :
  nets (current_workspace (feed_all items P)) = nets (current_workspace P).
Proof.
  revert P; induction items as [|[b v] items IH]; intros P; [done|].
  simpl. by rewrite IH, nets_feed.
Qed.

Lemma trace_feed_all items P :
  trace (feed_all items P)
  = trace P ++ ((fun bt => EvFeedBlob bt.1 bt.2) <$> items).
Proof.
  revert P; induction items as [|[b v] items IH]; intros P; simpl.
  - by rewrite app_nil_r.
  - by rewrite IH, trace_feed, <- app_assoc.
Qed.

Lemma blobs_feed_all items P :
  blobs (current_workspace (feed_all items P))
  = foldl (fun bs bt => <[bt.1 := Holds bt.2]> bs)
      (blobs (current_workspace P)) items.
Proof.
  revert P; induction items as [|[b v] items IH]; intros P; [done|].
  simpl. by rewrite IH, blobs_feed.
Qed.

(** Feeding only adds blobs. *)
Lemma feed_all_keeps items P b :
  is_Some (blobs (current_workspace P) !! b) ->
  is_Some (blobs (current_workspace (feed_all items P)) !! b).
Proof.
  revert P; induction items as [|[k v] items IH]; intros P Hb; [done|].
  simpl. apply IH. rewrite blobs_feed.
  destruct (decide (k = b)) as [->|Hne].
  - rewrite lookup_insert_eq. by eexists.
  - by rewrite lookup_insert_ne.
Qed.

(** A blob that is not among the keys fed is left as it was. *)
Lemma feed_all_other items P b :
  b ∉ items.*1 ->
  blobs (current_workspace (feed_all items P)) !! b
  = blobs (current_workspace P) !! b.
Proof.
  revert P; induction items as [|[k v] items IH]; intros P Hb; [done|].
  simpl in *. apply not_elem_of_cons in Hb as [Hne Hb].
  rewrite IH by done. rewrite blobs_feed. by rewrite lookup_insert_ne.
Qed.

(** After feeding each of [bs] its own value, each holds that value. *)
Lemma feed_all_each (f : string -> pyval Elem) bs P b :
  b ∈ bs ->
  blobs (current_workspace (feed_all ((fun b => (b, f b)) <$> bs) P)) !! b
  = Some (Holds (f b)).
Proof.
  revert P; induction bs as [|k bs IH]; intros P Hb.
  - by apply elem_of_nil in Hb.
  - simpl. destruct (decide (b ∈ bs)) as [Hin|Hnin].
    + by apply IH.
    + apply elem_of_cons in Hb as [->|?]; [|done].
      rewrite feed_all_other.
      * rewrite blobs_feed. by rewrite lookup_insert_eq.
      * rewrite <- list_fmap_compose. simpl. by rewrite list_fmap_id.
Qed.

End workspace_facts.

(** ** The operations of the workspace API, call by call *)
Section workspace_runs.
Context `{Tys : Types} `{Eng : !Engine} {S : Type} `{!HasProcess S}.

Lemma emit_run e (s : S) :
  emit e s = (Return tt, with_proc (record e (proc s)) s).
Proof. reflexivity. Qed.

Lemma FeedBlob_run b v (s : S) :
  FeedBlob b v s = (Return tt, with_proc (feed b v (proc s)) s).
Proof.
  unfold FeedBlob, emit, update, modify, bind.
  by rewrite proc_with_proc, with_proc_with_proc.
Qed.

Lemma feed_loop_run (items : list (string * pyval Elem)) (s : S) :
  for_each items (fun bt => FeedBlob bt.1 bt.2) s
  = (Return tt, with_proc (feed_all items (proc s)) s).
Proof.
  revert s; induction items as [|[b v] items IH]; intros s; simpl.
  - unfold ret. by rewrite with_proc_proc.
  - unfold bind. rewrite FeedBlob_run, IH.
    by rewrite proc_with_proc, with_proc_with_proc.
Qed.

Lemma feed_each_loop_run (f : string -> pyval Elem) bs (s : S) :
  for_each bs (fun b => FeedBlob b (f b)) s
  = (Return tt,
     with_proc (feed_all ((fun b => (b, f b)) <$> bs) (proc s)) s).
Proof.
  revert s; induction bs as [|b bs IH]; intros s; simpl.
  - unfold ret. by rewrite with_proc_proc.
  - unfold bind. rewrite FeedBlob_run, IH.
    by rewrite proc_with_proc, with_proc_with_proc.
Qed.

Lemma SwitchWorkspace_run ws_name (s : S) :
  SwitchWorkspace ws_name true s
  = (Return tt, with_proc (switch ws_name (proc s)) s).
Proof.
  unfold SwitchWorkspace, emit, update, modify, bind, gets.
  rewrite !proc_with_proc, orb_true_r, with_proc_with_proc.
  do 2 f_equal. unfold switch, record; simpl.
  rewrite !proc_with_proc; simpl. f_equal.
  case_bool_decide as Hk.
  - destruct Hk as [w ->]. done.
  - destruct (workspaces (proc s) !! ws_name) eqn:E; [|done].
    exfalso. apply Hk. by eexists.
Qed.

Lemma FetchBlob_run b (s : S) :
  FetchBlob b s
  = (match blobs (current_workspace (proc s)) !! b with
     | Some _ => Return (fetch_value b (proc s))
     | None => Raise (RuntimeError ("Can't find blob: " +:+ b))
     end,
     with_proc (record (EvFetchBlob b) (proc s)) s).
Proof.
  unfold FetchBlob, emit, update, modify, bind, gets, fetch_value.
  rewrite !proc_with_proc.
  change (current_workspace (record (EvFetchBlob b) (proc s)))
    with (current_workspace (proc s)).
  by destruct (blobs (current_workspace (proc s)) !! b) as [[|v]|].
Qed.

(** When every blob asked for is there, fetching them one after the other
    gives their values and only extends the trace. *)
Lemma fetch_loop_run bs (s : S) :
  (forall b, b ∈ bs -> is_Some (blobs (current_workspace (proc s)) !! b)) ->
  list_comp bs (fun b => v <- FetchBlob b ;; ret (b, v)) s
  = (Return ((fun b => (b, fetch_value b (proc s))) <$> bs),
     with_proc (record_all (EvFetchBlob <$> bs) (proc s)) s).
Proof.
  revert s; induction bs as [|b bs IH]; intros s Hall; simpl.
  - unfold ret, record_all. f_equal.
    rewrite <- (with_proc_proc s) at 1. f_equal.
    destruct (proc s); simpl. by rewrite app_nil_r.
  - unfold bind at 1. unfold bind at 1. rewrite FetchBlob_run.
    destruct (Hall b) as [x Hx]; [apply elem_of_cons; auto|].
    rewrite Hx. unfold ret at 1. unfold bind at 1.
    rewrite IH.
    + unfold ret. rewrite proc_with_proc, with_proc_with_proc.
      f_equal. f_equal. unfold record_all, record; simpl.
      by rewrite <- app_assoc.
    + intros b' Hb'. rewrite proc_with_proc.
      apply Hall, elem_of_cons; auto.
Qed.

Lemma RunNet_run net_name (s : S) :
  RunNet net_name s
  = (match (run_outcome net_name (proc s)).1.1 with
     | None => Return tt
     | Some x => Raise x
     end,
     with_proc (ran net_name (proc s)) s).
Proof.
  unfold RunNet, emit, update, modify, bind, gets, engine_call.
  rewrite !proc_with_proc. unfold ran, run_outcome.
  change (current_workspace (record (EvRunNet net_name) (proc s)))
    with (current_workspace (proc s)).
  change (engine (record (EvRunNet net_name) (proc s)))
    with (engine (proc s)).
  destruct (run_net_sem _ _ _ _) as [[[x|] bs] e]; simpl;
    by rewrite with_proc_with_proc.
Qed.

(** Fetching returns only when every blob asked for is there. *)
Lemma fetch_loop_inv bs (s : S) r s' :
  list_comp bs (fun b => v <- FetchBlob b ;; ret (b, v)) s = (Return r, s') ->
  Forall (fun b => is_Some (blobs (current_workspace (proc s)) !! b)) bs.
Proof.
  revert s r s'; induction bs as [|b bs IH]; intros s r s'; simpl; [done|].
  unfold bind at 1. unfold bind at 1. rewrite FetchBlob_run.
  destruct (blobs (current_workspace (proc s)) !! b) as [x|] eqn:Hb;
    [|done].
  unfold ret at 1. unfold bind at 1.
  destruct (list_comp bs _ _) as [[r'|e] s''] eqn:Hrest; [|done].
  intros _. constructor; [by eexists|].
  apply IH in Hrest. by rewrite proc_with_proc in Hrest.
Qed.

End workspace_runs.

Section scoped_runs.
Context `{Tys : Types} `{Eng : !Engine} {S : Type} `{!HasProcess S}.

(** A [with ScopedWS(name, is_reset=False, is_cleanup=False)] block: the
    body runs in the named workspace, and whatever it returns or raises, the
    workspace that was current is current again afterwards. *)
Lemma ScopedWS_run {A} ws_name (body : M S A) (s : S) :
  ScopedWS ws_name false false body s
  = ((body (with_proc (switch ws_name (proc s)) s)).1,
     let s' := (body (with_proc (switch ws_name (proc s)) s)).2 in
     with_proc (leave (current (proc s)) ws_name (proc s')) s').
Proof.
  unfold ScopedWS, CurrentWorkspace, gets, bind.
  rewrite SwitchWorkspace_run. unfold ret at 1. unfold try_finally.
  destruct (body _) as [r s']; simpl. unfold leave.
  case_bool_decide.
  - unfold ret. by rewrite with_proc_proc.
  - by rewrite SwitchWorkspace_run.
Qed.

Lemma record_all_nil (P : Process) : record_all [] P = P.
Proof. destruct P; unfold record_all; simpl. by rewrite app_nil_r. Qed.

Lemma trace_record_all evs (P : Process) :
  trace (record_all evs P) = trace P ++ evs.
Proof. reflexivity. Qed.

Lemma record_record_all e evs (P : Process) :
  record_all evs (record e P) = record_all (e :: evs) P.
Proof. unfold record_all, record; simpl. by rewrite <- app_assoc. Qed.

End scoped_runs.

(** ** The runner, phase by phase *)
Section runner_runs.
Context `{Tys : Types} `{Eng : !Engine}.
Import ProtobufModel.

Lemma run_graph_run (self : t) (P : Process) :
  let err := (run_outcome (caffe2_pb2.name (net self)) P).1.1 in
  run_graph (self, P)
  = (match propagated err with None => Return tt | Some x => Raise x end,
     (noted self err,
      record_all (logged self err) (ran (caffe2_pb2.name (net self)) P))).
Proof.
  intros err. unfold run_graph, gets, bind at 1, try_except_RuntimeError.
  simpl. rewrite RunNet_run. simpl. fold err.
  destruct err as [x|]; simpl.
  - destruct x; simpl; try by rewrite record_all_nil.
    unfold bind, gets, emit, update, modify, ret; simpl.
    case_bool_decide; simpl; unfold record_all, record; simpl;
      by rewrite <- ?app_assoc.
  - by rewrite record_all_nil.
Qed.

Lemma valid_inputs_forallb (self : t) (items : TensorDict) :
  forallb (fun inp => bool_decide
                        (inp ∈ caffe2_pb2.external_input (net self)))
    (odict.keys items) = true
  <-> valid_inputs self items.
Proof.
  unfold valid_inputs. rewrite forallb_forall, Forall_forall. split.
  - intros Hall k Hk. apply list_elem_of_In in Hk.
    apply Hall in Hk. by apply bool_decide_eq_true in Hk.
  - intros Hall k Hk. apply bool_decide_eq_true, Hall.
    by apply list_elem_of_In.
Qed.

(** The first statement of [forward]: the assertion on the keys. *)
Lemma forward_assert (self : t) (items : TensorDict) (P : Process) :
  forward (Some items) (self, P)
  = if forallb (fun inp => bool_decide
                             (inp ∈ caffe2_pb2.external_input (net self)))
         (odict.keys items)
    then ScopedWS (ws_name self) false false (forward_body items) (self, P)
    else (Raise AssertionError, (self, P)).
Proof.
  unfold forward, gets, bind at 1; simpl.
  unfold ret at 1, bind at 1. by destruct (forallb _ _).
Qed.

Lemma forward_invalid_run (self : t) (items : TensorDict) (P : Process) :
  ~ valid_inputs self items ->
  forward (Some items) (self, P) = (Raise AssertionError, (self, P)).
Proof.
  intros Hv. rewrite forward_assert.
  destruct (forallb _ _) eqn:Hall; [|done].
  by apply valid_inputs_forallb in Hall.
Qed.

Lemma forward_valid_run (self : t) (items : TensorDict) (P : Process) :
  valid_inputs self items ->
  forward (Some items) (self, P)
  = ScopedWS (ws_name self) false false (forward_body items) (self, P).
Proof.
  intros Hv%valid_inputs_forallb. unfold forward, gets, bind at 1; simpl.
  unfold ret at 1, bind at 1. rewrite Hv. done.
Qed.

Lemma forward_body_raises (self : t) (items : TensorDict) (P : Process) x :
  propagated (fault self items P) = Some x ->
  forward_body items (self, switch (ws_name self) P)
  = (Raise x, (noted self (fault self items P), tried self items P)).
Proof.
  intros Hx. unfold forward_body, bind at 1, feed_inputs.
  rewrite feed_loop_run; simpl. unfold bind at 1.
  rewrite run_graph_run; simpl. fold (fed self items P).
  fold (fault self items P). by rewrite Hx.
Qed.

Lemma forward_body_returns (self : t) (items : TensorDict) (P : Process) :
  let outs := caffe2_pb2.external_output (net self) in
  propagated (fault self items P) = None ->
  (forall b, b ∈ outs ->
     is_Some (blobs (current_workspace (tried self items P)) !! b)) ->
  forward_body items (self, switch (ws_name self) P)
  = (Return (fetched_outputs self items P),
     (noted self (fault self items P),
      feed_all ((fun b => (b, sentinel b)) <$> outs)
        (record_all (EvFetchBlob <$> outs) (tried self items P)))).
Proof.
  intros outs Hx Hall. unfold forward_body, bind at 1, feed_inputs.
  rewrite feed_loop_run; simpl. unfold bind at 1.
  rewrite run_graph_run; simpl. fold (fed self items P).
  fold (fault self items P). rewrite Hx.
  fold (tried self items P).
  assert (net (noted self (fault self items P)) = net self) as Hnet.
  { unfold noted. destruct (fault self items P) as [[]|]; try done.
    by case_bool_decide. }
  unfold bind at 1, fetch_outputs, gets, bind at 1; simpl.
  unfold bind at 1. rewrite Hnet. fold outs.
  rewrite fetch_loop_run by done. simpl. unfold ret at 1.
  unfold bind at 1, reset_outputs, gets, bind at 1; simpl.
  rewrite Hnet. fold outs. rewrite feed_each_loop_run. done.
Qed.

Lemma current_switch ws_name (P : Process) :
  current (switch ws_name P) = ws_name.
Proof. reflexivity. Qed.

Lemma workspace_of_switch n ws_name (P : Process) :
  workspace_of n (switch ws_name P) = workspace_of n P.
Proof.
  unfold workspace_of, switch; simpl.
  destruct (workspaces P !! ws_name) eqn:E; [done|].
  destruct (decide (ws_name = n)) as [->|Hne].
  - by rewrite lookup_insert_eq, E.
  - by rewrite lookup_insert_ne.
Qed.

Lemma workspace_of_leave n org ws_name (P : Process) :
  workspace_of n (leave org ws_name P) = workspace_of n P.
Proof. unfold leave. case_bool_decide; [done|apply workspace_of_switch]. Qed.

Lemma current_ran net_name (P : Process) : current (ran net_name P) = current P.
Proof. reflexivity. Qed.

Lemma blobs_ran net_name (P : Process) :
  blobs (current_workspace (ran net_name P)) = (run_outcome net_name P).1.2.
Proof.
  unfold ran, set_engine.
  change (blobs (current_workspace (set_blobs (run_outcome net_name P).1.2
            (record (EvRunNet net_name) P))) = (run_outcome net_name P).1.2).
  apply blobs_set_blobs.
Qed.

Lemma current_fed (self : t) items (P : Process) :
  current (fed self items P) = ws_name self.
Proof. unfold fed. by rewrite current_feed_all. Qed.

Lemma current_tried (self : t) items (P : Process) :
  current (tried self items P) = ws_name self.
Proof. unfold tried. simpl. apply current_fed. Qed.

Lemma blobs_tried (self : t) items (P : Process) :
  blobs (current_workspace (tried self items P)) = blobs_left self items P.
Proof.
  unfold tried, blobs_left.
  change (current_workspace (record_all ?evs ?Q)) with (current_workspace Q).
  apply blobs_ran.
Qed.

Lemma net_noted (self : t) err : net (noted self err) = net self.
Proof.
  unfold noted. destruct err as [[]|]; try done. by case_bool_decide.
Qed.

Lemma ws_name_noted (self : t) err : ws_name (noted self err) = ws_name self.
Proof.
  unfold noted. destruct err as [[]|]; try done. by case_bool_decide.
Qed.

Lemma recoverable_spec (self : t) items (P : Process) :
  recoverable self items P
  <-> forall x, fault self items P = Some x -> is_RuntimeError x = true.
Proof.
  unfold recoverable. destruct (fault self items P) as [x|]; simpl.
  - split.
    + intros Hp y [= <-]. by destruct x.
    + intros Hr. specialize (Hr x eq_refl). by destruct x.
  - split; [|done]. by intros _ x.
Qed.

(** A valid call on which the engine raises at most a [RuntimeError] and
    leaves the declared outputs returns, and this is what it returns and the
    state it leaves. *)
Lemma forward_returns (self : t) (items : TensorDict) (P : Process) :
  valid_inputs self items ->
  recoverable self items P ->
  outputs_left self items P ->
  forward (Some items) (self, P)
  = (Return (fetched_outputs self items P),
     (noted self (fault self items P), finished self items P)).
Proof.
  intros Hv Hr Ho.
  rewrite forward_valid_run, ScopedWS_run by done. simpl.
  rewrite forward_body_returns; [done..|].
  intros b Hb. rewrite blobs_tried.
  unfold outputs_left in Ho. rewrite Forall_forall in Ho. by apply Ho.
Qed.

(** A valid call on which the engine raises another exception lets it
    through. *)
Lemma forward_raises (self : t) (items : TensorDict) (P : Process) x :
  valid_inputs self items ->
  propagated (fault self items P) = Some x ->
  forward (Some items) (self, P)
  = (Raise x,
     (noted self (fault self items P),
      leave (current P) (ws_name self) (tried self items P))).
Proof.
  intros Hv Hx.
  rewrite forward_valid_run, ScopedWS_run by done. simpl.
  by rewrite (forward_body_raises _ _ _ x).
Qed.

(** [forward] returns on no other path. *)
Lemma forward_inv (self : t) inputs_dict (P : Process) d s' :
  forward inputs_dict (self, P) = (Return d, s') ->
  exists items,
    inputs_dict = Some items /\ valid_inputs self items /\
    recoverable self items P /\ outputs_left self items P.
Proof.
  destruct inputs_dict as [items|]; [|done]. intros Hf. exists items.
  destruct (forallb (fun inp => bool_decide
              (inp ∈ caffe2_pb2.external_input (net self)))
              (odict.keys items)) eqn:Hv.
  - apply valid_inputs_forallb in Hv.
    destruct (propagated (fault self items P)) as [x|] eqn:Hx.
    { by rewrite (forward_raises _ _ _ x) in Hf. }
    split_and!; [done..|].
    rewrite forward_valid_run, ScopedWS_run in Hf by done.
    simpl in Hf. injection Hf as Hr _.
    unfold forward_body, bind at 1, feed_inputs in Hr.
    rewrite feed_loop_run in Hr; simpl in Hr. unfold bind at 1 in Hr.
    rewrite run_graph_run in Hr; simpl in Hr.
    fold (fed self items P) in Hr. fold (fault self items P) in Hr.
    rewrite Hx in Hr. fold (tried self items P) in Hr.
    unfold bind at 1, fetch_outputs, gets, bind at 1 in Hr; simpl in Hr.
    unfold bind at 1 in Hr. rewrite net_noted in Hr.
    destruct (list_comp _ _ _) as [[r|e] s''] eqn:Hfetch; [|done].
    apply fetch_loop_inv in Hfetch. simpl in Hfetch.
    unfold outputs_left. by rewrite <- blobs_tried.
  - unfold forward, gets, bind at 1 in Hf; simpl in Hf.
    unfold ret at 1, bind at 1 in Hf. by rewrite Hv in Hf.
Qed.

End runner_runs.

(** ** The graph runner: results of a call *)
Section runner_results.
Context `{Tys : Types} `{Eng : !Engine}.
Import ProtobufModel.

(** C3, as amended. For every input dictionary whose keys are all declared
    external inputs of the graph, whenever [ProtobufModel.forward] returns,
    it returns a dictionary whose keys are exactly the declared external
    outputs, in their declared order: each declared output once, at the place
    of its first occurrence; the same names as the declaration, in an order
    the declaration has; and the declared list itself when that list names
    no output twice.  It returns exactly when the engine's run of the graph
    raises nothing but a [RuntimeError] and leaves a blob for every declared
    output; on any other run it raises. *)
Theorem forward_keys_are_declared_outputs
    (self : t) (items : TensorDict) (P : Process) :
  valid_inputs self items ->
  let outs := caffe2_pb2.external_output (net self) in
  ((exists d s', forward (Some items) (self, P) = (Return d, s'))
   <-> recoverable self items P /\ outputs_left self items P)
  /\ (returns (forward (Some items) (self, P)).1 = false
      <-> ~ (recoverable self items P /\ outputs_left self items P))
  /\ (forall d s',
        forward (Some items) (self, P) = (Return d, s') ->
        odict.keys d = odict.first_occurrences outs /\
        NoDup (odict.keys d) /\
        (forall k, k ∈ odict.keys d <-> k ∈ outs) /\
        sublist (odict.keys d) outs /\
        (NoDup outs -> odict.keys d = outs)).
Proof.
  intros Hv outs.
  assert ((exists d s', forward (Some items) (self, P) = (Return d, s'))
          <-> recoverable self items P /\ outputs_left self items P)
    as Hreturns.
  { split.
    - intros (d & s' & Hf).
      by apply forward_inv in Hf as (items' & [= <-] & _ & Hr & Ho).
    - intros [Hr Ho]. eexists _, _. by apply forward_returns. }
  split_and!; [done| |].
  - rewrite <- Hreturns.
    destruct (forward (Some items) (self, P)) as [[d|e] s'] eqn:Hf; simpl.
    + split; [done|]. intros Hnone. destruct Hnone. by exists d, s'.
    + split; [|done]. by intros _ (d & s'' & ?).
  - intros d s' Hf.
    pose proof Hf as (items' & [= <-] & _ & Hr & Ho)%forward_inv.
    rewrite forward_returns in Hf by done. injection Hf as <- _.
    unfold fetched_outputs. rewrite keys_of_pairs.
    rewrite <- list_fmap_compose. simpl. rewrite list_fmap_id.
    unfold odict.first_occurrences. split_and!.
    + done.
    + apply NoDup_foldl_add_key, NoDup_nil_2.
    + intros k. rewrite elem_of_foldl_add_key, elem_of_nil. tauto.
    + apply (foldl_add_key_sublist []).
    + intros Hnd. by apply (foldl_add_key_NoDup []).
Qed.

(** C6. For every input dictionary with a key that is not a declared
    external input, [ProtobufModel.forward] fails at once with the
    [AssertionError] of its first statement, and leaves the runner and the
    process as they were: no workspace is entered, no blob is fed, the graph
    is not run and nothing is added to the trace of engine calls. *)
Theorem forward_rejects_undeclared_input
    (self : t) (items : TensorDict) (P : Process) :
  ~ valid_inputs self items ->
  forward (Some items) (self, P) = (Raise AssertionError, (self, P)).
Proof.
  intros Hv. rewrite forward_assert.
  destruct (forallb _ _) eqn:Hall; [|done].
  by apply valid_inputs_forallb in Hall.
Qed.

End runner_results.

Section runner_reset.
Context `{Tys : Types} `{Eng : !Engine}.
Import ProtobufModel.

Lemma trace_leave org ws_name (P : Process) :
  trace (leave org ws_name P)
  = trace P ++ (if bool_decide (ws_name = org) then []
                else [EvSwitchWorkspace org]).
Proof.
  unfold leave. case_bool_decide; simpl; [by rewrite app_nil_r|done].
Qed.

Lemma current_workspace_switch ws_name (P : Process) :
  current_workspace (switch ws_name P) = workspace_of ws_name P.
Proof.
  rewrite <- (workspace_of_switch ws_name ws_name P). reflexivity.
Qed.

(** When [forward] has returned, every declared output holds its
    sentinel. *)
Lemma finished_outputs (self : t) items (P : Process) b :
  b ∈ caffe2_pb2.external_output (net self) ->
  blobs (workspace_of (ws_name self) (finished self items P)) !! b
  = Some (Holds (sentinel b)).
Proof.
  intros Hb. unfold finished. rewrite workspace_of_leave.
  rewrite <- (current_tried self items P) at 1.
  set (Q := record_all _ (tried self items P)).
  change (current (tried self items P)) with (current Q).
  rewrite <- (current_feed_all ((fun b => (b, sentinel b)) <$>
                 caffe2_pb2.external_output (net self)) Q).
  rewrite workspace_of_current. by apply feed_all_each.
Qed.

(** An engine that removes no blob leaves the declared outputs when they
    were there at the start of the call, and they are there again at the
    end of a call that returned. *)
Lemma outputs_left_of_present (self : t) items (P : Process) :
  keeps_blobs -> outputs_present self P -> outputs_left self items P.
Proof.
  intros Hkeep Hpresent. unfold outputs_left, outputs_present in *.
  rewrite Forall_forall in *. intros b Hb.
  unfold blobs_left, run_outcome. apply Hkeep.
  unfold fed. apply feed_all_keeps.
  rewrite current_workspace_switch. by apply Hpresent.
Qed.

Lemma outputs_present_finished (self : t) items (P : Process) :
  outputs_present (noted self (fault self items P)) (finished self items P).
Proof.
  unfold outputs_present. rewrite net_noted, ws_name_noted.
  apply Forall_forall. intros b Hb.
  rewrite finished_outputs by done. by eexists.
Qed.

(** C4. When a call to [ProtobufModel.forward] returns, every declared
    external output blob of the runner's workspace holds the sentinel string
    for "uninitialized", fed right after the outputs were fetched and as the
    last thing done in the workspace.  Consequently, on the next call, an
    output that is not fed as an input and that the engine's run does not
    write (as when the graph fails before reaching it) comes back as the
    sentinel, not as the value of the earlier call. *)
Theorem forward_resets_outputs
    (self : t) inputs_dict (P : Process) d self' P' :
  forward inputs_dict (self, P) = (Return d, (self', P')) ->
  let outs := caffe2_pb2.external_output (net self) in
  (forall b, b ∈ outs ->
     blobs (workspace_of (ws_name self) P') !! b = Some (Holds (sentinel b)))
  /\ (exists before after,
        trace P' = before ++ (EvFetchBlob <$> outs)
                     ++ ((fun b => EvFeedBlob b (sentinel b)) <$> outs)
                     ++ after
        /\ (after = [] \/ after = [EvSwitchWorkspace (current P)]))
  /\ (forall items d2 s2 b,
        b ∈ outs -> b ∉ odict.keys items ->
        blobs_left self' items P' !! b
        = blobs (current_workspace (fed self' items P')) !! b ->
        forward (Some items) (self', P') = (Return d2, s2) ->
        odict.get b d2 = Some (sentinel b)).
Proof.
  intros Hf outs. pose proof Hf as (items & -> & Hv & Hr & Ho)%forward_inv.
  rewrite forward_returns in Hf by done. injection Hf as <- <- <-.
  assert (forall b, b ∈ outs ->
            blobs (workspace_of (ws_name self) (finished self items P)) !! b
            = Some (Holds (sentinel b))) as Hreset.
  { intros b Hb. by apply finished_outputs. }
  split_and!; [done| |].
  - exists (trace (tried self items P)). eexists. split.
    + unfold finished. rewrite trace_leave, trace_feed_all. simpl.
      rewrite <- list_fmap_compose. rewrite <- !app_assoc. reflexivity.
    + case_bool_decide; auto.
  - intros items2 d2 s2 b Hb Hnin Hleft Hf2.
    set (self' := noted self (fault self items P)) in *.
    set (P' := finished self items P) in *.
    pose proof Hf2 as (? & [= <-] & Hv2 & Hr2 & Ho2)%forward_inv.
    rewrite forward_returns in Hf2 by done. injection Hf2 as <- _.
    unfold fetched_outputs, odict.of_pairs.
    rewrite (get_foldl_set (fun b => fetch_value b (tried self' items2 P'))).
    subst self'. rewrite net_noted. rewrite decide_True by done.
    f_equal. unfold fetch_value. rewrite blobs_tried, Hleft.
    unfold fed. rewrite feed_all_other by done.
    rewrite current_workspace_switch, ws_name_noted.
    by rewrite Hreset.
Qed.

End runner_reset.

(** ** The graph runner: faults of the engine *)
Section runner_faults.
Context `{Tys : Types} `{Eng : !Engine}.
Import ProtobufModel.

Lemma append_inj_l (p a b : string) : p +:+ a = p +:+ b -> a = b.
Proof. induction p as [|c p IH]; simpl; [done|]. intros [= ?]. auto. Qed.

Lemma new_error_message_inj m1 m2 :
  new_error_message m1 = new_error_message m2 -> m1 = m2.
Proof.
  unfold new_error_message. intros Heq.
  by do 2 apply append_inj_l in Heq.
Qed.

Lemma new_error_logs_app msg (tr1 tr2 : list event) :
  new_error_logs msg (tr1 ++ tr2)
  = (new_error_logs msg tr1 + new_error_logs msg tr2)%nat.
Proof. unfold new_error_logs. by rewrite List.filter_app, length_app. Qed.

Lemma new_error_logs_feeds msg (f : string -> pyval Elem) bs :
  new_error_logs msg ((fun b => EvFeedBlob b (f b)) <$> bs) = 0%nat.
Proof. by induction bs. Qed.

Lemma new_error_logs_items msg (items : TensorDict) :
  new_error_logs msg ((fun bt => EvFeedBlob bt.1 bt.2) <$> items) = 0%nat.
Proof. by induction items. Qed.

Lemma new_error_logs_fetches msg bs :
  new_error_logs msg (EvFetchBlob <$> bs) = 0%nat.
Proof. by induction bs. Qed.

Lemma is_new_error_log_new msg m :
  is_new_error_log msg (EvLog WARNING (new_error_message m))
  = bool_decide (m = msg).
Proof.
  unfold is_new_error_log. apply bool_decide_ext. split.
  - apply new_error_message_inj.
  - by intros ->.
Qed.

Lemma is_new_error_log_catch msg :
  is_new_error_log msg
    (EvLog WARNING "Catch the error and use partial results.") = false.
Proof.
  unfold is_new_error_log. apply bool_decide_eq_false_2.
  unfold new_error_message. intros Heq. discriminate Heq.
Qed.

Lemma new_error_logs_cons msg ev (tr : list event) :
  new_error_logs msg (ev :: tr)
  = ((if is_new_error_log msg ev then 1 else 0) + new_error_logs msg tr)%nat.
Proof.
  unfold new_error_logs. cbn [List.filter].
  by destruct (is_new_error_log msg ev).
Qed.

(** The [except] branch logs a message as new exactly when it records it. *)
Lemma new_error_logs_logged msg (self : t) err :
  (new_error_logs msg (logged self err) + known msg self)%nat
  = known msg (noted self err).
Proof.
  unfold logged, noted.
  destruct err as [[| | |m| | |]|]; try done.
  rewrite new_error_logs_app, (new_error_logs_cons _ _ []).
  rewrite is_new_error_log_catch.
  change (new_error_logs msg []) with 0%nat.
  destruct (bool_decide (m ∈ _error_msgs self)) eqn:Hm.
  - change (new_error_logs msg []) with 0%nat. lia.
  - rewrite (new_error_logs_cons _ _ []), is_new_error_log_new.
    change (new_error_logs msg []) with 0%nat.
    apply bool_decide_eq_false in Hm. unfold known, add_error_msg.
    cbn [_error_msgs].
    destruct (decide (m = msg)) as [->|Hne].
    + rewrite bool_decide_eq_true_2 by done.
      rewrite (bool_decide_eq_false_2 (msg ∈ _error_msgs self)) by done.
      rewrite bool_decide_eq_true_2; [lia|].
      apply elem_of_union_l. by apply elem_of_singleton.
    + rewrite (bool_decide_eq_false_2 (m = msg)) by done.
      destruct (bool_decide (msg ∈ _error_msgs self)) eqn:Hk.
      * apply bool_decide_eq_true in Hk.
        rewrite bool_decide_eq_true_2; [lia|]. by apply elem_of_union_r.
      * apply bool_decide_eq_false in Hk.
        rewrite bool_decide_eq_false_2; [lia|].
        intros [Hin%elem_of_singleton|Hin]%elem_of_union; done.
Qed.

(** A message once recorded stays recorded. *)
Lemma known_noted msg (self : t) err :
  msg ∈ _error_msgs self -> msg ∈ _error_msgs (noted self err).
Proof.
  unfold noted. destruct err as [[| | |m| | |]|]; try done.
  case_bool_decide; [done|]. simpl. intros Hin. by apply elem_of_union_r.
Qed.

Lemma error_msgs_noted (self : t) msg :
  _error_msgs (noted self (Some (RuntimeError msg)))
  = {[msg]} ∪ _error_msgs self.
Proof.
  unfold noted. case_bool_decide as Hin; [|done].
  symmetry. apply subseteq_union_1_L.
  by intros x ->%elem_of_singleton.
Qed.

Lemma trace_tried (self : t) items (P : Process) :
  trace (tried self items P)
  = trace P ++ [EvSwitchWorkspace (ws_name self)]
      ++ ((fun bt => EvFeedBlob bt.1 bt.2) <$> items)
      ++ [EvRunNet (caffe2_pb2.name (net self))]
      ++ logged self (fault self items P).
Proof.
  unfold tried, fed. simpl. rewrite trace_feed_all. simpl.
  by rewrite <- !app_assoc.
Qed.

Lemma trace_finished (self : t) items (P : Process) :
  let outs := caffe2_pb2.external_output (net self) in
  trace (finished self items P)
  = trace P ++ [EvSwitchWorkspace (ws_name self)]
      ++ ((fun bt => EvFeedBlob bt.1 bt.2) <$> items)
      ++ [EvRunNet (caffe2_pb2.name (net self))]
      ++ logged self (fault self items P)
      ++ (EvFetchBlob <$> outs)
      ++ ((fun b => EvFeedBlob b (sentinel b)) <$> outs)
      ++ (if bool_decide (ws_name self = current P) then []
          else [EvSwitchWorkspace (current P)]).
Proof.
  intros outs. unfold finished. rewrite trace_leave, trace_feed_all.
  rewrite trace_record_all, trace_tried.
  rewrite <- list_fmap_compose. rewrite <- !app_assoc. done.
Qed.

Lemma new_error_logs_tried msg (self : t) items (P : Process) :
  new_error_logs msg (trace (tried self items P))
  = (new_error_logs msg (trace P)
     + new_error_logs msg (logged self (fault self items P)))%nat.
Proof.
  rewrite trace_tried, !new_error_logs_app, new_error_logs_items.
  rewrite !(new_error_logs_cons _ _ []).
  change (new_error_logs msg []) with 0%nat.
  cbn [is_new_error_log]. lia.
Qed.

(** Fetching, whether it returns or raises, only extends the trace with
    fetch events. *)
Lemma fetch_loop_state bs (s : t * Process) :
  exists n,
    (list_comp bs (fun b => v <- FetchBlob b ;; ret (b, v)) s).2
    = (s.1, record_all (EvFetchBlob <$> take n bs) s.2).
Proof.
  revert s; induction bs as [|b bs IH]; intros [self P]; simpl.
  - exists 0%nat. symmetry. f_equal. apply record_all_nil.
  - unfold bind at 1. unfold bind at 1. rewrite FetchBlob_run. simpl.
    destruct (blobs (current_workspace P) !! b) as [x|].
    + unfold ret at 1. unfold bind at 1.
      destruct (IH (self, record (EvFetchBlob b) P)) as [n Hn].
      exists (S n). simpl in *.
      destruct (list_comp bs _ _) as [[r|e] s'']; simpl in *;
        rewrite Hn; by rewrite record_record_all.
    + exists 1%nat. simpl. done.
Qed.

(** The body of the [with] block leaves the runner as the [except] branch
    left it, and adds to the trace of the [try] statement only fetches and
    feeds. *)
Lemma forward_body_state (self : t) (items : TensorDict) (P : Process) :
  exists Q evs,
    (forward_body items (self, switch (ws_name self) P)).2
    = (noted self (fault self items P), Q)
    /\ trace Q = trace (tried self items P) ++ evs
    /\ forall msg, new_error_logs msg evs = 0%nat.
Proof.
  unfold forward_body, bind at 1, feed_inputs.
  rewrite feed_loop_run; simpl. unfold bind at 1.
  rewrite run_graph_run; simpl. fold (fed self items P).
  fold (fault self items P). fold (tried self items P).
  destruct (propagated (fault self items P)) as [x|].
  { exists (tried self items P), []. by rewrite app_nil_r. }
  unfold bind at 1, fetch_outputs, gets, bind at 1; simpl.
  unfold bind at 1. rewrite net_noted.
  set (s := (noted self (fault self items P), tried self items P)).
  destruct (fetch_loop_state (caffe2_pb2.external_output (net self)) s)
    as [n Hn].
  destruct (list_comp _ _ s) as [[r|e] s''] eqn:Hfetch; simpl in Hn;
    subst s''.
  - unfold ret at 1. unfold bind at 1, reset_outputs, gets, bind at 1.
    simpl. rewrite net_noted, feed_each_loop_run. simpl.
    eexists _, _. split; [done|]. split.
    + rewrite trace_feed_all. simpl. rewrite <- app_assoc. done.
    + intros msg. rewrite new_error_logs_app, new_error_logs_fetches.
      rewrite <- list_fmap_compose. apply new_error_logs_feeds.
  - eexists _, _. split; [done|]. split; [done|].
    intros msg. apply new_error_logs_fetches.
Qed.

(** One call, whatever it is given and however it ends: a message is logged
    as new exactly when the call records it, and a message that was recorded
    stays recorded. *)
Lemma forward_log_step msg inputs_dict (self : t) (P : Process) :
  let s' := (forward inputs_dict (self, P)).2 in
  (new_error_logs msg (trace s'.2) + known msg self
   = new_error_logs msg (trace P) + known msg s'.1)%nat
  /\ (msg ∈ _error_msgs self -> msg ∈ _error_msgs s'.1).
Proof.
  destruct inputs_dict as [items|]; [|done].
  destruct (decide (valid_inputs self items)) as [Hv|Hv].
  - rewrite forward_valid_run, ScopedWS_run by done. simpl.
    destruct (forward_body_state self items P) as (Q & evs & -> & HQ & Hq).
    simpl. split; [|apply known_noted].
    rewrite trace_leave, HQ, !new_error_logs_app, Hq.
    rewrite new_error_logs_tried.
    rewrite <- (new_error_logs_logged msg self (fault self items P)).
    case_bool_decide.
    + change (new_error_logs msg []) with 0%nat. lia.
    + rewrite (new_error_logs_cons _ _ []). cbn [is_new_error_log].
      change (new_error_logs msg []) with 0%nat. lia.
  - by rewrite forward_invalid_run.
Qed.

(** The same over a series of calls. *)
Lemma calls_log msg inputs (s : t * Process) :
  (new_error_logs msg (trace (calls inputs s).2) + known msg s.1
   = new_error_logs msg (trace s.2) + known msg (calls inputs s).1)%nat
  /\ (msg ∈ _error_msgs s.1 -> msg ∈ _error_msgs (calls inputs s).1).
Proof.
  revert s; induction inputs as [|i inputs IH]; intros [self P]; [done|].
  simpl. destruct (forward_log_step msg i self P) as [Hstep Hkeep].
  destruct (IH (forward i (self, P)).2) as [Hrest Hkeep'].
  split; [simpl in *; lia|auto].
Qed.

Lemma fetch_loop_fails bs (s : t * Process) :
  ~ Forall (fun b => is_Some (blobs (current_workspace s.2) !! b)) bs ->
  exists n b,
    bs !! n = Some b
    /\ blobs (current_workspace s.2) !! b = None
    /\ Forall (fun b => is_Some (blobs (current_workspace s.2) !! b))
         (take n bs)
    /\ list_comp bs (fun b => v <- FetchBlob b ;; ret (b, v)) s
       = (Raise (RuntimeError ("Can't find blob: " +:+ b)),
          (s.1, record_all (EvFetchBlob <$> take (S n) bs) s.2)).
Proof.
  revert s; induction bs as [|b bs IH]; intros [self P] Hmissing.
  - by destruct Hmissing.
  - simpl in *. unfold bind at 1. unfold bind at 1. rewrite FetchBlob_run.
    simpl. destruct (blobs (current_workspace P) !! b) as [x|] eqn:Hb.
    + destruct (IH (self, record (EvFetchBlob b) P))
        as (n & b' & Hn & Hb' & Hbefore & Hrun).
      { intros Hall. apply Hmissing. constructor; [by eexists|done]. }
      exists (S n), b'. split_and!; [done|done| |].
      * csimpl. constructor; [by eexists|done].
      * unfold ret at 1. unfold bind at 1. simpl in Hrun. rewrite Hrun.
        simpl. by rewrite record_record_all.
    + exists 0%nat, b. split_and!; [done|done|by constructor|done].
Qed.

Lemma forward_body_fetch_fails (self : t) (items : TensorDict)
    (P : Process) n b :
  recoverable self items P ->
  list_comp (caffe2_pb2.external_output (net self))
    (fun b => v <- FetchBlob b ;; ret (b, v))
    (noted self (fault self items P), tried self items P)
  = (Raise (RuntimeError ("Can't find blob: " +:+ b)),
     (noted self (fault self items P),
      record_all
        (EvFetchBlob <$> take (S n) (caffe2_pb2.external_output (net self)))
        (tried self items P))) ->
  forward_body items (self, switch (ws_name self) P)
  = (Raise (RuntimeError ("Can't find blob: " +:+ b)),
     (noted self (fault self items P),
      record_all
        (EvFetchBlob <$> take (S n) (caffe2_pb2.external_output (net self)))
        (tried self items P))).
Proof.
  intros Hr Hfetch. unfold forward_body, bind at 1, feed_inputs.
  rewrite feed_loop_run; simpl. unfold bind at 1.
  rewrite run_graph_run; simpl. fold (fed self items P).
  fold (fault self items P). fold (tried self items P).
  rewrite Hr. unfold bind at 1, fetch_outputs, gets, bind at 1; simpl.
  unfold bind at 1. rewrite net_noted. by rewrite Hfetch.
Qed.

(** A valid call on which nothing escapes the [try] statement and an output
    has no blob after the run raises at the first such output. *)
Lemma forward_fetch_raises (self : t) (items : TensorDict) (P : Process) :
  valid_inputs self items ->
  recoverable self items P ->
  ~ outputs_left self items P ->
  let outs := caffe2_pb2.external_output (net self) in
  exists n b,
    outs !! n = Some b
    /\ blobs_left self items P !! b = None
    /\ Forall (fun b' => is_Some (blobs_left self items P !! b')) (take n outs)
    /\ forward (Some items) (self, P)
       = (Raise (RuntimeError ("Can't find blob: " +:+ b)),
          (noted self (fault self items P),
           leave (current P) (ws_name self)
             (record_all (EvFetchBlob <$> take (S n) outs)
                (tried self items P)))).
Proof.
  intros Hv Hr Hmissing outs.
  set (s := (noted self (fault self items P), tried self items P)).
  destruct (fetch_loop_fails outs s) as (n & b & Hn & Hb & Hbefore & Hfetch).
  { simpl. by rewrite blobs_tried. }
  simpl in Hb, Hbefore. rewrite blobs_tried in Hb, Hbefore.
  exists n, b. split_and!; [done..|].
  rewrite forward_valid_run, ScopedWS_run by done. simpl.
  by rewrite (forward_body_fetch_fails self items P n b Hr Hfetch).
Qed.

(** C5, as amended. When the engine raises a [RuntimeError] while the graph
    runs, [ProtobufModel.forward] catches it.  The message is in the
    runner's own set afterwards; it is logged as a new error on this call
    only if the set did not have it, and no later call on this runner logs
    it as new again, whatever those calls are given and however they end.
    After the warning the call goes on to fetch the declared outputs.  When
    the failed run has left a blob for each of them, the call returns: each
    declared output comes back with what its blob holds after the failed
    run, and the outputs are reset.  When it has not, the fetch of the first
    declared output without a blob raises its own [RuntimeError], and that
    one reaches the caller: the call does not return, and no output is
    reset. *)
Theorem forward_catches_runtime_fault
    (self : t) (items : TensorDict) (P : Process) (msg : string) :
  valid_inputs self items ->
  fault self items P = Some (RuntimeError msg) ->
  let outs := caffe2_pb2.external_output (net self) in
  let caught :=
    [EvSwitchWorkspace (ws_name self)]
      ++ ((fun bt => EvFeedBlob bt.1 bt.2) <$> items)
      ++ [EvRunNet (caffe2_pb2.name (net self))]
      ++ (if bool_decide (msg ∈ _error_msgs self) then []
          else [EvLog WARNING (new_error_message msg)])
      ++ [EvLog WARNING "Catch the error and use partial results."] in
  let back :=
    if bool_decide (ws_name self = current P) then []
    else [EvSwitchWorkspace (current P)] in
  exists res self' P',
    forward (Some items) (self, P) = (res, (self', P'))
    /\ _error_msgs self' = {[msg]} ∪ _error_msgs self
    /\ new_error_logs msg (trace P')
        = (new_error_logs msg (trace P) + (1 - known msg self))%nat
    /\ (forall later,
          new_error_logs msg (trace (calls later (self', P')).2)
          = new_error_logs msg (trace P'))
    /\ (outputs_left self items P ->
        exists d,
          res = Return d
          /\ (forall b, b ∈ outs ->
                odict.get b d
                = Some match blobs_left self items P !! b with
                       | Some (Holds v) => v
                       | _ => Str (uninitialized_repr b)
                       end)
          /\ trace P'
             = trace P ++ caught ++ (EvFetchBlob <$> outs)
                 ++ ((fun b => EvFeedBlob b (sentinel b)) <$> outs)
                 ++ back)
    /\ (~ outputs_left self items P ->
        exists n b,
          outs !! n = Some b
          /\ blobs_left self items P !! b = None
          /\ Forall (fun b' => is_Some (blobs_left self items P !! b'))
               (take n outs)
          /\ res = Raise (RuntimeError ("Can't find blob: " +:+ b))
          /\ trace P'
             = trace P ++ caught ++ (EvFetchBlob <$> take (S n) outs)
                 ++ back).
Proof.
  intros Hv Hfault outs caught back.
  assert (recoverable self items P) as Hr.
  { unfold recoverable. by rewrite Hfault. }
  assert (msg ∈ _error_msgs (noted self (fault self items P))) as Hin.
  { rewrite Hfault, error_msgs_noted.
    apply elem_of_union_l. by apply elem_of_singleton. }
  assert (known msg (noted self (fault self items P)) = 1%nat) as Hk.
  { unfold known. by rewrite bool_decide_eq_true_2. }
  assert (exists res P',
            forward (Some items) (self, P)
            = (res, (noted self (fault self items P), P'))
            /\ (outputs_left self items P ->
                exists d,
                  res = Return d
                  /\ (forall b, b ∈ outs ->
                        odict.get b d
                        = Some match blobs_left self items P !! b with
                               | Some (Holds v) => v
                               | _ => Str (uninitialized_repr b)
                               end)
                  /\ trace P'
                     = trace P ++ caught ++ (EvFetchBlob <$> outs)
                         ++ ((fun b => EvFeedBlob b (sentinel b)) <$> outs)
                         ++ back)
            /\ (~ outputs_left self items P ->
                exists n b,
                  outs !! n = Some b
                  /\ blobs_left self items P !! b = None
                  /\ Forall
                       (fun b' => is_Some (blobs_left self items P !! b'))
                       (take n outs)
                  /\ res = Raise (RuntimeError ("Can't find blob: " +:+ b))
                  /\ trace P'
                     = trace P ++ caught
                         ++ (EvFetchBlob <$> take (S n) outs) ++ back))
    as (res & P' & Hf & Hleft & Hmissing).
  { destruct (decide (outputs_left self items P)) as [Ho|Ho].
    - eexists _, _. split; [by apply forward_returns|].
      split; [|done]. intros _. eexists. split_and!; [done| |].
      + intros b Hb. unfold fetched_outputs, odict.of_pairs.
        rewrite (get_foldl_set (fun b => fetch_value b (tried self items P))).
        rewrite decide_True by done. unfold fetch_value.
        by rewrite blobs_tried.
      + unfold finished, caught, back.
        rewrite trace_leave, trace_feed_all.
        rewrite trace_record_all, trace_tried, Hfault. unfold logged.
        rewrite <- list_fmap_compose. rewrite <- !app_assoc. done.
    - destruct (forward_fetch_raises self items P Hv Hr Ho)
        as (n & b & Hn & Hb & Hbefore & Hf).
      eexists _, _. split; [exact Hf|]. split; [done|].
      intros _. exists n, b. split_and!; [done..|].
      unfold caught, back.
      rewrite trace_leave, trace_record_all, trace_tried, Hfault.
      unfold logged. rewrite <- !app_assoc. done. }
  exists res, (noted self (fault self items P)), P'.
  split_and!; [done| | | |done|done].
  - rewrite Hfault. apply error_msgs_noted.
  - pose proof (forward_log_step msg (Some items) self P) as [Hstep _].
    rewrite Hf in Hstep. simpl in Hstep. rewrite Hk in Hstep.
    assert (known msg self <= 1)%nat.
    { unfold known. case_bool_decide; lia. }
    lia.
  - intros later.
    destruct (calls_log msg later (noted self (fault self items P), P'))
      as [Hlogs Hkeep].
    simpl in Hlogs, Hkeep. specialize (Hkeep Hin).
    rewrite Hk in Hlogs.
    assert (known msg
              (calls later (noted self (fault self items P), P')).1
            = 1%nat) as Hk'.
    { unfold known. by rewrite bool_decide_eq_true_2. }
    lia.
Qed.

End runner_faults.

(** ** Construction of the runner, call by call *)
Section construction_runs.
Context `{Tys : Types} `{Eng : !Engine} {S : Type} `{!HasProcess S}.
Import ProtobufModel.

Lemma ResetWorkspace_run (s : S) :
  ResetWorkspace s = (Return tt, with_proc (reset (proc s)) s).
Proof.
  unfold ResetWorkspace, emit, update, modify, bind.
  by rewrite proc_with_proc, with_proc_with_proc.
Qed.

Lemma ScopedWS_reset_run {A} ws_name (body : M S A) (s : S) :
  ScopedWS ws_name true false body s
  = ((body (with_proc (reset (switch ws_name (proc s))) s)).1,
     let s' := (body (with_proc (reset (switch ws_name (proc s))) s)).2 in
     with_proc (leave (current (proc s)) ws_name (proc s')) s').
Proof.
  unfold ScopedWS, CurrentWorkspace, gets, bind.
  rewrite SwitchWorkspace_run, ResetWorkspace_run.
  rewrite proc_with_proc, with_proc_with_proc. unfold try_finally.
  destruct (body _) as [r s']; simpl. unfold leave.
  case_bool_decide.
  - unfold ret. by rewrite with_proc_proc.
  - by rewrite SwitchWorkspace_run.
Qed.

Lemma RunNetOnce_run n (s : S) :
  RunNetOnce n s
  = (match (once_outcome n (proc s)).1.1 with
     | None => Return tt
     | Some x => Raise x
     end,
     with_proc (ran_once n (proc s)) s).
Proof.
  unfold RunNetOnce, emit, update, modify, bind, engine_call.
  rewrite !proc_with_proc. unfold ran_once, once_outcome.
  change (current_workspace (record (EvRunNetOnce n) (proc s)))
    with (current_workspace (proc s)).
  change (engine (record (EvRunNetOnce n) (proc s))) with (engine (proc s)).
  destruct (run_net_once_sem _ _ _) as [[[x|] bs] e]; simpl;
    by rewrite with_proc_with_proc.
Qed.

Lemma CreateBlob_run b (s : S) :
  CreateBlob b s = (Return tt, with_proc (create_blob b (proc s)) s).
Proof.
  unfold CreateBlob, emit, update, modify, bind.
  by rewrite proc_with_proc, with_proc_with_proc.
Qed.

Lemma place_run b (s : S) :
  (present <- Blobs ;;
   if bool_decide (b ∈ present) then ret tt else CreateBlob b) s
  = (Return tt, with_proc (place b (proc s)) s).
Proof.
  unfold bind, Blobs, gets, place.
  destruct (blobs (current_workspace (proc s)) !! b) as [x|] eqn:Hb.
  - rewrite bool_decide_eq_true_2.
    + unfold ret. by rewrite with_proc_proc.
    + apply elem_of_elements, elem_of_dom. by eexists.
  - rewrite bool_decide_eq_false_2.
    + apply CreateBlob_run.
    + intros Hin%elem_of_elements%elem_of_dom.
      rewrite Hb in Hin. by destruct Hin.
Qed.

Lemma place_loop_run bs (s : S) :
  for_each bs (fun blob =>
    present <- Blobs ;;
    if bool_decide (blob ∈ present) then ret tt else CreateBlob blob) s
  = (Return tt, with_proc (place_all bs (proc s)) s).
Proof.
  revert s; induction bs as [|b bs IH]; intros s; simpl.
  - unfold ret. by rewrite with_proc_proc.
  - unfold bind at 1. rewrite place_run, IH.
    by rewrite proc_with_proc, with_proc_with_proc.
Qed.

Lemma CreateNet_run n (s : S) :
  CreateNet n s
  = match (create_outcome n (proc s)).1.1 with
    | None => (Return tt, with_proc (compiled n (proc s)) s)
    | Some x => (Raise x, with_proc (not_compiled n (proc s)) s)
    end.
Proof.
  unfold CreateNet, emit, update, modify, bind at 1, bind at 1, engine_call.
  rewrite !proc_with_proc. unfold compiled, not_compiled, create_outcome.
  change (current_workspace (record (EvCreateNet n) (proc s)))
    with (current_workspace (proc s)).
  change (engine (record (EvCreateNet n) (proc s))) with (engine (proc s)).
  destruct (create_net_sem _ _ _) as [[[x|] bs] e]; simpl;
    by rewrite ?proc_with_proc, !with_proc_with_proc.
Qed.

Lemma init_body_run (self_net init_def : NetDef) (s : S) :
  let P1 := ran_once init_def (proc s) in
  let P2 := place_all (caffe2_pb2.external_input self_net) P1 in
  init_body self_net init_def s
  = match (once_outcome init_def (proc s)).1.1 with
    | Some x => (Raise x, with_proc P1 s)
    | None =>
        match (create_outcome self_net P2).1.1 with
        | None => (Return tt, with_proc (compiled self_net P2) s)
        | Some x => (Raise x, with_proc (not_compiled self_net P2) s)
        end
    end.
Proof.
  intros P1 P2. unfold init_body, bind at 1. rewrite RunNetOnce_run.
  fold P1. destruct (once_outcome init_def (proc s)).1.1 as [x|]; [done|].
  unfold bind at 1. rewrite place_loop_run, proc_with_proc.
  fold P2. rewrite with_proc_with_proc, CreateNet_run, proc_with_proc.
  destruct (create_outcome self_net P2).1.1;
    by rewrite with_proc_with_proc.
Qed.

End construction_runs.

Section runner_construction.
Context `{Tys : Types} `{Eng : !Engine}.
Import ProtobufModel.

Lemma init_run (predict_def init_def : NetDef) (P : Process) :
  __init__ (ObjNetDef predict_def) (ObjNetDef init_def) P
  = match init_fault predict_def init_def P with
    | Some x =>
        (Raise x,
         leave (current P) "__ws_tmp__"
           (ran_once init_def (prepared predict_def P)))
    | None =>
        match compile_fault predict_def init_def P with
        | None =>
            (Return (fresh_runner predict_def P),
             constructed predict_def init_def P)
        | Some x =>
            (Raise x,
             leave (current P) "__ws_tmp__"
               (not_compiled (kept_net predict_def P)
                  (placed predict_def init_def P)))
        end
    end.
Proof.
  unfold __init__, bind at 1. rewrite emit_run. unfold bind at 1. simpl.
  unfold bind at 1. simpl. unfold bind at 1, new_Net. simpl.
  unfold bind at 1. rewrite ScopedWS_reset_run. simpl.
  fold (prepared predict_def P). fold (kept_net predict_def P).
  rewrite init_body_run. simpl.
  fold (init_fault predict_def init_def P).
  destruct (init_fault predict_def init_def P) as [x|]; [done|].
  fold (placed predict_def init_def P).
  fold (compile_fault predict_def init_def P).
  by destruct (compile_fault predict_def init_def P) as [x|].
Qed.

Lemma create_blob_fresh b (P : Process) :
  blobs (current_workspace P) !! b = None ->
  create_blob b P
  = set_blobs (<[b := Uninitialized]> (blobs (current_workspace P)))
      (record (EvCreateBlob b) P).
Proof.
  intros Hb. unfold create_blob.
  change (current_workspace (record (EvCreateBlob b) P))
    with (current_workspace P).
  by rewrite Hb.
Qed.

Lemma trace_place_all bs (P : Process) :
  trace (place_all bs P)
  = trace P ++ (EvCreateBlob <$> created bs (blobs (current_workspace P))).
Proof.
  revert P; induction bs as [|b bs IH]; intros P; simpl.
  - by rewrite app_nil_r.
  - rewrite IH. unfold place.
    destruct (blobs (current_workspace P) !! b) as [x|] eqn:Hb; [done|].
    rewrite create_blob_fresh by done. rewrite blobs_set_blobs.
    simpl. by rewrite <- app_assoc.
Qed.

Lemma blobs_place_all bs (P : Process) b :
  blobs (current_workspace (place_all bs P)) !! b
  = match blobs (current_workspace P) !! b with
    | Some x => Some x
    | None => if decide (b ∈ bs) then Some Uninitialized else None
    end.
Proof.
  revert P; induction bs as [|k bs IH]; intros P; simpl.
  - by destruct (blobs (current_workspace P) !! b).
  - rewrite IH. unfold place.
    destruct (blobs (current_workspace P) !! k) as [x|] eqn:Hk.
    + destruct (blobs (current_workspace P) !! b) as [y|] eqn:Hb; [done|].
      destruct (decide (b ∈ bs)) as [Hin|Hnin].
      * rewrite decide_True; [done|]. apply elem_of_cons; auto.
      * rewrite decide_False; [done|].
        intros [->|?]%elem_of_cons; [congruence|done].
    + rewrite create_blob_fresh by done. rewrite blobs_set_blobs.
      destruct (decide (k = b)) as [->|Hne].
      * rewrite lookup_insert_eq, Hk.
        rewrite decide_True; [done|]. apply elem_of_cons; auto.
      * rewrite lookup_insert_ne by done.
        destruct (blobs (current_workspace P) !! b) as [y|]; [done|].
        destruct (decide (b ∈ bs)) as [Hin|Hnin].
        -- rewrite decide_True; [done|]. apply elem_of_cons; auto.
        -- rewrite decide_False; [done|].
           intros [->|?]%elem_of_cons; done.
Qed.

(** The loop creates a blob for the inputs that have none, and for no
    other; each once. *)
Lemma elem_of_created bs (present : gmap string (blob Elem)) b :
  b ∈ created bs present <-> b ∈ bs /\ present !! b = None.
Proof.
  revert present; induction bs as [|k bs IH]; intros present; simpl.
  - rewrite elem_of_nil. split; [done|]. by intros [Hb _].
  - destruct (present !! k) as [x|] eqn:Hk.
    + rewrite IH, elem_of_cons. split; [tauto|].
      intros [[->|Hin] Hb]; [congruence|done].
    + rewrite !elem_of_cons, IH. split.
      * intros [->|[Hin Hb]]; [auto|]. split; [auto|].
        destruct (decide (k = b)) as [->|Hne]; [done|].
        by rewrite lookup_insert_ne in Hb.
      * intros [[->|Hin] Hb]; [auto|].
        destruct (decide (b = k)) as [->|Hne]; [auto|].
        right. split; [done|]. by rewrite lookup_insert_ne.
Qed.

Lemma NoDup_created bs (present : gmap string (blob Elem)) :
  NoDup (created bs present).
Proof.
  revert present; induction bs as [|k bs IH]; intros present; simpl.
  - apply NoDup_nil_2.
  - destruct (present !! k) as [x|] eqn:Hk; [apply IH|].
    apply NoDup_cons. split; [|apply IH].
    rewrite elem_of_created. intros [_ Hb].
    by rewrite lookup_insert_eq in Hb.
Qed.

Lemma current_place_all bs (P : Process) : current (place_all bs P) = current P.
Proof.
  revert P; induction bs as [|b bs IH]; intros P; simpl; [done|].
  rewrite IH. unfold place.
  destruct (blobs (current_workspace P) !! b) eqn:Hb; [done|].
  by rewrite create_blob_fresh.
Qed.

Lemma blobs_ran_once n (P : Process) :
  blobs (current_workspace (ran_once n P)) = (once_outcome n P).1.2.
Proof.
  unfold ran_once, set_engine.
  change (blobs (current_workspace (set_blobs (once_outcome n P).1.2
            (record (EvRunNetOnce n) P))) = (once_outcome n P).1.2).
  apply blobs_set_blobs.
Qed.

Lemma blobs_prepared predict_def (P : Process) :
  current_workspace (prepared predict_def P) = empty_workspace.
Proof. unfold prepared, reset. apply current_workspace_set. Qed.

Lemma current_placed predict_def init_def (P : Process) :
  current (placed predict_def init_def P) = "__ws_tmp__".
Proof. unfold placed. by rewrite current_place_all. Qed.

Lemma trace_placed predict_def init_def (P : Process) :
  trace (placed predict_def init_def P)
  = trace P
      ++ [EvLog INFO "Initializing ProtobufModel ...";
          EvSwitchWorkspace "__ws_tmp__"; EvResetWorkspace;
          EvRunNetOnce init_def]
      ++ (EvCreateBlob
            <$> created (caffe2_pb2.external_input (kept_net predict_def P))
                  (init_blobs predict_def init_def P)).
Proof.
  unfold placed. rewrite trace_place_all, blobs_ran_once.
  fold (init_blobs predict_def init_def P). simpl.
  by rewrite <- !app_assoc.
Qed.

Lemma nets_compiled n (P : Process) :
  nets (current_workspace (compiled n P)) !! caffe2_pb2.name n = Some n.
Proof.
  unfold compiled. rewrite current_workspace_set. simpl.
  apply lookup_insert_eq.
Qed.

Lemma filter_RunNetOnce_creates bs :
  List.filter is_RunNetOnce (EvCreateBlob <$> bs) = [].
Proof. by induction bs. Qed.

Lemma workspace_of_constructed predict_def init_def (P : Process) :
  workspace_of "__ws_tmp__" (constructed predict_def init_def P)
  = current_workspace
      (compiled (kept_net predict_def P) (placed predict_def init_def P)).
Proof.
  unfold constructed. rewrite workspace_of_leave.
  rewrite <- (current_placed predict_def init_def P) at 1. reflexivity.
Qed.

Lemma trace_constructed predict_def init_def (P : Process) :
  trace (constructed predict_def init_def P)
  = trace P
      ++ [EvLog INFO "Initializing ProtobufModel ...";
          EvSwitchWorkspace "__ws_tmp__"; EvResetWorkspace;
          EvRunNetOnce init_def]
      ++ (EvCreateBlob
            <$> created (caffe2_pb2.external_input (kept_net predict_def P))
                  (init_blobs predict_def init_def P))
      ++ [EvCreateNet (kept_net predict_def P)]
      ++ (if bool_decide ("__ws_tmp__" = current P) then []
          else [EvSwitchWorkspace (current P)]).
Proof.
  unfold constructed. rewrite trace_leave.
  change (trace (compiled ?n ?Q)) with (trace Q ++ [EvCreateNet n]).
  rewrite trace_placed. by rewrite <- !app_assoc.
Qed.

(** C9. [ProtobufModel.__init__] asserts that both arguments are graph
    definitions and raises [AssertionError], with no call on the engine, when
    one of them is not.  Given two graph definitions it enters the workspace
    and empties it, runs the init graph there, once, then creates an
    uninitialized blob for each declared external input of the graph that
    the init graph left without a blob, and for no other blob, so that every
    declared input has a blob when the graph is compiled; it then has the
    engine compile the graph, which registers it in the workspace under its
    name.  The engine is taken to raise nothing while it runs the init graph
    and compiles the graph. *)
Theorem init_prepares_workspace (predict_def init_def : NetDef) (P : Process) :
  init_fault predict_def init_def P = None ->
  compile_fault predict_def init_def P = None ->
  let self_net := kept_net predict_def P in
  let inputs := caffe2_pb2.external_input self_net in
  let log := EvLog INFO "Initializing ProtobufModel ..." in
  let made := created inputs (init_blobs predict_def init_def P) in
  (forall other Q,
     __init__ ObjOther other Q = (Raise AssertionError, record log Q))
  /\ (forall Q,
        __init__ (ObjNetDef predict_def) ObjOther Q
        = (Raise AssertionError, record log Q))
  /\ exists self P',
       __init__ (ObjNetDef predict_def) (ObjNetDef init_def) P
       = (Return self, P')
       /\ net self = self_net
       /\ trace P'
           = trace P
               ++ [log; EvSwitchWorkspace "__ws_tmp__"; EvResetWorkspace;
                   EvRunNetOnce init_def]
               ++ (EvCreateBlob <$> made)
               ++ [EvCreateNet self_net]
               ++ (if bool_decide ("__ws_tmp__" = current P) then []
                   else [EvSwitchWorkspace (current P)])
       /\ length (List.filter is_RunNetOnce
                    (drop (length (trace P)) (trace P'))) = 1%nat
       /\ (forall b,
             b ∈ made
             <-> b ∈ inputs /\ init_blobs predict_def init_def P !! b = None)
       /\ NoDup made
       /\ (forall b, b ∈ inputs ->
             blobs (current_workspace (placed predict_def init_def P)) !! b
             = Some (default Uninitialized
                       (init_blobs predict_def init_def P !! b)))
       /\ nets (workspace_of "__ws_tmp__" P') !! caffe2_pb2.name self_net
           = Some self_net.
Proof.
  intros Hinit Hcompile self_net inputs log made.
  split; [done|]. split; [done|].
  exists (fresh_runner predict_def P), (constructed predict_def init_def P).
  split_and!.
  - by rewrite init_run, Hinit, Hcompile.
  - done.
  - apply trace_constructed.
  - rewrite trace_constructed, drop_app_length.
    rewrite !List.filter_app, filter_RunNetOnce_creates.
    by case_bool_decide.
  - intros b. apply elem_of_created.
  - apply NoDup_created.
  - intros b Hb. unfold placed. rewrite blobs_place_all, blobs_ran_once.
    fold (init_blobs predict_def init_def P).
    destruct (init_blobs predict_def init_def P !! b); [done|].
    by rewrite decide_True.
  - rewrite workspace_of_constructed. apply nets_compiled.
Qed.

(** [__init__] returns on no other path. *)
Lemma init_inv (x y : pyobj) (P : Process) self P' :
  __init__ x y P = (Return self, P') ->
  exists predict_def init_def,
    x = ObjNetDef predict_def /\ y = ObjNetDef init_def
    /\ init_fault predict_def init_def P = None
    /\ compile_fault predict_def init_def P = None
    /\ self = fresh_runner predict_def P
    /\ P' = constructed predict_def init_def P.
Proof.
  destruct x as [predict_def|]; [|done].
  destruct y as [init_def|]; [|done].
  rewrite init_run. intros Hrun. exists predict_def, init_def.
  destruct (init_fault predict_def init_def P); [done|].
  destruct (compile_fault predict_def init_def P); [done|].
  by injection Hrun as <- <-.
Qed.

(** Construction empties the workspace it enters: what the workspace held
    before makes no difference. *)
Lemma prepared_forget predict_def (P : Process) :
  prepared predict_def (forget "__ws_tmp__" P) = prepared predict_def P.
Proof.
  unfold prepared, reset, switch, set_current_workspace, forget, record,
    set_engine. cbn [workspaces current engine trace]. f_equal.
  rewrite lookup_delete_eq.
  destruct (workspaces P !! "__ws_tmp__") as [w|] eqn:Hw.
  - by rewrite insert_insert_eq, insert_delete_eq.
  - by rewrite insert_insert_eq, insert_delete_eq, insert_insert_eq.
Qed.

Lemma init_forget (predict_def init_def : NetDef) (P : Process) :
  __init__ (ObjNetDef predict_def) (ObjNetDef init_def)
    (forget "__ws_tmp__" P)
  = __init__ (ObjNetDef predict_def) (ObjNetDef init_def) P.
Proof.
  rewrite !init_run.
  unfold init_fault, compile_fault, constructed, placed, init_blobs,
    kept_net.
  rewrite !prepared_forget. reflexivity.
Qed.

Lemma nets_place_all bs (P : Process) :
  nets (current_workspace (place_all bs P)) = nets (current_workspace P).
Proof.
  revert P; induction bs as [|b bs IH]; intros P; simpl; [done|].
  rewrite IH. unfold place.
  destruct (blobs (current_workspace P) !! b) eqn:Hb; [done|].
  rewrite create_blob_fresh by done. by rewrite nets_set_blobs.
Qed.

Lemma nets_placed predict_def init_def (P : Process) :
  nets (current_workspace (placed predict_def init_def P)) = ∅.
Proof.
  unfold placed. rewrite nets_place_all. unfold ran_once, set_engine.
  change (nets (current_workspace
            (set_blobs (once_outcome init_def (prepared predict_def P)).1.2
               (record (EvRunNetOnce init_def) (prepared predict_def P))))
          = ∅).
  rewrite nets_set_blobs.
  change (nets (current_workspace (prepared predict_def P)) = ∅).
  by rewrite blobs_prepared.
Qed.

Lemma nets_constructed predict_def init_def (P : Process) :
  nets (workspace_of "__ws_tmp__" (constructed predict_def init_def P))
  = {[caffe2_pb2.name (kept_net predict_def P) := kept_net predict_def P]}.
Proof.
  rewrite workspace_of_constructed. unfold compiled.
  rewrite current_workspace_set. simpl.
  change (set_engine ?e ?Q) with
    {| workspaces := workspaces Q; current := current Q; engine := e;
       trace := trace Q |}.
  change (nets (current_workspace
            {| workspaces := workspaces ?Q; current := current ?Q;
               engine := ?e; trace := trace ?Q |}))
    with (nets (current_workspace Q)).
  rewrite nets_set_blobs.
  change (nets (current_workspace (record ?e ?Q)))
    with (nets (current_workspace Q)).
  rewrite nets_placed. apply insert_empty.
Qed.

(** C10. Every runner that [__init__] returns has the workspace name
    [__ws_tmp__], and construction opens that workspace with reset on: it
    enters it and empties it before anything else.  So a second runner
    constructed in the same process takes over the workspace of the first:
    both runners name the same workspace, the second construction goes the
    same way whatever the first left there, and afterwards the only graph
    registered in it is the graph of the second runner. *)
Theorem init_shares_workspace
    (x1 y1 x2 y2 : pyobj) (P : Process) self1 P1 self2 P2 :
  __init__ x1 y1 P = (Return self1, P1) ->
  __init__ x2 y2 P1 = (Return self2, P2) ->
  ws_name self1 = "__ws_tmp__"
  /\ ws_name self2 = ws_name self1
  /\ (exists rest,
        trace P2
        = trace P1
            ++ [EvLog INFO "Initializing ProtobufModel ...";
                EvSwitchWorkspace "__ws_tmp__"; EvResetWorkspace]
            ++ rest)
  /\ __init__ x2 y2 (forget "__ws_tmp__" P1) = (Return self2, P2)
  /\ nets (workspace_of (ws_name self1) P2)
      = {[caffe2_pb2.name (net self2) := net self2]}.
Proof.
  intros (p1 & i1 & -> & -> & _ & _ & -> & ->)%init_inv Hsecond.
  pose proof Hsecond as (p2 & i2 & -> & -> & _ & _ & -> & ->)%init_inv.
  split_and!; [done|done| | |].
  - eexists. rewrite trace_constructed. simpl. reflexivity.
  - by rewrite init_forget.
  - apply nets_constructed.
Qed.

End runner_construction.

Import ProtobufModel.

(** A call that returns, written out as its result and the state it
    leaves. *)
Lemma returned_eta {A Self S : Type} (x : result A * (Self * S)) (d : A) :
  x.1 = Return d -> x = (Return d, (x.2.1, x.2.2)).
Proof. destruct x as [r [self s]]; simpl. by intros ->. Qed.

Lemma forward_keys_are_declared_outputs_witness :
  exists d s',
    ProtobufModel.forward
      (Some [("data", Sample.tensor 3); ("im_info", Sample.tensor 5)])
      (Sample.runner, Sample.constructed) = (Return d, s') /\
    odict.keys d = ["boxes"; "scores"].
Proof.
  destruct (forward_keys_are_declared_outputs (Eng := Sample.sample)
              Sample.runner
              [("data", Sample.tensor 3); ("im_info", Sample.tensor 5)]
              Sample.constructed) as ([_ Hreturns] & _ & Hkeys).
  - unfold valid_inputs. apply (bool_decide_unpack _). vm_compute. exact I.
  - destruct Hreturns as (d & s' & Hf).
    + split; [vm_compute; reflexivity|].
      unfold outputs_left. apply (bool_decide_unpack _). vm_compute. exact I.
    + exists d, s'. split; [exact Hf|].
      destruct (Hkeys d s' Hf) as (Hfirst & _). rewrite Hfirst.
      vm_compute. reflexivity.
Defined.

(** C3, as stated, fails: the keys of this dictionary are declared inputs of
    the graph of the first runner, and after a second runner has been
    constructed in the same process the call does not return.  The second
    construction has emptied the workspace the runners share, so that the
    engine finds neither the graph nor, after that [RuntimeError] has been
    caught, the blob of the first declared output. *)
Lemma forward_keys_are_declared_outputs_counterexample :
  valid_inputs Sample.runner Sample.first_inputs
  /\ (ProtobufModel.forward (Some Sample.first_inputs)
        (Sample.runner, Sample.constructed_twice)).1
     = Raise (RuntimeError "Can't find blob: boxes")
  /\ ~ exists d s',
         ProtobufModel.forward (Some Sample.first_inputs)
           (Sample.runner, Sample.constructed_twice) = (Return d, s').
Proof.
  assert ((ProtobufModel.forward (Some Sample.first_inputs)
             (Sample.runner, Sample.constructed_twice)).1
          = Raise (RuntimeError "Can't find blob: boxes")) as Hraises.
  { vm_compute. reflexivity. }
  split_and!.
  - unfold valid_inputs. apply (bool_decide_unpack _). vm_compute. exact I.
  - exact Hraises.
  - intros (d & s' & Hf). rewrite Hf in Hraises. discriminate Hraises.
Qed.

Lemma forward_rejects_undeclared_input_witness :
  ProtobufModel.forward (Some [("data", Sample.tensor 3);
                               ("labels", Sample.tensor 1)])
    (Sample.runner, Sample.constructed)
  = (Raise AssertionError, (Sample.runner, Sample.constructed)).
Proof.
  apply (forward_rejects_undeclared_input (Eng := Sample.sample) Sample.runner
           [("data", Sample.tensor 3); ("labels", Sample.tensor 1)]
           Sample.constructed).
  unfold valid_inputs. intros Hv.
  apply (bool_decide_pack _) in Hv. vm_compute in Hv. exact Hv.
Defined.

Lemma forward_resets_outputs_witness :
  blobs (workspace_of "__ws_tmp__" Sample.first_call.2.2) !! "boxes"
  = Some (Holds (sentinel "boxes"))
  /\ fault Sample.first_call.2.1 Sample.second_inputs Sample.first_call.2.2
     = Some (RuntimeError "Cast: the input is not a tensor")
  /\ odict.get "scores" (Sample.outputs_of Sample.first_call.1)
     = Some (Sample.tensor 5)
  /\ odict.get "scores" (Sample.outputs_of Sample.second_call.1)
     = Some (sentinel "scores").
Proof.
  destruct (forward_resets_outputs (Eng := Sample.sample) Sample.runner
              (Some Sample.first_inputs) Sample.constructed
              (Sample.outputs_of Sample.first_call.1)
              Sample.first_call.2.1 Sample.first_call.2.2)
    as (Hreset & _ & Hnext).
  { apply (returned_eta Sample.first_call). vm_compute. reflexivity. }
  split_and!.
  - apply Hreset. apply (bool_decide_unpack _). vm_compute. exact I.
  - vm_compute. reflexivity.
  - vm_compute. reflexivity.
  - apply (Hnext Sample.second_inputs
             (Sample.outputs_of Sample.second_call.1)
             (Sample.second_call.2.1, Sample.second_call.2.2)).
    + apply (bool_decide_unpack _). vm_compute. exact I.
    + apply (bool_decide_unpack _). vm_compute. exact I.
    + vm_compute. reflexivity.
    + apply (returned_eta Sample.second_call). vm_compute. reflexivity.
Defined.

Lemma forward_catches_runtime_fault_witness :
  exists d s',
    Sample.second_call = (Return d, s')
    /\ odict.get "boxes" d = Some (Sample.tensor 4)
    /\ "Cast: the input is not a tensor" ∈ _error_msgs s'.1
    /\ new_error_logs "Cast: the input is not a tensor" (trace s'.2) = 1%nat.
Proof.
  destruct (forward_catches_runtime_fault (Eng := Sample.sample)
              Sample.first_call.2.1 Sample.second_inputs
              Sample.first_call.2.2 "Cast: the input is not a tensor")
    as (res & self' & P' & Hf & Hset & Hlogs & _ & Hleft & _).
  - unfold valid_inputs. apply (bool_decide_unpack _). vm_compute. exact I.
  - vm_compute. reflexivity.
  - destruct Hleft as (d & -> & Hget & _).
    + unfold outputs_left. apply (bool_decide_unpack _). vm_compute. exact I.
    + exists d, (self', P'). split_and!.
      * exact Hf.
      * rewrite Hget.
        -- vm_compute. reflexivity.
        -- apply (bool_decide_unpack _). vm_compute. exact I.
      * simpl. rewrite Hset. apply elem_of_union_l. by apply elem_of_singleton.
      * simpl. rewrite Hlogs. vm_compute. reflexivity.
Defined.

(** C5, as stated, fails: on this call the engine raises a [RuntimeError]
    while the graph runs (a second runner has been constructed in the
    process since, and the workspace the runners share has lost the graph),
    and the call does not return a partial result: the fetch of the first
    declared output, which has no blob, raises a [RuntimeError] that reaches
    the caller. *)
Lemma forward_catches_runtime_fault_counterexample :
  valid_inputs Sample.runner Sample.first_inputs
  /\ fault Sample.runner Sample.first_inputs Sample.constructed_twice
     = Some (RuntimeError "No net detector")
  /\ (ProtobufModel.forward (Some Sample.first_inputs)
        (Sample.runner, Sample.constructed_twice)).1
     = Raise (RuntimeError "Can't find blob: boxes")
  /\ returns (ProtobufModel.forward (Some Sample.first_inputs)
                (Sample.runner, Sample.constructed_twice)).1 = false.
Proof.
  split_and!.
  - unfold valid_inputs. apply (bool_decide_unpack _). vm_compute. exact I.
  - vm_compute. reflexivity.
  - vm_compute. reflexivity.
  - vm_compute. reflexivity.
Qed.

Lemma init_prepares_workspace_witness :
  exists self P',
    __init__ (ObjNetDef Sample.predict_net) (ObjNetDef Sample.init_net)
      Sample.started = (Return self, P')
    /\ trace P'
       = [EvLog INFO "Initializing ProtobufModel ...";
          EvSwitchWorkspace "__ws_tmp__"; EvResetWorkspace;
          EvRunNetOnce Sample.init_net;
          EvCreateBlob "data"; EvCreateBlob "im_info";
          EvCreateNet Sample.predict_net; EvSwitchWorkspace "default"]
    /\ nets (workspace_of "__ws_tmp__" P') !! "detector"
       = Some Sample.predict_net.
Proof.
  destruct (init_prepares_workspace (Eng := Sample.sample)
              Sample.predict_net Sample.init_net Sample.started)
    as (_ & _ & self & P' & Hrun & _ & Htrace & _ & _ & _ & _ & Hnet).
  - vm_compute. reflexivity.
  - vm_compute. reflexivity.
  - exists self, P'. split_and!.
    + exact Hrun.
    + rewrite Htrace. vm_compute. reflexivity.
    + exact Hnet.
Defined.

Lemma init_shares_workspace_witness :
  ws_name Sample.other_runner = ws_name Sample.runner
  /\ nets (workspace_of (ws_name Sample.runner) Sample.constructed_twice)
      = {[ "classifier" := Sample.other_net ]}
  /\ (forward (Some Sample.first_inputs)
        (Sample.runner, Sample.constructed_twice)).1
      = Raise (RuntimeError "Can't find blob: boxes").
Proof.
  destruct (init_shares_workspace (Eng := Sample.sample)
              (ObjNetDef Sample.predict_net) (ObjNetDef Sample.init_net)
              (ObjNetDef Sample.other_net) (ObjNetDef Sample.other_init)
              Sample.started Sample.runner Sample.constructed
              Sample.other_runner Sample.constructed_twice)
    as (_ & Hsame & _ & _ & Hnets).
  - vm_compute. reflexivity.
  - vm_compute. reflexivity.
  - split_and!.
    + exact Hsame.
    + exact Hnets.
    + vm_compute. reflexivity.
Defined.

(** ** The detection adapter *)
Section detection.
Context `{Tys : Types} `{Eng : !Engine} `{Hst : !Host}.

Lemma call_protobuf_model_None (s : ProtobufDetectionModel.t * Process) :
  ProtobufDetectionModel.call_protobuf_model None s
  = (Raise (TypeError "'NoneType' object is not iterable"), s).
Proof. by destruct s as [[pm sd co] P]. Qed.

Lemma call_protobuf_model_run (self : ProtobufDetectionModel.t)
    (inputs_dict : option TensorDict) (P : Process) :
  let r := ProtobufModel.forward inputs_dict
             (ProtobufDetectionModel.protobuf_model self, P) in
  ProtobufDetectionModel.call_protobuf_model inputs_dict (self, P)
  = (r.1,
     ({| ProtobufDetectionModel.protobuf_model := r.2.1;
         ProtobufDetectionModel.size_divisibility :=
           ProtobufDetectionModel.size_divisibility self;
         ProtobufDetectionModel._convert_outputs :=
           ProtobufDetectionModel._convert_outputs self |}, r.2.2)).
Proof.
  intros r. unfold ProtobufDetectionModel.call_protobuf_model, zoom.
  simpl. fold r. by destruct r as [res [pm P']].
Qed.

(** [_convert_inputs] has no [return]: when it does not raise, it gives
    [None]. *)
Lemma convert_inputs_None batched_inputs
    (s : ProtobufDetectionModel.t * Process) r s' :
  ProtobufDetectionModel._convert_inputs batched_inputs s = (Return r, s') ->
  r = None.
Proof.
  unfold ProtobufDetectionModel._convert_inputs, gets, bind at 1. simpl.
  unfold bind at 1.
  destruct (ProtobufDetectionModel.call_protobuf_model _ s) as [[d|e] s''];
    [|done].
  by intros [= <- _].
Qed.

(** [forward] adds nothing to what [_convert_inputs] does but the
    [TypeError] of calling the runner on [None]. *)
Lemma forward_after_convert batched_inputs
    (s : ProtobufDetectionModel.t * Process) :
  ProtobufDetectionModel.forward batched_inputs s
  = (match (ProtobufDetectionModel._convert_inputs batched_inputs s).1 with
     | Return _ => Raise (TypeError "'NoneType' object is not iterable")
     | Raise e => Raise e
     end,
     (ProtobufDetectionModel._convert_inputs batched_inputs s).2).
Proof.
  unfold ProtobufDetectionModel.forward, bind at 1.
  destruct (ProtobufDetectionModel._convert_inputs batched_inputs s)
    as [[r|e] s'] eqn:Hconv; [|done].
  apply convert_inputs_None in Hconv as ->.
  unfold bind at 1. by rewrite call_protobuf_model_None.
Qed.

Lemma keys_c2_inputs_of (self : ProtobufDetectionModel.t) batched_inputs :
  odict.keys (ProtobufDetectionModel.c2_inputs_of self batched_inputs)
  = ["data"; "im_info"].
Proof. reflexivity. Qed.

(** When [_convert_inputs] does not raise, it has fed the dictionary it
    built to the runner's workspace and has run the graph. *)
Lemma convert_inputs_trace (self : ProtobufDetectionModel.t) batched_inputs
    (P : Process) r s' :
  ProtobufDetectionModel._convert_inputs batched_inputs (self, P)
  = (Return r, s') ->
  let pm := ProtobufDetectionModel.protobuf_model self in
  exists rest,
    trace s'.2
    = trace P ++ [EvSwitchWorkspace (ProtobufModel.ws_name pm)]
        ++ ((fun bt => EvFeedBlob bt.1 bt.2)
              <$> ProtobufDetectionModel.c2_inputs_of self batched_inputs)
        ++ [EvRunNet (caffe2_pb2.name (ProtobufModel.net pm))]
        ++ rest.
Proof.
  intros Hconv pm. revert Hconv.
  unfold ProtobufDetectionModel._convert_inputs, gets, bind at 1. simpl.
  unfold bind at 1. rewrite call_protobuf_model_run. simpl. fold pm.
  set (c2 := ProtobufDetectionModel.c2_inputs_of self batched_inputs).
  destruct (ProtobufModel.forward (Some c2) (pm, P)) as [[d|e] [pm' P']]
    eqn:Hrun; [|done].
  intros [= _ <-]. simpl.
  pose proof Hrun as (items & [= <-] & Hv & Hr & Ho)%forward_inv.
  rewrite forward_returns in Hrun by done. injection Hrun as _ _ <-.
  eexists. rewrite trace_finished. reflexivity.
Qed.

End detection.

Section detection_construction.
Context `{Tys : Types} `{Eng : !Engine} `{Hst : !Host}.

(** Construction of the adapter once the runner has been constructed, when
    no converter is given. *)
Lemma detection_init_run (predict_def : NetDef) (init_net : pyobj)
    (P : Process) runner P' :
  ProtobufModel.__init__ (ObjNetDef predict_def) init_net P
  = (Return runner, P') ->
  ProtobufDetectionModel.__init__ (ObjNetDef predict_def) init_net None P
  = match (if is_ascii (ProtobufDetectionModel.meta_architecture predict_def)
           then META_ARCH_CAFFE2_EXPORT_TYPE_MAP
                  !! ProtobufDetectionModel.meta_architecture predict_def
           else None) with
    | Some get_outputs_converter =>
        match init_net with
        | ObjNetDef init_def =>
            (Return
               {| ProtobufDetectionModel.protobuf_model := runner;
                  ProtobufDetectionModel.size_divisibility :=
                    get_pb_arg_vali predict_def "size_divisibility" 0;
                  ProtobufDetectionModel._convert_outputs :=
                    get_outputs_converter predict_def init_def |}, P')
        | ObjOther => (Raise (AttributeError "arg"), P')
        end
    | None =>
        (Raise (ProtobufDetectionModel.unresolved
                  (ProtobufDetectionModel.meta_architecture predict_def)),
         P')
    end.
Proof.
  intros Hrunner.
  pose proof Hrunner as (p & i & [= <-] & -> & _)%init_inv.
  unfold ProtobufDetectionModel.__init__, bind at 1. rewrite Hrunner.
  unfold bind at 1. simpl. unfold bind at 1. simpl.
  fold (ProtobufDetectionModel.meta_architecture predict_def).
  unfold ProtobufDetectionModel.unresolved, decode_ascii.
  destruct (is_ascii (ProtobufDetectionModel.meta_architecture predict_def));
    [|done].
  unfold bind, ret. simpl.
  by destruct (META_ARCH_CAFFE2_EXPORT_TYPE_MAP !! _).
Qed.

(** C7, as amended. If the adapter is constructed without a converter and
    the tag [meta_architecture] of the graph has no handler in the registry,
    [__init__] does not return an adapter, so that the failure is one of
    construction and there is no adapter to call: once the runner has been
    constructed it raises [KeyError], a [LookupError], when the tag is ASCII
    text, and the [UnicodeDecodeError] of [decode] when it is not. *)
Theorem unregistered_tag_fails_at_construction
    (predict_def : NetDef) (init_net : pyobj) (P : Process) :
  let tag := ProtobufDetectionModel.meta_architecture predict_def in
  META_ARCH_CAFFE2_EXPORT_TYPE_MAP !! tag = None ->
  returns (ProtobufDetectionModel.__init__ (ObjNetDef predict_def) init_net
             None P).1 = false
  /\ (forall runner P',
        ProtobufModel.__init__ (ObjNetDef predict_def) init_net P
        = (Return runner, P') ->
        ProtobufDetectionModel.__init__ (ObjNetDef predict_def) init_net
          None P
        = (Raise (ProtobufDetectionModel.unresolved tag), P'))
  /\ is_LookupError (ProtobufDetectionModel.unresolved tag) = is_ascii tag.
Proof.
  intros tag Hnone. split_and!.
  - destruct (ProtobufModel.__init__ (ObjNetDef predict_def) init_net P)
      as [[runner|e] P'] eqn:Hrunner.
    + rewrite (detection_init_run _ _ _ _ _ Hrunner). fold tag.
      rewrite Hnone. by destruct (is_ascii tag).
    + unfold ProtobufDetectionModel.__init__, bind at 1.
      by rewrite Hrunner.
  - intros runner P' Hrunner.
    rewrite (detection_init_run _ _ _ _ _ Hrunner). fold tag.
    rewrite Hnone. by destruct (is_ascii tag).
  - unfold ProtobufDetectionModel.unresolved. by destruct (is_ascii tag).
Qed.

End detection_construction.

Lemma unregistered_tag_fails_at_construction_witness :
  returns (ProtobufDetectionModel.__init__
             (ObjNetDef (Sample.tagged_net 32 "RetinaNet"))
             (ObjNetDef Sample.init_net) None Sample.started).1 = false
  /\ ProtobufDetectionModel.unresolved "RetinaNet" = KeyError "RetinaNet".
Proof.
  destruct (unregistered_tag_fails_at_construction (Eng := Sample.sample)
              (Hst := Sample.sample_host)
              (Sample.tagged_net 32 "RetinaNet") (ObjNetDef Sample.init_net)
              Sample.started) as (Hfails & _ & _).
  - vm_compute. reflexivity.
  - split; [exact Hfails|]. vm_compute. reflexivity.
Defined.

(** C7, as stated, fails: the tag of this graph is the single byte 200, no
    handler is registered for it, and construction does not end in a
    [LookupError] but in the [UnicodeDecodeError] of [decode]. *)
Lemma unregistered_tag_counterexample :
  META_ARCH_CAFFE2_EXPORT_TYPE_MAP
    !! ProtobufDetectionModel.meta_architecture
         (Sample.tagged_net 32 Sample.odd_tag) = None
  /\ (ProtobufDetectionModel.__init__
        (ObjNetDef (Sample.tagged_net 32 Sample.odd_tag))
        (ObjNetDef Sample.init_net) None Sample.started).1
     = Raise UnicodeDecodeError
  /\ ~ (exists e,
          (ProtobufDetectionModel.__init__
             (ObjNetDef (Sample.tagged_net 32 Sample.odd_tag))
             (ObjNetDef Sample.init_net) None Sample.started).1 = Raise e
          /\ is_LookupError e = true).
Proof.
  assert ((ProtobufDetectionModel.__init__
             (ObjNetDef (Sample.tagged_net 32 Sample.odd_tag))
             (ObjNetDef Sample.init_net) None Sample.started).1
          = Raise UnicodeDecodeError) as Hrun.
  { vm_compute. reflexivity. }
  split_and!.
  - vm_compute. reflexivity.
  - exact Hrun.
  - intros (e & He & Hlookup). rewrite Hrun in He.
    injection He as <-. discriminate Hlookup.
Qed.

(** ** Padding to the size divisibility *)
Section padding.
Context `{Tys : Types} `{Hst : !Host}.

Lemma round_up_0 d : round_up d 0 = d.
Proof. reflexivity. Qed.

Lemma round_up_Z d s :
  s <> 0%Z ->
  Z.of_nat (round_up d s)
  = ((Z.of_nat d + Z.abs s - 1) / Z.abs s * Z.abs s)%Z.
Proof.
  intros Hs. unfold round_up.
  destruct (Z.eqb_spec s 0) as [|_]; [done|].
  rewrite Z2Nat.id; [done|].
  apply Z.mul_nonneg_nonneg; [|lia].
  apply Z.div_pos; lia.
Qed.

(** The rounded size is the least multiple of the size divisibility that is
    not below the size. *)
Lemma round_up_spec d s :
  s <> 0%Z ->
  (s | Z.of_nat (round_up d s))%Z
  /\ (d <= round_up d s)%nat
  /\ (Z.of_nat (round_up d s) < Z.of_nat d + Z.abs s)%Z.
Proof.
  intros Hs. rewrite round_up_Z by done.
  assert (0 < Z.abs s)%Z as Ha by lia.
  pose proof (Z.div_mod (Z.of_nat d + Z.abs s - 1) (Z.abs s)) as Hdiv.
  pose proof (Z.mod_pos_bound (Z.of_nat d + Z.abs s - 1) (Z.abs s) Ha)
    as Hmod.
  split_and!.
  - apply Z.divide_abs_l. apply Z.divide_factor_r.
  - apply Nat2Z.inj_le. rewrite round_up_Z by done. lia.
  - lia.
Qed.

Lemma round_up_ge d s : (d <= round_up d s)%nat.
Proof.
  destruct (decide (s = 0%Z)) as [->|Hs]; [by rewrite round_up_0|].
  by apply round_up_spec.
Qed.

Lemma length_pad_row w (row : list Elem) :
  (length row <= w)%nat -> length (pad_row w row) = w.
Proof.
  intros Hw. unfold pad_row. rewrite length_app, length_replicate. lia.
Qed.

Lemma length_pad_plane h w (plane : list (list Elem)) :
  (length plane <= h)%nat -> length (pad_plane h w plane) = h.
Proof.
  intros Hh. unfold pad_plane.
  rewrite length_app, length_fmap, length_replicate. lia.
Qed.

Lemma shape_members (l : list (ndarray Elem)) (s : list nat) :
  l <> [] ->
  Forall (fun x => shape x = Some s) l ->
  shape (Nest l) = Some (length l :: s).
Proof.
  destruct l as [|x l]; [done|]. intros _ Hall.
  apply Forall_cons in Hall as [Hx Hl]. simpl. rewrite Hx.
  rewrite (proj2 (forallb_forall _ _)).
  - by rewrite List.length_map.
  - intros r (y & <- & Hy%list_elem_of_In)%in_map_iff.
    apply bool_decide_eq_true_2. by apply (proj1 (Forall_forall _ _) Hl).
Qed.

Lemma shape_row (row : list Elem) :
  shape (Nest (Item <$> row)) = Some [length row].
Proof.
  destruct row as [|e row]; [done|].
  rewrite (shape_members _ []); [by rewrite length_fmap|done|].
  apply Forall_fmap. by apply Forall_true.
Qed.

(** The shape of an image all of whose channels have [h] rows of [w]
    elements. *)
Lemma shape_tensor3 h w (img : list (list (list Elem))) :
  img <> [] -> (0 < h)%nat ->
  Forall (fun plane =>
            length plane = h /\ Forall (fun row => length row = w) plane)
    img ->
  shape (tensor3 img) = Some [length img; h; w].
Proof.
  intros Himg Hpos Hall. unfold tensor3.
  rewrite (shape_members _ [h; w]).
  - by rewrite length_fmap.
  - by destruct img.
  - apply Forall_fmap. eapply Forall_impl; [exact Hall|].
    intros plane [Hh Hrows]. unfold compose; cbv beta.
    rewrite (shape_members _ [w]).
    + by rewrite length_fmap, Hh.
    + destruct plane; [simpl in Hh; lia|done].
    + apply Forall_fmap. eapply Forall_impl; [exact Hrows|].
      intros row Hw. unfold compose; cbv beta. by rewrite shape_row, Hw.
Qed.

(** Padding gives every channel the height and every row the width it pads
    to, when none is larger. *)
Lemma pad_image_sizes h w (img : list (list (list Elem))) :
  Forall (fun plane =>
            (length plane <= h)%nat
            /\ Forall (fun row => (length row <= w)%nat) plane)
    img ->
  Forall (fun plane =>
            length plane = h /\ Forall (fun row => length row = w) plane)
    (pad_image h w img).
Proof.
  intros Hall. unfold pad_image. apply Forall_fmap.
  eapply Forall_impl; [exact Hall|]. intros plane [Hh Hrows]. simpl.
  split; [by apply length_pad_plane|].
  unfold pad_plane. apply Forall_app. split.
  - apply Forall_fmap. eapply Forall_impl; [exact Hrows|].
    intros row Hw. simpl. by apply length_pad_row.
  - apply Forall_replicate. by rewrite length_replicate.
Qed.

Lemma max_of_ge (sizes : list nat) n :
  n ∈ sizes -> (n <= max_of sizes)%nat.
Proof.
  unfold max_of. induction 1 as [n sizes|n m sizes _ IH]; simpl; lia.
Qed.

Lemma max_of_same (sizes : list nat) n :
  sizes <> [] -> Forall (fun m => m = n) sizes -> max_of sizes = n.
Proof.
  unfold max_of. intros Hne Hall.
  induction Hall as [|m sizes -> Hrest IH]; [done|]. simpl.
  destruct sizes as [|m' sizes]; [simpl; lia|].
  rewrite IH by done. lia.
Qed.

(** The shape of the batch tensor: the number of images, their channels, and
    the largest height and width rounded up. *)
Lemma shape_data (batched_inputs : list BatchedInput) s channels :
  batched_inputs <> [] ->
  (0 < channels)%nat ->
  Forall (fun x => rectangular (image x) /\ length (image x) = channels)
    batched_inputs ->
  (0 < batch_height batched_inputs s)%nat ->
  shape (convert_batched_inputs_to_c2_format batched_inputs s).1
  = Some [length batched_inputs; channels;
          batch_height batched_inputs s; batch_width batched_inputs s].
Proof.
  intros Hne Hchannels Hall Hpos.
  unfold convert_batched_inputs_to_c2_format. cbv zeta. cbv [fst].
  set (h := batch_height batched_inputs s).
  set (w := batch_width batched_inputs s).
  rewrite (shape_members _ [channels; h; w]).
  - by rewrite length_fmap.
  - by destruct batched_inputs.
  - apply Forall_fmap. apply Forall_forall. intros x Hx. unfold compose; cbv beta.
    destruct (proj1 (Forall_forall _ _) Hall x Hx) as [Hrect Hlen].
    assert (length (pad_image h w (image x)) = channels) as Hpadded.
    { unfold pad_image. by rewrite length_fmap. }
    rewrite <- Hpadded at 1. apply shape_tensor3.
    + unfold pad_image. destruct (image x); [simpl in Hlen; lia|done].
    + done.
    + apply pad_image_sizes.
      assert (image_height (image x) <= h)%nat as Hh.
      { unfold h, batch_height. etrans; [|apply round_up_ge].
        apply max_of_ge.
        by apply (list_elem_of_fmap_2 (image_height ∘ image)). }
      assert (image_width (image x) <= w)%nat as Hw.
      { unfold w, batch_width. etrans; [|apply round_up_ge].
        apply max_of_ge.
        by apply (list_elem_of_fmap_2 (image_width ∘ image)). }
      eapply Forall_impl; [exact Hrect|]. intros plane [-> Hrows].
      split; [done|].
      eapply Forall_impl; [exact Hrows|]. by intros row ->.
Qed.

Lemma pad_image_rectangular (img : list (list (list Elem))) :
  rectangular img -> pad_image (image_height img) (image_width img) img = img.
Proof.
  unfold rectangular, pad_image.
  generalize (image_height img), (image_width img). intros h w Hrect.
  induction Hrect as [|plane planes [Hh Hrows] _ IH]; [done|].
  csimpl. rewrite IH. f_equal.
  unfold pad_plane. rewrite Hh, Nat.sub_diag. csimpl. rewrite app_nil_r.
  clear Hh. induction Hrows as [|row rows Hw _ IHrows]; [done|].
  csimpl. rewrite IHrows. f_equal.
  unfold pad_row. rewrite Hw, Nat.sub_diag. csimpl. by rewrite app_nil_r.
Qed.

(** With size divisibility 0 images of one size are not padded. *)
Lemma no_padding (batched_inputs : list BatchedInput) h w :
  batched_inputs <> [] ->
  Forall (fun x => rectangular (image x)
                   /\ image_height (image x) = h
                   /\ image_width (image x) = w) batched_inputs ->
  (convert_batched_inputs_to_c2_format batched_inputs 0).1
  = Nest ((fun x => tensor3 (image x)) <$> batched_inputs).
Proof.
  intros Hne Hall. unfold convert_batched_inputs_to_c2_format. simpl.
  unfold batch_height, batch_width. rewrite !round_up_0.
  rewrite (max_of_same _ h), (max_of_same _ w).
  - f_equal. apply Forall_fmap_ext_1.
    eapply Forall_impl; [exact Hall|]. intros x (Hrect & <- & <-). simpl.
    by rewrite pad_image_rectangular.
  - by destruct batched_inputs.
  - apply Forall_fmap. eapply Forall_impl; [exact Hall|]. by intros x (_&_&?).
  - by destruct batched_inputs.
  - apply Forall_fmap. eapply Forall_impl; [exact Hall|]. by intros x (_&?&_).
Qed.

End padding.

Section detection_padding.
Context `{Tys : Types} `{Eng : !Engine} `{Hst : !Host}.

(** The adapter pads to the size divisibility read from the graph. *)
Lemma detection_init_size_divisibility (predict_net init_net : pyobj)
    convert_outputs (P : Process) self P' :
  ProtobufDetectionModel.__init__ predict_net init_net convert_outputs P
  = (Return self, P') ->
  exists predict_def,
    predict_net = ObjNetDef predict_def
    /\ ProtobufDetectionModel.size_divisibility self
        = get_pb_arg_vali predict_def "size_divisibility" 0.
Proof.
  unfold ProtobufDetectionModel.__init__, bind at 1.
  destruct (ProtobufModel.__init__ predict_net init_net P)
    as [[runner|e] P1] eqn:Hrunner; [|done].
  pose proof Hrunner as (p & i & -> & -> & _)%init_inv.
  unfold bind at 1. simpl. unfold bind at 1. simpl. unfold bind at 1.
  intros Hinit. exists p. split; [done|].
  destruct convert_outputs as [c|]; simpl in Hinit.
  - by injection Hinit as <- _.
  - unfold bind at 1, decode_ascii in Hinit.
    destruct (is_ascii _); simpl in Hinit; [|done].
    destruct (META_ARCH_CAFFE2_EXPORT_TYPE_MAP !! _); simpl in Hinit;
      [|done].
    by injection Hinit as <- _.
Qed.

Lemma data_of_c2_inputs (self : ProtobufDetectionModel.t) batched_inputs :
  odict.get "data" (ProtobufDetectionModel.c2_inputs_of self batched_inputs)
  = Some (Array (convert_batched_inputs_to_c2_format batched_inputs
                   (ProtobufDetectionModel.size_divisibility self)).1).
Proof. reflexivity. Qed.

End detection_padding.

(** C1. [ProtobufDetectionModel.forward] does not return the converter's
    results: for every list of batched inputs it does what [_convert_inputs]
    does, which runs the graph on the converted inputs and gives [None], and
    then raises the [TypeError] of calling the runner on [None]; the
    converter is never applied.  On a batch of one image the graph is run
    once, inside [_convert_inputs], and [forward] raises. *)
Theorem detection_forward_raises :
  (forall (Tys : Types) (Eng : Engine) (Hst : Host) batched_inputs
          (s : ProtobufDetectionModel.t * Process),
     ProtobufDetectionModel.forward batched_inputs s
     = (match (ProtobufDetectionModel._convert_inputs batched_inputs s).1 with
        | Return _ => Raise (TypeError "'NoneType' object is not iterable")
        | Raise e => Raise e
        end,
        (ProtobufDetectionModel._convert_inputs batched_inputs s).2)
     /\ returns (ProtobufDetectionModel.forward batched_inputs s).1 = false)
  /\ (ProtobufDetectionModel.forward [Sample.picture]
        (Sample.adapter, Sample.constructed)).1
     = Raise (TypeError "'NoneType' object is not iterable")
  /\ List.filter is_RunNet
       (added Sample.constructed
          (ProtobufDetectionModel.forward [Sample.picture]
             (Sample.adapter, Sample.constructed)).2.2)
     = [EvRunNet "detector"].
Proof.
  split_and!.
  - intros Tys Eng Hst batched_inputs s.
    rewrite forward_after_convert. split; [done|]. simpl.
    by destruct (ProtobufDetectionModel._convert_inputs batched_inputs s).1.
  - vm_compute. reflexivity.
  - vm_compute. reflexivity.
Qed.

(** C2. [ProtobufDetectionModel._convert_inputs] builds the dictionary with
    the keys [data] and [im_info], but it does not return it: its last
    statement calls the runner on the dictionary, so whenever the method
    does not raise it has fed the two tensors and run the graph, and it
    gives [None].  On a batch of one image it gives [None] and the graph has
    been run once. *)
Theorem convert_inputs_runs_graph :
  (forall (Tys : Types) (Eng : Engine) (Hst : Host)
          (self : ProtobufDetectionModel.t) batched_inputs (P : Process)
          r s',
     ProtobufDetectionModel._convert_inputs batched_inputs (self, P)
     = (Return r, s') ->
     let pm := ProtobufDetectionModel.protobuf_model self in
     r = None
     /\ odict.keys (ProtobufDetectionModel.c2_inputs_of self batched_inputs)
         = ["data"; "im_info"]
     /\ exists rest,
          trace s'.2
          = trace P ++ [EvSwitchWorkspace (ProtobufModel.ws_name pm)]
              ++ ((fun bt => EvFeedBlob bt.1 bt.2)
                    <$> ProtobufDetectionModel.c2_inputs_of self
                          batched_inputs)
              ++ [EvRunNet (caffe2_pb2.name (ProtobufModel.net pm))]
              ++ rest)
  /\ (ProtobufDetectionModel._convert_inputs [Sample.picture]
        (Sample.adapter, Sample.constructed)).1
     = Return None
  /\ List.filter is_RunNet
       (added Sample.constructed
          (ProtobufDetectionModel._convert_inputs [Sample.picture]
             (Sample.adapter, Sample.constructed)).2.2)
     = [EvRunNet "detector"].
Proof.
  split_and!.
  - intros Tys Eng Hst self batched_inputs P r s' Hconv pm. split_and!.
    + by apply convert_inputs_None in Hconv.
    + apply keys_c2_inputs_of.
    + by apply (convert_inputs_trace self batched_inputs P r s').
  - vm_compute. reflexivity.
  - vm_compute. reflexivity.
Qed.


(** C8. The batch tensor [data] that [_convert_inputs] builds is regular:
    for a batch of images of the same number of channels, each with channels
    of one height and rows of one width, its shape is the number of images,
    the channels, a height and a width, so that every channel of every image
    in it has that height and every row that width; the height and the width
    are the largest of the images rounded up to the size divisibility, that
    is to the least multiple of it that is not below the size, and to the
    size itself when it is 0; with 0, images of one size are not padded at
    all.  The size divisibility is the argument [size_divisibility] of the
    graph, 0 when the graph has none.  With 32, an image of height 70 and
    width 100 gives a tensor of height 96 and width 128, alone and in a batch
    with a smaller image; with 0 it gives the image. *)
Theorem padding_rounds_up_to_size_divisibility :
  (forall (Tys : Types) (Hst : Host) (batched_inputs : list BatchedInput)
          s channels,
     batched_inputs <> [] ->
     (0 < channels)%nat ->
     Forall (fun x => rectangular (image x) /\ length (image x) = channels)
       batched_inputs ->
     (0 < batch_height batched_inputs s)%nat ->
     shape (convert_batched_inputs_to_c2_format batched_inputs s).1
     = Some [length batched_inputs; channels;
             round_up (max_of (image_height ∘ image <$> batched_inputs)) s;
             round_up (max_of (image_width ∘ image <$> batched_inputs)) s])
  /\ (forall d s,
        s <> 0%Z ->
        (s | Z.of_nat (round_up d s))%Z
        /\ (d <= round_up d s)%nat
        /\ (Z.of_nat (round_up d s) < Z.of_nat d + Z.abs s)%Z)
  /\ (forall d, round_up d 0 = d)
  /\ (forall (Tys : Types) (Hst : Host) (batched_inputs : list BatchedInput)
             h w,
        batched_inputs <> [] ->
        Forall (fun x => rectangular (image x)
                         /\ image_height (image x) = h
                         /\ image_width (image x) = w) batched_inputs ->
        (convert_batched_inputs_to_c2_format batched_inputs 0).1
        = Nest ((fun x => tensor3 (image x)) <$> batched_inputs))
  /\ (forall (Tys : Types) (Eng : Engine) (Hst : Host)
             predict_net init_net convert_outputs (P : Process) self P'
             batched_inputs,
        ProtobufDetectionModel.__init__ predict_net init_net
          convert_outputs P = (Return self, P') ->
        exists predict_def,
          predict_net = ObjNetDef predict_def
          /\ odict.get "data"
                (ProtobufDetectionModel.c2_inputs_of self batched_inputs)
              = Some (Array
                        (convert_batched_inputs_to_c2_format batched_inputs
                           (get_pb_arg_vali predict_def
                              "size_divisibility" 0)).1))
  /\ match Sample.built with
     | Return self =>
         shape_of (odict.get "data"
                     (ProtobufDetectionModel.c2_inputs_of self
                        [Sample.picture]))
     | Raise _ => None
     end = Some [1; 3; 96; 128]%nat
  /\ match Sample.built with
     | Return self =>
         shape_of (odict.get "data"
                     (ProtobufDetectionModel.c2_inputs_of self
                        [Sample.picture; Sample.thumbnail]))
     | Raise _ => None
     end = Some [2; 3; 96; 128]%nat
  /\ shape (convert_batched_inputs_to_c2_format [Sample.picture] 0).1
     = Some [1; 3; 70; 100]%nat
  /\ (convert_batched_inputs_to_c2_format [Sample.picture] 0).1
     = Nest [tensor3 (image Sample.picture)].
Proof.
  split_and!.
  - intros Tys Hst batched_inputs s channels Hne Hchannels Hall Hpos.
    by apply shape_data.
  - intros d s Hs. by apply round_up_spec.
  - apply round_up_0.
  - intros Tys Hst batched_inputs h w Hne Hall. by apply (no_padding _ h w).
  - intros Tys Eng Hst predict_net init_net convert_outputs P self P'
      batched_inputs Hinit.
    apply detection_init_size_divisibility in Hinit
      as (predict_def & -> & Hsize).
    exists predict_def. split; [done|].
    by rewrite data_of_c2_inputs, Hsize.
  - vm_compute. reflexivity.
  - vm_compute. reflexivity.
  - vm_compute. reflexivity.
  - vm_compute. reflexivity.
Qed.

(** * Further properties *)

(** ** The calls of [ProtobufModel.forward], on every path *)
Section runner_paths.
Context `{Tys : Types} `{Eng : !Engine}.

Lemma added_app (P P' : Process) evs :
  trace P' = trace P ++ evs -> added P P' = evs.
Proof. intros Htrace. unfold added. by rewrite Htrace, drop_app_length. Qed.

Lemma filter_RunNet_accesses (evs : list event) :
  Forall (fun ev => is_blob_access ev = true) evs ->
  List.filter is_RunNet evs = [].
Proof.
  induction 1 as [|ev evs Hev _ IH]; [done|].
  simpl. rewrite IH. by destruct ev.
Qed.

Lemma accesses_feeds (items : list (string * pyval Elem)) :
  Forall (fun ev => is_blob_access ev = true)
    ((fun bt => EvFeedBlob bt.1 bt.2) <$> items).
Proof. induction items; csimpl; by constructor. Qed.

Lemma accesses_fetches (bs : list string) :
  Forall (fun ev : event => is_blob_access ev = true) (EvFetchBlob <$> bs).
Proof. induction bs; csimpl; by constructor. Qed.

Lemma accesses_resets (bs : list string) :
  Forall (fun ev => is_blob_access ev = true)
    ((fun b => EvFeedBlob b (ProtobufModel.sentinel b)) <$> bs).
Proof. induction bs; csimpl; by constructor. Qed.

Lemma filter_RunNet_logged (self : t) err :
  List.filter is_RunNet (logged self err) = [].
Proof.
  unfold logged. destruct err as [[| | |msg| | |]|]; try done.
  by case_bool_decide.
Qed.

(** What the body of the [with] block adds to the trace after the [try]
    statement: fetches, and feeds of sentinels. *)
Lemma forward_body_events (self : t) (items : TensorDict) (P : Process) :
  exists Q evs,
    (forward_body items (self, switch (ws_name self) P)).2
    = (noted self (fault self items P), Q)
    /\ trace Q = trace (tried self items P) ++ evs
    /\ Forall (fun ev => is_blob_access ev = true) evs.
Proof.
  unfold forward_body, bind at 1, feed_inputs.
  rewrite feed_loop_run; simpl. unfold bind at 1.
  rewrite run_graph_run; simpl. fold (fed self items P).
  fold (fault self items P). fold (tried self items P).
  destruct (propagated (fault self items P)) as [x|].
  { exists (tried self items P), []. by rewrite app_nil_r. }
  unfold bind at 1, fetch_outputs, gets, bind at 1; simpl.
  unfold bind at 1. rewrite net_noted.
  set (s := (noted self (fault self items P), tried self items P)).
  destruct (fetch_loop_state (caffe2_pb2.external_output (net self)) s)
    as [n Hn].
  destruct (list_comp _ _ s) as [[r|e] s''] eqn:Hfetch; simpl in Hn;
    subst s''.
  - unfold ret at 1. unfold bind at 1, reset_outputs, gets, bind at 1.
    simpl. rewrite net_noted, feed_each_loop_run. simpl.
    eexists _, _. split; [done|]. split.
    + rewrite trace_feed_all. simpl. rewrite <- app_assoc. done.
    + apply Forall_app. split; [apply accesses_fetches|].
      rewrite <- list_fmap_compose. apply accesses_resets.
  - eexists _, _. split; [done|]. split; [done|].
    apply accesses_fetches.
Qed.

(** A call on a dictionary with declared keys only, however it ends. *)
Lemma forward_events (self : t) (items : TensorDict) (P : Process) :
  valid_inputs self items ->
  exists evs,
    (forward (Some items) (self, P)).2.1 = noted self (fault self items P)
    /\ trace (forward (Some items) (self, P)).2.2
       = trace P ++ [EvSwitchWorkspace (ws_name self)]
           ++ ((fun bt => EvFeedBlob bt.1 bt.2) <$> items)
           ++ [EvRunNet (caffe2_pb2.name (net self))]
           ++ logged self (fault self items P)
           ++ evs
           ++ (if bool_decide (ws_name self = current P) then []
               else [EvSwitchWorkspace (current P)])
    /\ Forall (fun ev => is_blob_access ev = true) evs.
Proof.
  intros Hv. rewrite forward_valid_run, ScopedWS_run by done. simpl.
  destruct (forward_body_events self items P) as (Q & evs & -> & HQ & Hevs).
  exists evs. simpl. split; [done|]. split; [|done].
  rewrite trace_leave, HQ, trace_tried. by rewrite <- !app_assoc.
Qed.

(** X1. Whatever it is given and however it ends, a call to
    [ProtobufModel.forward] runs the graph exactly once when its argument is
    a dictionary that passes the assertion on the keys, and does not run it
    otherwise. *)
Theorem forward_runs_graph_once
    (self : t) (inputs_dict : option TensorDict) (P : Process) :
  List.filter is_RunNet (added P (forward inputs_dict (self, P)).2.2)
  = match inputs_dict with
    | Some items =>
        if forallb (fun inp => bool_decide
                      (inp ∈ caffe2_pb2.external_input (net self)))
             (odict.keys items)
        then [EvRunNet (caffe2_pb2.name (net self))]
        else []
    | None => []
    end.
Proof.
  destruct inputs_dict as [items|].
  - destruct (forallb _ _) eqn:Hall.
    + apply valid_inputs_forallb in Hall.
      destruct (forward_events self items P Hall) as (evs & _ & Htr & Hevs).
      rewrite (added_app _ _ _ Htr). rewrite !List.filter_app.
      rewrite (filter_RunNet_accesses _ (accesses_feeds items)).
      rewrite filter_RunNet_logged, (filter_RunNet_accesses _ Hevs).
      by case_bool_decide.
    + rewrite forward_assert, Hall. simpl.
      rewrite (added_app P P []); [done|]. by rewrite app_nil_r.
  - simpl. rewrite (added_app P P []); [done|]. by rewrite app_nil_r.
Qed.

(** X2. A call to [ProtobufModel.forward] never changes the workspace name
    or the graph of the runner, and never removes a message from
    [_error_msgs]: afterwards the set is what it was, or what it was with
    one message more. *)
Theorem forward_keeps_runner
    (self : t) (inputs_dict : option TensorDict) (P : Process) :
  let self' := (forward inputs_dict (self, P)).2.1 in
  ws_name self' = ws_name self
  /\ net self' = net self
  /\ _error_msgs self ⊆ _error_msgs self'
  /\ (_error_msgs self' = _error_msgs self
      \/ exists msg, _error_msgs self' = {[msg]} ∪ _error_msgs self).
Proof.
  assert (forall err,
            _error_msgs self ⊆ _error_msgs (noted self err)
            /\ (_error_msgs (noted self err) = _error_msgs self
                \/ exists msg,
                     _error_msgs (noted self err)
                     = {[msg]} ∪ _error_msgs self)) as Hnoted.
  { intros err. split.
    - intros msg. apply known_noted.
    - unfold noted. destruct err as [[| | |msg| | |]|]; auto.
      case_bool_decide; [auto|]. right. by exists msg. }
  destruct inputs_dict as [items|]; simpl.
  - destruct (forallb (fun inp => bool_decide
                (inp ∈ caffe2_pb2.external_input (net self)))
                (odict.keys items)) eqn:Hall.
    + apply valid_inputs_forallb in Hall.
      destruct (forward_events self items P Hall) as (evs & -> & _).
      rewrite ws_name_noted, net_noted.
      destruct (Hnoted (fault self items P)). done.
    + rewrite forward_assert, Hall. simpl. auto.
  - auto.
Qed.

End runner_paths.

(** ** Exceptions that [ProtobufModel.forward] lets through *)
Section runner_exceptions.
Context `{Tys : Types} `{Eng : !Engine}.

Lemma propagated_other x :
  is_RuntimeError x = false -> propagated (Some x) = Some x.
Proof. by destruct x. Qed.

Lemma workspace_of_record_all ws_name evs (P : Process) :
  workspace_of ws_name (record_all evs P) = workspace_of ws_name P.
Proof. reflexivity. Qed.

Lemma workspace_of_tried (self : t) items (P : Process) :
  workspace_of (ws_name self) (tried self items P)
  = current_workspace (tried self items P).
Proof. rewrite <- (current_tried self items P) at 1. reflexivity. Qed.

(** X3. When the engine raises an exception that is no [RuntimeError] while
    the graph runs, [ProtobufModel.forward] lets it through: nothing is
    logged or recorded, no output is fetched and none is reset, so the
    workspace keeps the blobs as the failed run left them. *)
Theorem forward_lets_other_exceptions_through
    (self : t) (items : TensorDict) (P : Process) (x : exn) :
  valid_inputs self items ->
  fault self items P = Some x ->
  is_RuntimeError x = false ->
  exists P',
    forward (Some items) (self, P) = (Raise x, (self, P'))
    /\ added P P'
       = [EvSwitchWorkspace (ws_name self)]
           ++ ((fun bt => EvFeedBlob bt.1 bt.2) <$> items)
           ++ [EvRunNet (caffe2_pb2.name (net self))]
           ++ (if bool_decide (ws_name self = current P) then []
               else [EvSwitchWorkspace (current P)])
    /\ blobs (workspace_of (ws_name self) P') = blobs_left self items P.
Proof.
  intros Hv Hfault Hother.
  pose proof (forward_raises self items P x Hv) as Hrun.
  rewrite Hfault in Hrun. specialize (Hrun (propagated_other x Hother)).
  assert (noted self (Some x) = self) as Hself by by destruct x.
  rewrite Hself in Hrun. eexists. split; [exact Hrun|]. split.
  - apply added_app. rewrite trace_leave, trace_tried, Hfault.
    assert (logged self (Some x) = []) as -> by by destruct x.
    by rewrite <- !app_assoc.
  - by rewrite workspace_of_leave, workspace_of_tried, blobs_tried.
Qed.

(** Fetching raises at the first blob that is not there. *)
(** X4. The outputs are fetched outside the [try] statement: when a
    declared output has no blob after the run, [ProtobufModel.forward] raises
    at the first such output, in the order of the declaration, also when it
    has just caught a [RuntimeError] of the run; the outputs before it have
    been fetched, and no output is reset. *)
Theorem forward_fetch_failure
    (self : t) (items : TensorDict) (P : Process) :
  valid_inputs self items ->
  recoverable self items P ->
  ~ outputs_left self items P ->
  let outs := caffe2_pb2.external_output (net self) in
  exists n b P',
    outs !! n = Some b
    /\ blobs_left self items P !! b = None
    /\ Forall (fun b' => is_Some (blobs_left self items P !! b')) (take n outs)
    /\ forward (Some items) (self, P)
       = (Raise (RuntimeError ("Can't find blob: " +:+ b)),
          (noted self (fault self items P), P'))
    /\ added P P'
       = [EvSwitchWorkspace (ws_name self)]
           ++ ((fun bt => EvFeedBlob bt.1 bt.2) <$> items)
           ++ [EvRunNet (caffe2_pb2.name (net self))]
           ++ logged self (fault self items P)
           ++ (EvFetchBlob <$> take (S n) outs)
           ++ (if bool_decide (ws_name self = current P) then []
               else [EvSwitchWorkspace (current P)])
    /\ blobs (workspace_of (ws_name self) P') = blobs_left self items P.
Proof.
  intros Hv Hr Hmissing outs.
  set (s := (noted self (fault self items P), tried self items P)).
  destruct (fetch_loop_fails outs s) as (n & b & Hn & Hb & Hbefore & Hfetch).
  { simpl. by rewrite blobs_tried. }
  simpl in Hb, Hbefore. rewrite blobs_tried in Hb, Hbefore.
  exists n, b. eexists. split_and!; [done|done|done| | |].
  - rewrite forward_valid_run, ScopedWS_run by done. simpl.
    rewrite (forward_body_fetch_fails self items P n b Hr Hfetch).
    simpl. reflexivity.
  - apply added_app. rewrite trace_leave, trace_record_all, trace_tried.
    by rewrite <- !app_assoc.
  - rewrite workspace_of_leave, workspace_of_record_all.
    by rewrite workspace_of_tried, blobs_tried.
Qed.

(** X5. A call on which the engine raises nothing returns and leaves the
    runner as it was; it logs nothing; its calls on the engine are, in this
    order: the switch to the runner's workspace, the feeds of the inputs in
    the order of the dictionary, the run, the fetches of the outputs in the
    order of the declaration, the feeds of their sentinels, and the switch
    back.  The dictionary it returns has, for each declared output, what its
    blob holds after the run, and has no other key. *)
Theorem forward_without_fault
    (self : t) (items : TensorDict) (P : Process) :
  valid_inputs self items ->
  fault self items P = None ->
  outputs_left self items P ->
  let outs := caffe2_pb2.external_output (net self) in
  exists d P',
    forward (Some items) (self, P) = (Return d, (self, P'))
    /\ added P P'
       = [EvSwitchWorkspace (ws_name self)]
           ++ ((fun bt => EvFeedBlob bt.1 bt.2) <$> items)
           ++ [EvRunNet (caffe2_pb2.name (net self))]
           ++ (EvFetchBlob <$> outs)
           ++ ((fun b => EvFeedBlob b (sentinel b)) <$> outs)
           ++ (if bool_decide (ws_name self = current P) then []
               else [EvSwitchWorkspace (current P)])
    /\ (forall b,
          odict.get b d
          = if decide (b ∈ outs)
            then Some match blobs_left self items P !! b with
                      | Some (Holds v) => v
                      | _ => Str (uninitialized_repr b)
                      end
            else None).
Proof.
  intros Hv Hfault Ho outs.
  assert (recoverable self items P) as Hr.
  { unfold recoverable. by rewrite Hfault. }
  pose proof (forward_returns self items P Hv Hr Ho) as Hrun.
  rewrite Hfault in Hrun. simpl in Hrun.
  eexists _, _. split; [exact Hrun|]. split.
  - apply added_app. rewrite trace_finished, Hfault. reflexivity.
  - intros b. unfold fetched_outputs, odict.of_pairs.
    rewrite (get_foldl_set (fun b => fetch_value b (tried self items P))).
    fold outs. destruct (decide (b ∈ outs)); [|done].
    unfold fetch_value. by rewrite blobs_tried.
Qed.

Lemma nets_tried (self : t) items (P : Process) :
  nets (current_workspace (tried self items P))
  = nets (workspace_of (ws_name self) P).
Proof.
  unfold tried, ran, set_engine.
  change (nets (current_workspace
            (set_blobs
               (run_outcome (caffe2_pb2.name (net self))
                  (fed self items P)).1.2
               (record (EvRunNet (caffe2_pb2.name (net self)))
                  (fed self items P))))
          = nets (workspace_of (ws_name self) P)).
  rewrite nets_set_blobs.
  change (nets (current_workspace (fed self items P))
          = nets (workspace_of (ws_name self) P)).
  unfold fed. by rewrite nets_feed_all, current_workspace_switch.
Qed.

(** X6. Only the declared outputs are reset: when a call returns, every
    other blob of the runner's workspace, the inputs that were fed among
    them, is as the run of the graph left it, and the graphs registered in
    the workspace are those that were registered before. *)
Theorem forward_resets_only_outputs
    (self : t) (items : TensorDict) (P : Process) d self' P' :
  forward (Some items) (self, P) = (Return d, (self', P')) ->
  (forall k, k ∉ caffe2_pb2.external_output (net self) ->
     blobs (workspace_of (ws_name self) P') !! k
     = blobs_left self items P !! k)
  /\ nets (workspace_of (ws_name self) P')
     = nets (workspace_of (ws_name self) P).
Proof.
  intros Hrun.
  pose proof Hrun as (? & [= <-] & Hv & Hr & Ho)%forward_inv.
  rewrite forward_returns in Hrun by done. injection Hrun as _ _ <-.
  unfold finished. rewrite workspace_of_leave.
  set (Q := record_all _ (tried self items P)).
  set (resets := (fun b => (b, sentinel b))
                   <$> caffe2_pb2.external_output (net self)).
  assert (workspace_of (ws_name self) (feed_all resets Q)
          = current_workspace (feed_all resets Q)) as ->.
  { rewrite <- (current_tried self items P) at 1.
    change (current (tried self items P)) with (current Q).
    rewrite <- (current_feed_all resets Q). reflexivity. }
  split.
  - intros k Hk. rewrite feed_all_other.
    + change (current_workspace Q)
        with (current_workspace (tried self items P)).
      by rewrite blobs_tried.
    + unfold resets. rewrite <- list_fmap_compose. simpl.
      by rewrite list_fmap_id.
  - rewrite nets_feed_all.
    change (current_workspace Q)
      with (current_workspace (tried self items P)).
    apply nets_tried.
Qed.

End runner_exceptions.

Lemma forward_lets_other_exceptions_through_witness :
  exists P',
    forward (Eng := Cases.strict) (Some [("data", Sample.tensor 1)])
      (Cases.aborting_runner, Cases.aborting_constructed)
    = (Raise (OtherError "MemoryError"), (Cases.aborting_runner, P'))
    /\ blobs (workspace_of "__ws_tmp__" P') !! "data"
       = Some (Holds (Sample.tensor 1)).
Proof.
  destruct (forward_lets_other_exceptions_through (Eng := Cases.strict)
              Cases.aborting_runner [("data", Sample.tensor 1)]
              Cases.aborting_constructed (OtherError "MemoryError"))
    as (P' & Hrun & _ & Hblobs).
  - unfold valid_inputs. apply (bool_decide_unpack _). vm_compute. exact I.
  - vm_compute. reflexivity.
  - reflexivity.
  - exists P'. split; [exact Hrun|].
    change "__ws_tmp__" with (ws_name Cases.aborting_runner).
    rewrite Hblobs. vm_compute. reflexivity.
Defined.

Lemma forward_fetch_failure_witness :
  fault Sample.runner Sample.first_inputs Sample.constructed_twice
  = Some (RuntimeError "No net detector")
  /\ exists n b P',
       caffe2_pb2.external_output (net Sample.runner) !! n = Some b
       /\ blobs_left Sample.runner Sample.first_inputs
            Sample.constructed_twice !! b = None
       /\ forward (Some Sample.first_inputs)
            (Sample.runner, Sample.constructed_twice)
          = (Raise (RuntimeError ("Can't find blob: " +:+ b)),
             (noted Sample.runner
                (fault Sample.runner Sample.first_inputs
                   Sample.constructed_twice), P')).
Proof.
  split; [vm_compute; reflexivity|].
  destruct (forward_fetch_failure (Eng := Sample.sample) Sample.runner
              Sample.first_inputs Sample.constructed_twice)
    as (n & b & P' & Hn & Hb & _ & Hrun & _ & _).
  - unfold valid_inputs. apply (bool_decide_unpack _). vm_compute. exact I.
  - vm_compute. reflexivity.
  - unfold outputs_left. intros Hleft.
    apply (bool_decide_pack _) in Hleft. vm_compute in Hleft. exact Hleft.
  - exists n, b, P'. split; [exact Hn|]. split; [exact Hb|exact Hrun].
Defined.

Lemma forward_without_fault_witness :
  exists d P',
    forward (Some Sample.first_inputs) (Sample.runner, Sample.constructed)
    = (Return d, (Sample.runner, P'))
    /\ odict.get "boxes" d = Some (Sample.tensor 3)
    /\ odict.get "data" d = None.
Proof.
  destruct (forward_without_fault (Eng := Sample.sample) Sample.runner
              Sample.first_inputs Sample.constructed)
    as (d & P' & Hrun & _ & Hget).
  - unfold valid_inputs. apply (bool_decide_unpack _). vm_compute. exact I.
  - vm_compute. reflexivity.
  - unfold outputs_left. apply (bool_decide_unpack _). vm_compute. exact I.
  - exists d, P'. split_and!.
    + exact Hrun.
    + rewrite Hget. vm_compute. reflexivity.
    + rewrite Hget. vm_compute. reflexivity.
Defined.

Lemma forward_resets_only_outputs_witness :
  blobs (workspace_of "__ws_tmp__" Sample.first_call.2.2) !! "data"
  = Some (Holds (Sample.tensor 3))
  /\ nets (workspace_of "__ws_tmp__" Sample.first_call.2.2)
     = nets (workspace_of "__ws_tmp__" Sample.constructed).
Proof.
  destruct (forward_resets_only_outputs (Eng := Sample.sample) Sample.runner
              Sample.first_inputs Sample.constructed
              (Sample.outputs_of Sample.first_call.1)
              Sample.first_call.2.1 Sample.first_call.2.2)
    as (Hblobs & Hnets).
  - apply (returned_eta Sample.first_call). vm_compute. reflexivity.
  - split; [|exact Hnets].
    change "__ws_tmp__" with (ws_name Sample.runner).
    rewrite Hblobs.
    + vm_compute. reflexivity.
    + apply (bool_decide_unpack _). vm_compute. exact I.
Defined.

(** ** Construction of the runner when the engine fails *)
Section construction_paths.
Context `{Tys : Types} `{Eng : !Engine}.

Lemma trace_prepared predict_def (P : Process) :
  trace (prepared predict_def P)
  = trace P ++ [EvLog INFO "Initializing ProtobufModel ...";
                EvSwitchWorkspace "__ws_tmp__"; EvResetWorkspace].
Proof. unfold prepared. simpl. by rewrite <- !app_assoc. Qed.

Lemma trace_ran_once n (P : Process) :
  trace (ran_once n P) = trace P ++ [EvRunNetOnce n].
Proof. reflexivity. Qed.

Lemma trace_not_compiled n (P : Process) :
  trace (not_compiled n P) = trace P ++ [EvCreateNet n].
Proof. reflexivity. Qed.

Lemma nets_ran_once n (P : Process) :
  nets (current_workspace (ran_once n P)) = nets (current_workspace P).
Proof.
  unfold ran_once, set_engine.
  change (nets (current_workspace
            (set_blobs (once_outcome n P).1.2 (record (EvRunNetOnce n) P)))
          = nets (current_workspace P)).
  by rewrite nets_set_blobs.
Qed.

Lemma nets_not_compiled n (P : Process) :
  nets (current_workspace (not_compiled n P)) = nets (current_workspace P).
Proof.
  unfold not_compiled, set_engine.
  change (nets (current_workspace
            (set_blobs (create_outcome n P).1.2 (record (EvCreateNet n) P)))
          = nets (current_workspace P)).
  by rewrite nets_set_blobs.
Qed.

(** X7. When the engine raises while it runs the init graph,
    [ProtobufModel.__init__] raises that exception: no runner is returned, no
    placeholder is created and the graph is not compiled; the workspace has
    been entered and emptied all the same, and no graph is registered in
    it. *)
Theorem init_fault_stops_construction
    (predict_def init_def : NetDef) (P : Process) (x : exn) :
  init_fault predict_def init_def P = Some x ->
  exists P',
    __init__ (ObjNetDef predict_def) (ObjNetDef init_def) P = (Raise x, P')
    /\ added P P'
       = [EvLog INFO "Initializing ProtobufModel ...";
          EvSwitchWorkspace "__ws_tmp__"; EvResetWorkspace;
          EvRunNetOnce init_def]
           ++ (if bool_decide ("__ws_tmp__" = current P) then []
               else [EvSwitchWorkspace (current P)])
    /\ nets (workspace_of "__ws_tmp__" P') = ∅.
Proof.
  intros Hfault. rewrite init_run, Hfault. eexists. split; [done|]. split.
  - apply added_app.
    rewrite trace_leave, trace_ran_once, trace_prepared.
    by rewrite <- !app_assoc.
  - rewrite workspace_of_leave.
    change (workspace_of "__ws_tmp__"
              (ran_once init_def (prepared predict_def P)))
      with (current_workspace (ran_once init_def (prepared predict_def P))).
    by rewrite nets_ran_once, blobs_prepared.
Qed.

(** X8. When the engine raises while it compiles the graph,
    [ProtobufModel.__init__] raises that exception after the init graph has
    run and the placeholders have been created: no runner is returned and
    the graph is not registered in the workspace. *)
Theorem compile_fault_stops_construction
    (predict_def init_def : NetDef) (P : Process) (x : exn) :
  init_fault predict_def init_def P = None ->
  compile_fault predict_def init_def P = Some x ->
  let self_net := kept_net predict_def P in
  exists P',
    __init__ (ObjNetDef predict_def) (ObjNetDef init_def) P = (Raise x, P')
    /\ added P P'
       = [EvLog INFO "Initializing ProtobufModel ...";
          EvSwitchWorkspace "__ws_tmp__"; EvResetWorkspace;
          EvRunNetOnce init_def]
           ++ (EvCreateBlob
                 <$> created (caffe2_pb2.external_input self_net)
                       (init_blobs predict_def init_def P))
           ++ [EvCreateNet self_net]
           ++ (if bool_decide ("__ws_tmp__" = current P) then []
               else [EvSwitchWorkspace (current P)])
    /\ nets (workspace_of "__ws_tmp__" P') = ∅.
Proof.
  intros Hinit Hcompile self_net. rewrite init_run, Hinit, Hcompile.
  eexists. split; [done|]. split.
  - apply added_app.
    rewrite trace_leave, trace_not_compiled, trace_placed.
    by rewrite <- !app_assoc.
  - rewrite workspace_of_leave.
    rewrite <- (current_placed predict_def init_def P) at 1.
    change (workspace_of (current (placed predict_def init_def P))
              (not_compiled (kept_net predict_def P)
                 (placed predict_def init_def P)))
      with (current_workspace
              (not_compiled (kept_net predict_def P)
                 (placed predict_def init_def P))).
    by rewrite nets_not_compiled, nets_placed.
Qed.

Lemma no_inference_creates (bs : list string) :
  Forall (fun ev : event => is_inference_call ev = false)
    (EvCreateBlob <$> bs).
Proof. induction bs; csimpl; by constructor. Qed.

(** X9. Construction of a runner never feeds a blob, never fetches one and
    never runs the graph, whatever it is given and however it ends. *)
Theorem init_makes_no_inference_call (x y : pyobj) (P : Process) :
  Forall (fun ev => is_inference_call ev = false)
    (added P (__init__ x y P).2).
Proof.
  destruct x as [predict_def|];
    [|rewrite (added_app P _ [EvLog INFO "Initializing ProtobufModel ..."]);
      [by repeat constructor|done]].
  destruct y as [init_def|];
    [|rewrite (added_app P _ [EvLog INFO "Initializing ProtobufModel ..."]);
      [by repeat constructor|done]].
  rewrite init_run.
  assert (Forall (fun ev : event => is_inference_call ev = false)
            (if bool_decide ("__ws_tmp__" = current P) then []
             else [EvSwitchWorkspace (current P)])) as Hleave.
  { case_bool_decide; by repeat constructor. }
  destruct (init_fault predict_def init_def P) as [e|];
    [|destruct (compile_fault predict_def init_def P) as [e|]]; simpl.
  - erewrite added_app;
      [|by rewrite trace_leave, trace_ran_once, trace_prepared,
           <- !app_assoc].
    simpl. by repeat constructor.
  - erewrite added_app;
      [|by rewrite trace_leave, trace_not_compiled, trace_placed,
           <- !app_assoc].
    simpl. repeat constructor.
    apply Forall_app. split; [apply no_inference_creates|].
    by repeat constructor.
  - erewrite added_app; [|by rewrite trace_constructed].
    simpl. repeat constructor.
    apply Forall_app. split; [apply no_inference_creates|].
    by repeat constructor.
Qed.

End construction_paths.

(** ** The adapter: construction and calls *)
Section detection_paths.
Context `{Tys : Types} `{Eng : !Engine} `{Hst : !Host}.

Lemma adapter_eta (self : ProtobufDetectionModel.t) :
  {| ProtobufDetectionModel.protobuf_model :=
       ProtobufDetectionModel.protobuf_model self;
     ProtobufDetectionModel.size_divisibility :=
       ProtobufDetectionModel.size_divisibility self;
     ProtobufDetectionModel._convert_outputs :=
       ProtobufDetectionModel._convert_outputs self |} = self.
Proof. by destruct self. Qed.

Lemma detection_init_given (predict_def init_def : NetDef)
    (convert_outputs : converter) (P : Process) runner P' :
  __init__ (ObjNetDef predict_def) (ObjNetDef init_def) P
  = (Return runner, P') ->
  ProtobufDetectionModel.__init__ (ObjNetDef predict_def) (ObjNetDef init_def)
    (Some convert_outputs) P
  = (Return
       {| ProtobufDetectionModel.protobuf_model := runner;
          ProtobufDetectionModel.size_divisibility :=
            get_pb_arg_vali predict_def "size_divisibility" 0;
          ProtobufDetectionModel._convert_outputs := convert_outputs |}, P').
Proof.
  intros Hrunner.
  unfold ProtobufDetectionModel.__init__, bind at 1. by rewrite Hrunner.
Qed.

Lemma convert_inputs_run (self : ProtobufDetectionModel.t) batched_inputs
    (P : Process) :
  let r := forward
             (Some (ProtobufDetectionModel.c2_inputs_of self batched_inputs))
             (ProtobufDetectionModel.protobuf_model self, P) in
  ProtobufDetectionModel._convert_inputs batched_inputs (self, P)
  = (match r.1 with Return _ => Return None | Raise e => Raise e end,
     ({| ProtobufDetectionModel.protobuf_model := r.2.1;
         ProtobufDetectionModel.size_divisibility :=
           ProtobufDetectionModel.size_divisibility self;
         ProtobufDetectionModel._convert_outputs :=
           ProtobufDetectionModel._convert_outputs self |}, r.2.2)).
Proof.
  intros r.
  unfold ProtobufDetectionModel._convert_inputs, gets, bind at 1. simpl.
  unfold bind at 1. rewrite call_protobuf_model_run. simpl. fold r.
  by destruct r as [[d|e] [pm P']].
Qed.

(** X10. Constructing the adapter does to the engine exactly what
    constructing its runner does, on every path; and when the construction
    of the runner raises, the adapter's construction raises the same
    exception, whether a converter is given or not. *)
Theorem detection_init_is_runner_init (predict_net init_net : pyobj)
    (convert_outputs : option converter) (P : Process) :
  (ProtobufDetectionModel.__init__ predict_net init_net convert_outputs P).2
  = (__init__ predict_net init_net P).2
  /\ forall e,
       (__init__ predict_net init_net P).1 = Raise e ->
       (ProtobufDetectionModel.__init__ predict_net init_net convert_outputs
          P).1 = Raise e.
Proof.
  destruct (__init__ predict_net init_net P) as [[runner|e] P'] eqn:Hrunner.
  - split; [|done].
    pose proof Hrunner as (p & i & -> & -> & _)%init_inv.
    destruct convert_outputs as [co|].
    + by rewrite (detection_init_given _ _ _ _ _ _ Hrunner).
    + rewrite (detection_init_run _ _ _ _ _ Hrunner).
      by destruct (if is_ascii _ then _ else _).
  - assert (ProtobufDetectionModel.__init__ predict_net init_net
              convert_outputs P = (Raise e, P')) as ->.
    { unfold ProtobufDetectionModel.__init__, bind at 1.
      by rewrite Hrunner. }
    split; [done|]. by intros e' [= <-].
Qed.

(** X11. When a converter is given, the registry of architectures is not
    consulted: construction returns an adapter whenever the construction of
    the runner returns, whatever the tag of the graph, and the adapter holds
    that runner, the [size_divisibility] argument of the graph and the
    converter given. *)
Theorem given_converter_is_kept (predict_def init_def : NetDef)
    (convert_outputs : converter) (P : Process) runner P' :
  __init__ (ObjNetDef predict_def) (ObjNetDef init_def) P
  = (Return runner, P') ->
  exists self,
    ProtobufDetectionModel.__init__ (ObjNetDef predict_def)
      (ObjNetDef init_def) (Some convert_outputs) P = (Return self, P')
    /\ ProtobufDetectionModel.protobuf_model self = runner
    /\ ProtobufDetectionModel.size_divisibility self
       = get_pb_arg_vali predict_def "size_divisibility" 0
    /\ ProtobufDetectionModel._convert_outputs self = convert_outputs.
Proof.
  intros Hrunner. eexists. split; [by apply detection_init_given|done].
Qed.

(** X12. When no converter is given and the tag of the graph is ASCII text
    with a handler in the registry, construction returns an adapter whenever
    the construction of the runner returns; its converter is the one the
    handler gives for the two graphs. *)
Theorem registered_tag_gives_converter (predict_def init_def : NetDef)
    (P : Process) runner P' get_outputs_converter :
  __init__ (ObjNetDef predict_def) (ObjNetDef init_def) P
  = (Return runner, P') ->
  is_ascii (ProtobufDetectionModel.meta_architecture predict_def) = true ->
  META_ARCH_CAFFE2_EXPORT_TYPE_MAP
    !! ProtobufDetectionModel.meta_architecture predict_def
  = Some get_outputs_converter ->
  exists self,
    ProtobufDetectionModel.__init__ (ObjNetDef predict_def)
      (ObjNetDef init_def) None P = (Return self, P')
    /\ ProtobufDetectionModel.protobuf_model self = runner
    /\ ProtobufDetectionModel.size_divisibility self
       = get_pb_arg_vali predict_def "size_divisibility" 0
    /\ ProtobufDetectionModel._convert_outputs self
       = get_outputs_converter predict_def init_def.
Proof.
  intros Hrunner Hascii Hhandler.
  rewrite (detection_init_run _ _ _ _ _ Hrunner), Hascii, Hhandler.
  by eexists.
Qed.

(** X13. When the graph of the runner does not declare both [data] and
    [im_info] as external inputs, [_convert_inputs] and [forward] raise the
    [AssertionError] of the runner's check: nothing is fed, the graph is not
    run, and the adapter and the process are as before. *)
Theorem detection_needs_data_and_im_info
    (self : ProtobufDetectionModel.t) batched_inputs (P : Process) :
  let declared :=
    caffe2_pb2.external_input
      (net (ProtobufDetectionModel.protobuf_model self)) in
  ~ ("data" ∈ declared /\ "im_info" ∈ declared) ->
  ProtobufDetectionModel._convert_inputs batched_inputs (self, P)
  = (Raise AssertionError, (self, P))
  /\ ProtobufDetectionModel.forward batched_inputs (self, P)
     = (Raise AssertionError, (self, P)).
Proof.
  intros declared Hdecl.
  assert (ProtobufDetectionModel._convert_inputs batched_inputs (self, P)
          = (Raise AssertionError, (self, P))) as Hconv.
  { rewrite convert_inputs_run, forward_invalid_run; simpl.
    - by rewrite adapter_eta.
    - unfold valid_inputs. rewrite keys_c2_inputs_of.
      intros Hall. apply Hdecl.
      by inversion Hall as [|? ? ? Hrest]; inversion Hrest; subst. }
  split; [done|]. by rewrite forward_after_convert, Hconv.
Qed.

(** X14. A call of the adapter calls its runner once, on the converted
    inputs: the process is left as that call leaves it, the adapter has the
    runner of that call with its own [size_divisibility] and converter, and
    an exception of that call is the exception of the adapter's call. *)
Theorem detection_forward_is_one_runner_call
    (self : ProtobufDetectionModel.t) batched_inputs (P : Process) :
  let r := forward
             (Some (ProtobufDetectionModel.c2_inputs_of self batched_inputs))
             (ProtobufDetectionModel.protobuf_model self, P) in
  let s' := (ProtobufDetectionModel.forward batched_inputs (self, P)).2 in
  s'.2 = r.2.2
  /\ ProtobufDetectionModel.protobuf_model s'.1 = r.2.1
  /\ ProtobufDetectionModel.size_divisibility s'.1
     = ProtobufDetectionModel.size_divisibility self
  /\ ProtobufDetectionModel._convert_outputs s'.1
     = ProtobufDetectionModel._convert_outputs self
  /\ (forall e,
        r.1 = Raise e ->
        (ProtobufDetectionModel.forward batched_inputs (self, P)).1
        = Raise e)
  /\ List.filter is_RunNet
       (added P (ProtobufDetectionModel.forward batched_inputs (self, P)).2.2)
     = List.filter is_RunNet (added P r.2.2).
Proof.
  intros r s'. unfold s'.
  rewrite forward_after_convert, convert_inputs_run. fold r. simpl.
  split_and!; try done.
  by intros e ->.
Qed.

End detection_paths.

Lemma init_fault_stops_construction_witness :
  exists P',
    __init__ (ObjNetDef Sample.predict_net) (ObjNetDef Cases.failing_init)
      Sample.started
    = (Raise (RuntimeError "Copy: the input holds nothing"), P')
    /\ nets (workspace_of "__ws_tmp__" P') = ∅.
Proof.
  destruct (init_fault_stops_construction (Eng := Sample.sample)
              Sample.predict_net Cases.failing_init Sample.started
              (RuntimeError "Copy: the input holds nothing"))
    as (P' & Hrun & _ & Hnets).
  - vm_compute. reflexivity.
  - exists P'. split; [exact Hrun|exact Hnets].
Defined.

Lemma compile_fault_stops_construction_witness :
  exists P',
    __init__ (Eng := Cases.strict) (ObjNetDef Cases.dangling_net)
      (ObjNetDef Sample.init_net) Sample.started
    = (Raise (RuntimeError "External output not provided"), P')
    /\ nets (workspace_of "__ws_tmp__" P') = ∅.
Proof.
  destruct (compile_fault_stops_construction (Eng := Cases.strict)
              Cases.dangling_net Sample.init_net Sample.started
              (RuntimeError "External output not provided"))
    as (P' & Hrun & _ & Hnets).
  - vm_compute. reflexivity.
  - vm_compute. reflexivity.
  - exists P'. split; [exact Hrun|exact Hnets].
Defined.

Lemma given_converter_is_kept_witness :
  exists self,
    ProtobufDetectionModel.__init__
      (ObjNetDef (Sample.tagged_net 32 "RetinaNet"))
      (ObjNetDef Sample.init_net) (Some Sample.raw_outputs) Sample.started
    = (Return self,
       constructed (Sample.tagged_net 32 "RetinaNet") Sample.init_net
         Sample.started)
    /\ ProtobufDetectionModel.size_divisibility self = 32%Z.
Proof.
  destruct (given_converter_is_kept (Eng := Sample.sample)
              (Hst := Sample.sample_host)
              (Sample.tagged_net 32 "RetinaNet") Sample.init_net
              Sample.raw_outputs Sample.started
              (fresh_runner (Sample.tagged_net 32 "RetinaNet")
                 Sample.started)
              (constructed (Sample.tagged_net 32 "RetinaNet")
                 Sample.init_net Sample.started))
    as (self & Hrun & _ & Hsize & _).
  - vm_compute. reflexivity.
  - exists self. split; [exact Hrun|]. rewrite Hsize. vm_compute.
    reflexivity.
Defined.

Lemma registered_tag_gives_converter_witness :
  exists self,
    ProtobufDetectionModel.__init__
      (ObjNetDef (Sample.tagged_net 32 "GeneralizedRCNN"))
      (ObjNetDef Sample.init_net) None Sample.started
    = (Return self,
       constructed (Sample.tagged_net 32 "GeneralizedRCNN") Sample.init_net
         Sample.started)
    /\ ProtobufDetectionModel._convert_outputs self = Sample.raw_outputs.
Proof.
  destruct (registered_tag_gives_converter (Eng := Sample.sample)
              (Hst := Sample.sample_host)
              (Sample.tagged_net 32 "GeneralizedRCNN") Sample.init_net
              Sample.started
              (fresh_runner (Sample.tagged_net 32 "GeneralizedRCNN")
                 Sample.started)
              (constructed (Sample.tagged_net 32 "GeneralizedRCNN")
                 Sample.init_net Sample.started)
              (fun _ _ => Sample.raw_outputs))
    as (self & Hrun & _ & _ & Hconv).
  - vm_compute. reflexivity.
  - vm_compute. reflexivity.
  - vm_compute. reflexivity.
  - exists self. split; [exact Hrun|exact Hconv].
Defined.

Lemma detection_needs_data_and_im_info_witness :
  ProtobufDetectionModel.forward (Eng := Sample.sample)
    (Hst := Sample.sample_host) [Sample.picture]
    (Cases.other_adapter, Sample.constructed_twice)
  = (Raise AssertionError, (Cases.other_adapter, Sample.constructed_twice)).
Proof.
  apply (detection_needs_data_and_im_info (Eng := Sample.sample)
           (Hst := Sample.sample_host) Cases.other_adapter [Sample.picture]
           Sample.constructed_twice).
  apply (bool_decide_unpack _). vm_compute. exact I.
Defined.

(** ** Arguments that are not graph definitions, and series of calls *)
Section runner_series.
Context `{Tys : Types} `{Eng : !Engine}.

(** X15. When one of its arguments is not a graph definition,
    [ProtobufModel.__init__] raises the [AssertionError] of its checks after
    it has written its line to the log and before it does anything with the
    engine: no workspace is entered, emptied or created. *)
Theorem init_rejects_other_objects (predict_net init_net : pyobj)
    (P : Process) :
  predict_net = ObjOther \/ init_net = ObjOther ->
  exists P',
    __init__ predict_net init_net P = (Raise AssertionError, P')
    /\ added P P' = [EvLog INFO "Initializing ProtobufModel ..."]
    /\ workspaces P' = workspaces P
    /\ current P' = current P
    /\ engine P' = engine P.
Proof.
  intros Hother.
  assert (__init__ predict_net init_net P
          = (Raise AssertionError,
             record (EvLog INFO "Initializing ProtobufModel ...") P)) as ->.
  { destruct Hother as [-> | ->]; [done|]. by destruct predict_net. }
  eexists. split; [done|]. split; [|done]. by apply added_app.
Qed.

Lemma forward_step (inputs_dict : option TensorDict) (self : t)
    (P : Process) :
  let s' := (forward inputs_dict (self, P)).2 in
  exists evs,
    trace s'.2 = trace P ++ evs
    /\ (List.filter is_RunNet evs = []
        \/ List.filter is_RunNet evs = [EvRunNet (caffe2_pb2.name (net self))])
    /\ ws_name s'.1 = ws_name self
    /\ net s'.1 = net self
    /\ _error_msgs self ⊆ _error_msgs s'.1.
Proof.
  cbv zeta.
  destruct inputs_dict as [items|];
    [|exists []; simpl; rewrite app_nil_r; split_and!; auto].
  destruct (decide (valid_inputs self items)) as [Hv|Hv].
  - destruct (forward_events self items P Hv) as (evs & -> & Htr & Hevs).
    eexists. split; [exact Htr|]. split_and!.
    + right. rewrite !List.filter_app.
      rewrite (filter_RunNet_accesses _ (accesses_feeds items)).
      rewrite filter_RunNet_logged, (filter_RunNet_accesses _ Hevs).
      by case_bool_decide.
    + apply ws_name_noted.
    + apply net_noted.
    + intros msg. apply known_noted.
  - rewrite forward_invalid_run by done.
    exists []. simpl. rewrite app_nil_r. split_and!; auto.
Qed.

(** X16. Over any series of calls, whatever each is given and however each
    ends, the runner keeps its workspace name and its graph and loses no
    message of [_error_msgs]; the only graph the calls run is the runner's
    own, at most once per call. *)
Theorem calls_keep_runner (inputs : list (option TensorDict)) (self : t)
    (P : Process) :
  let s' := calls inputs (self, P) in
  ws_name s'.1 = ws_name self
  /\ net s'.1 = net self
  /\ _error_msgs self ⊆ _error_msgs s'.1
  /\ exists k,
       (k <= length inputs)%nat
       /\ List.filter is_RunNet (added P s'.2)
          = replicate k (EvRunNet (caffe2_pb2.name (net self))).
Proof.
  assert (forall s : t * Process,
            let s' := calls inputs s in
            ws_name s'.1 = ws_name s.1
            /\ net s'.1 = net s.1
            /\ _error_msgs s.1 ⊆ _error_msgs s'.1
            /\ exists k evs,
                 (k <= length inputs)%nat
                 /\ trace s'.2 = trace s.2 ++ evs
                 /\ List.filter is_RunNet evs
                    = replicate k (EvRunNet (caffe2_pb2.name (net s.1))))
    as Hseries.
  { induction inputs as [|i inputs IH]; intros [self0 P0].
    - simpl. split_and!; try done. exists 0%nat, [].
      by rewrite app_nil_r.
    - simpl.
      destruct (forward_step i self0 P0)
        as (evs & Htr & Hruns & Hws & Hnet & Hmsgs).
      destruct (IH (forward i (self0, P0)).2)
        as (Hws' & Hnet' & Hmsgs' & k & evs' & Hk & Htr' & Hruns').
      simpl in *. split_and!.
      + by rewrite Hws'.
      + by rewrite Hnet'.
      + by etrans.
      + rewrite Hnet in Hruns'.
        destruct Hruns as [Hnone|Hone].
        * exists k, (evs ++ evs'). split; [lia|]. split.
          -- by rewrite Htr', Htr, <- app_assoc.
          -- by rewrite List.filter_app, Hnone, Hruns'.
        * exists (S k), (evs ++ evs'). split; [lia|]. split.
          -- by rewrite Htr', Htr, <- app_assoc.
          -- by rewrite List.filter_app, Hone, Hruns'. }
  intros s'. destruct (Hseries (self, P))
    as (Hws & Hnet & Hmsgs & k & evs & Hk & Htr & Hruns).
  split_and!; try done. exists k. split; [done|].
  unfold s'. simpl in Htr. by rewrite (added_app _ _ _ Htr).
Qed.

End runner_series.

Lemma init_rejects_other_objects_witness :
  exists P',
    __init__ (Eng := Sample.sample) ObjOther (ObjNetDef Sample.init_net)
      Sample.started = (Raise AssertionError, P')
    /\ workspaces P' = workspaces Sample.started.
Proof.
  destruct (init_rejects_other_objects (Eng := Sample.sample) ObjOther
              (ObjNetDef Sample.init_net) Sample.started)
    as (P' & Hrun & _ & Hws & _).
  - left. reflexivity.
  - exists P'. split; [exact Hrun|exact Hws].
Defined.
